(** * Lock-free state exchangers of jack2: JackAtomicState and JackAtomicArrayState

    A shallow embedding of [src/common/JackAtomicState.h] (two slots, one
    writer, counter made of two 16-bit fields) and of
    [src/common/JackAtomicArrayState.h] (three slots, counter made of four
    bytes), with the properties of their switch / write protocol.

    Conventions of the embedding:
    - a pointer [&fState[i]] returned by an operation is the index [i];
    - [UInt16] and [unsigned char] values are integers of [Z]; every store
      into such a field truncates, as the parameter types of the setters do;
    - [fCallWriteCounter], the [SInt32] count of the write regions that
      are open, is an integer of [Z] that [++] and [--] wrap around in
      two's complement, as the targets of the library do;
    - an access outside [fState] has no defined behaviour in C++: the
      operation then has no result ([None]).  The functions named [_run]
      follow the machine instead of the language: their [memcpy] reads the
      bytes found at the source address also beyond [fState] (the read is
      taken not to trap), and these bytes are a payload [beyond] given with
      the call, any payload;
    - a [do { ... } while (!fCounter.CompareExchange(old_val, new_val))] loop
      runs against a list of interferences: the values other threads leave
      in the shared counter between the load of one iteration and its
      compare-and-exchange.  The empty list is the run without concurrent
      mutators. *)

From Stdlib Require Import ZArith Lia Bool.
From stdpp Require Import base option list strings pretty.

Local Open Scope Z_scope.

(** ** Machine integers *)

Definition to_UInt16 (z : Z) : Z := z mod 65536.

Definition to_uchar (z : Z) : Z := z mod 256.

Definition to_SInt32 (z : Z) : Z :=
  (z + 2147483648) mod 4294967296 - 2147483648.

Arguments to_SInt32 : simpl never.

(** ** Slot arrays [T fState[n]] *)

Section Slots.
Context {T : Type}.

(** [fState[i]], for an index inside the array. *)
Definition slot (a : list T) (i : Z) : option T :=
  if 0 <=? i then a !! Z.to_nat i else None.

(** [memcpy(&fState[dst], &fState[src], sizeof(T))]. *)
Definition memcpy (a : list T) (dst src : Z) : option (list T) :=
  match slot a src, slot a dst with
  | Some v, Some _ => Some (<[Z.to_nat dst := v]> a)
  | _, _ => None
  end.

(** The same [memcpy] as the machine runs it: when [src] is outside
    [fState] the bytes at [&fState[src]] are read all the same, and read as
    the payload [beyond]. *)
Definition memcpy_run (beyond : T) (a : list T) (dst src : Z)
  : option (list T) :=
  match slot a dst with
  | Some _ =>
      Some (<[Z.to_nat dst := match slot a src with
                              | Some v => v
                              | None => beyond
                              end]> a)
  | None => None
  end.

(** The writer's stores through the pointer [p] it was handed: the payload
    [v] behind [p] becomes [f v]. *)
Definition poke (a : list T) (i : Z) (f : T -> T) : list T :=
  match slot a i with
  | Some v => <[Z.to_nat i := f v]> a
  | None => a
  end.

End Slots.

(** ** Compare-and-exchange loops *)

Section CasLoop.
Context {C : Type} `{EqDecision C} {A : Type}.

(** [std::atomic<union _info>::compare_exchange_strong]: the whole word is
    compared. *)
Definition compare_exchange_strong (cell expected value : C) : C * bool :=
  if decide (cell = expected) then (value, true) else (cell, false).

(** [do { old_val = fCounter; (new_val, out) = body(old_val); }
     while (!fCounter.CompareExchange(old_val, new_val));]
    [env] lists, iteration after iteration, what the shared counter holds
    when the compare-and-exchange executes. *)
Fixpoint cas_loop (body : C -> C * A) (env : list C) (fCounter : C) : C * A :=
  let old_val := fCounter in
  let '(new_val, out) := body old_val in
  match env with
  | [] => (fst (compare_exchange_strong fCounter old_val new_val), out)
  | seen :: env' =>
      let '(fCounter', ok) := compare_exchange_strong seen old_val new_val in
      if ok then (fCounter', out) else cas_loop body env' fCounter'
  end.

End CasLoop.

(** ** JackAtomicState<T>: two slots *)

Module SingleExchanger.

(** [struct AtomicCounter]: [fShortVal1] is Cur, [fShortVal2] is Next. *)
Record AtomicCounter : Type := MkCounter {
  fShortVal1 : Z;
  fShortVal2 : Z
}.

#[global] Instance AtomicCounter_eq_dec : EqDecision AtomicCounter.
Proof. solve_decision. Defined.

Definition CurIndex (c : AtomicCounter) : Z := fShortVal1 c.

Definition SetCurIndex (c : AtomicCounter) (val : Z) : AtomicCounter :=
  {| fShortVal1 := to_UInt16 val; fShortVal2 := fShortVal2 c |}.

Definition NextIndex (c : AtomicCounter) : Z := fShortVal2 c.

Definition SetNextIndex (c : AtomicCounter) (val : Z) : AtomicCounter :=
  {| fShortVal1 := fShortVal1 c; fShortVal2 := to_UInt16 val |}.

Definition CurArrayIndex (c : AtomicCounter) : Z := Z.land (CurIndex c) 1.

Definition NextArrayIndex (c : AtomicCounter) : Z := Z.land (CurIndex c + 1) 1.

(** The default constructor: [union _info t{}]. *)
Definition AtomicCounter_init : AtomicCounter :=
  {| fShortVal1 := 0; fShortVal2 := 0 |}.

Section State.
Variable T : Type.

Record JackAtomicState : Type := MkState {
  fState : list T;
  fCounter : AtomicCounter;
  fCallWriteCounter : Z
}.

Definition set_fState (s : JackAtomicState) (a : list T) : JackAtomicState :=
  {| fState := a; fCounter := fCounter s;
     fCallWriteCounter := fCallWriteCounter s |}.

Definition set_fCounter (s : JackAtomicState) (c : AtomicCounter)
  : JackAtomicState :=
  {| fState := fState s; fCounter := c;
     fCallWriteCounter := fCallWriteCounter s |}.

Definition set_fCallWriteCounter (s : JackAtomicState) (d : Z)
  : JackAtomicState :=
  {| fState := fState s; fCounter := fCounter s; fCallWriteCounter := d |}.

(** The constructor, over the two payloads the slots start with. *)
Definition JackAtomicState_init (a b : T) : JackAtomicState :=
  {| fState := [a; b]; fCounter := AtomicCounter_init;
     fCallWriteCounter := 0 |}.

(** One iteration of the loop of [WriteNextStateStartAux]:
    the new counter, then [cur_index], [next_index] and [need_copy]. *)
Definition WriteNextStateStartAux_body (old_val : AtomicCounter)
  : AtomicCounter * (Z * Z * bool) :=
  let new_val := old_val in
  let cur_index := CurIndex new_val in
  let next_index := NextArrayIndex new_val in
  let need_copy := CurIndex new_val =? NextIndex new_val in
  let new_val := SetNextIndex new_val (CurIndex new_val) in
  (new_val, (cur_index, next_index, need_copy)).

Definition WriteNextStateStartAux (env : list AtomicCounter)
  (s : JackAtomicState) : option (JackAtomicState * Z) :=
  let '(c, (cur_index, next_index, need_copy)) :=
    cas_loop WriteNextStateStartAux_body env (fCounter s) in
  let s := set_fCounter s c in
  if need_copy then
    a ← memcpy (fState s) next_index cur_index;
    Some (set_fState s a, next_index)
  else Some (s, next_index).

Definition WriteNextStateStopAux_body (old_val : AtomicCounter)
  : AtomicCounter * unit :=
  let new_val := old_val in
  (SetNextIndex new_val (NextIndex new_val + 1), tt).

Definition WriteNextStateStopAux (env : list AtomicCounter)
  (s : JackAtomicState) : JackAtomicState :=
  set_fCounter s (fst (cas_loop WriteNextStateStopAux_body env (fCounter s))).

Definition ReadCurrentState (s : JackAtomicState) : Z :=
  CurArrayIndex (fCounter s).

Definition GetCurrentIndex (s : JackAtomicState) : Z :=
  CurIndex (fCounter s).

(** One iteration of the loop of [TrySwitchState(bool* result)]. *)
Definition TrySwitchState_body (old_val : AtomicCounter)
  : AtomicCounter * bool :=
  let new_val := old_val in
  let result := negb (CurIndex new_val =? NextIndex new_val) in
  (SetCurIndex new_val (NextIndex new_val), result).

(** [TrySwitchState(bool* result)]: the state, the slot returned and
    [*result]. *)
Definition TrySwitchState_result (env : list AtomicCounter)
  (s : JackAtomicState) : JackAtomicState * Z * bool :=
  let '(c, result) := cas_loop TrySwitchState_body env (fCounter s) in
  let s := set_fCounter s c in
  (s, CurArrayIndex (fCounter s), result).

(** [TrySwitchState()]. *)
Definition TrySwitchState (env : list AtomicCounter) (s : JackAtomicState)
  : JackAtomicState * Z :=
  let '(s, p, _) := TrySwitchState_result env s in (s, p).

(** [fCallWriteCounter++ == 0] tests the value before the increment. *)
Definition WriteNextStateStart (env : list AtomicCounter)
  (s : JackAtomicState) : option (JackAtomicState * Z) :=
  let depth := fCallWriteCounter s in
  let s := set_fCallWriteCounter s (to_SInt32 (depth + 1)) in
  if depth =? 0 then WriteNextStateStartAux env s
  else Some (s, NextArrayIndex (fCounter s)).

(** [--fCallWriteCounter == 0] tests the value after the decrement. *)
Definition WriteNextStateStop (env : list AtomicCounter)
  (s : JackAtomicState) : JackAtomicState :=
  let s := set_fCallWriteCounter s (to_SInt32 (fCallWriteCounter s - 1)) in
  if fCallWriteCounter s =? 0 then WriteNextStateStopAux env s else s.

(** [WriteNextStateStartAux] and [WriteNextStateStart] as the machine runs
    them: the same loop, and the copy reads [beyond] when [cur_index] is
    outside [fState]. *)
Definition WriteNextStateStartAux_run (beyond : T)
  (env : list AtomicCounter) (s : JackAtomicState)
  : option (JackAtomicState * Z) :=
  let '(c, (cur_index, next_index, need_copy)) :=
    cas_loop WriteNextStateStartAux_body env (fCounter s) in
  let s := set_fCounter s c in
  if need_copy then
    a ← memcpy_run beyond (fState s) next_index cur_index;
    Some (set_fState s a, next_index)
  else Some (s, next_index).

Definition WriteNextStateStart_run (beyond : T) (env : list AtomicCounter)
  (s : JackAtomicState) : option (JackAtomicState * Z) :=
  let depth := fCallWriteCounter s in
  let s := set_fCallWriteCounter s (to_SInt32 (depth + 1)) in
  if depth =? 0 then WriteNextStateStartAux_run beyond env s
  else Some (s, NextArrayIndex (fCounter s)).

Definition IsPendingChange (s : JackAtomicState) : bool :=
  negb (CurIndex (fCounter s) =? NextIndex (fCounter s)).

(** What the caller sees behind a returned pointer, and its stores. *)
Definition deref (s : JackAtomicState) (p : Z) : option T :=
  slot (fState s) p.

Definition store (s : JackAtomicState) (p : Z) (f : T -> T)
  : JackAtomicState :=
  set_fState s (poke (fState s) p f).

End State.

Arguments fState {T} _.
Arguments fCounter {T} _.
Arguments fCallWriteCounter {T} _.
Arguments set_fState {T} _ _.
Arguments set_fCounter {T} _ _.
Arguments set_fCallWriteCounter {T} _ _.
Arguments JackAtomicState_init {T} _ _.
Arguments WriteNextStateStartAux {T} _ _.
Arguments WriteNextStateStopAux {T} _ _.
Arguments ReadCurrentState {T} _.
Arguments GetCurrentIndex {T} _.
Arguments TrySwitchState_result {T} _ _.
Arguments TrySwitchState {T} _ _.
Arguments WriteNextStateStart {T} _ _.
Arguments WriteNextStateStop {T} _ _.
Arguments WriteNextStateStartAux_run {T} _ _ _.
Arguments WriteNextStateStart_run {T} _ _ _.
Arguments IsPendingChange {T} _.
Arguments deref {T} _ _.
Arguments store {T} _ _ _.

End SingleExchanger.

(** ** JackAtomicArrayState<T>: three slots *)

Module ArrayExchanger.

(** [struct AtomicArrayCounter]: [unsigned char fByteVal[4]]; [fByteVal[0]]
    is the current slot id, [fByteVal[1]] and [fByteVal[2]] are the written
    flags of the pending ids 1 and 2, [fByteVal[3]] is the switch
    counter. *)
Record AtomicArrayCounter : Type := MkCounter {
  fByteVal0 : Z;
  fByteVal1 : Z;
  fByteVal2 : Z;
  fByteVal3 : Z
}.

#[global] Instance AtomicArrayCounter_eq_dec : EqDecision AtomicArrayCounter.
Proof. solve_decision. Defined.

(** The indices of [fByteVal]; the operations of the class have no result
    at another index. *)
Definition in_fByteVal (state : Z) : bool := (0 <=? state) && (state <? 4).

Definition GetIndex1 (c : AtomicArrayCounter) (state : Z) : Z :=
  match state with
  | 0 => fByteVal0 c
  | 1 => fByteVal1 c
  | 2 => fByteVal2 c
  | 3 => fByteVal3 c
  | _ => 0
  end.

Definition SetIndex1 (c : AtomicArrayCounter) (state : Z) (val : Z)
  : AtomicArrayCounter :=
  let v := to_uchar val in
  match state with
  | 0 => {| fByteVal0 := v; fByteVal1 := fByteVal1 c;
            fByteVal2 := fByteVal2 c; fByteVal3 := fByteVal3 c |}
  | 1 => {| fByteVal0 := fByteVal0 c; fByteVal1 := v;
            fByteVal2 := fByteVal2 c; fByteVal3 := fByteVal3 c |}
  | 2 => {| fByteVal0 := fByteVal0 c; fByteVal1 := fByteVal1 c;
            fByteVal2 := v; fByteVal3 := fByteVal3 c |}
  | 3 => {| fByteVal0 := fByteVal0 c; fByteVal1 := fByteVal1 c;
            fByteVal2 := fByteVal2 c; fByteVal3 := v |}
  | _ => c
  end.

Definition IncIndex1 (c : AtomicArrayCounter) (state : Z)
  : AtomicArrayCounter :=
  SetIndex1 c state (GetIndex1 c state + 1).

(** [SwapIndex1] assigns to its local copy [v] only: the counter itself is
    left as it is, and the value assigned is returned as [unsigned char]. *)
Definition SwapIndex1 (c : AtomicArrayCounter) (state : Z) : Z :=
  to_uchar (if GetIndex1 c 0 =? state then 0 else state).

(** [SetCounter1(0)]. *)
Definition AtomicArrayCounter_init : AtomicArrayCounter :=
  {| fByteVal0 := 0; fByteVal1 := 0; fByteVal2 := 0; fByteVal3 := 0 |}.

Section State.
Variable T : Type.

Record JackAtomicArrayState : Type := MkState {
  fState : list T;
  fCounter : AtomicArrayCounter
}.

Definition set_fState (s : JackAtomicArrayState) (a : list T)
  : JackAtomicArrayState :=
  {| fState := a; fCounter := fCounter s |}.

Definition set_fCounter (s : JackAtomicArrayState) (c : AtomicArrayCounter)
  : JackAtomicArrayState :=
  {| fState := fState s; fCounter := c |}.

(** The constructor, over the three payloads the slots start with. *)
Definition JackAtomicArrayState_init (a b c : T) : JackAtomicArrayState :=
  {| fState := [a; b; c]; fCounter := AtomicArrayCounter_init |}.

(** One iteration of the loop of [WriteNextStateStartAux]: the new counter,
    then [*result], [cur_index], [next_index] and [need_copy].
    [fCounter.SwapIndex1(state)] reads the shared counter once more; it is
    given the value [old_val] was loaded from, the one the
    compare-and-exchange then confirms. *)
Definition WriteNextStateStartAux_body (state : Z)
  (old_val : AtomicArrayCounter)
  : AtomicArrayCounter * (bool * Z * Z * bool) :=
  let new_val := old_val in
  let result := negb (GetIndex1 new_val state =? 0) in
  let cur_index := GetIndex1 new_val 0 in
  let next_index := SwapIndex1 old_val state in
  let need_copy := GetIndex1 new_val state =? 0 in
  let new_val := SetIndex1 new_val state 0 in
  (new_val, (result, cur_index, next_index, need_copy)).

(** [WriteNextStateStartAux(state, result)]: the state, [next_index] and
    [*result]. *)
Definition WriteNextStateStartAux (env : list AtomicArrayCounter)
  (s : JackAtomicArrayState) (state : Z)
  : option (JackAtomicArrayState * Z * bool) :=
  if in_fByteVal state then
    let '(c, (result, cur_index, next_index, need_copy)) :=
      cas_loop (WriteNextStateStartAux_body state) env (fCounter s) in
    let s := set_fCounter s c in
    if need_copy then
      a ← memcpy (fState s) next_index cur_index;
      Some (set_fState s a, next_index, result)
    else Some (s, next_index, result)
  else None.

Definition WriteNextStateStopAux_body (state : Z)
  (old_val : AtomicArrayCounter) : AtomicArrayCounter * unit :=
  let new_val := old_val in
  (SetIndex1 new_val state 1, tt).

Definition WriteNextStateStopAux (env : list AtomicArrayCounter)
  (s : JackAtomicArrayState) (state : Z) : option JackAtomicArrayState :=
  if in_fByteVal state then
    Some (set_fCounter s
            (fst (cas_loop (WriteNextStateStopAux_body state) env
                    (fCounter s))))
  else None.

Definition ReadCurrentState (s : JackAtomicArrayState) : Z :=
  GetIndex1 (fCounter s) 0.

Definition GetCurrentIndex (s : JackAtomicArrayState) : Z :=
  to_UInt16 (GetIndex1 (fCounter s) 3).

(** One iteration of the loop of [TrySwitchState(state, result)]. *)
Definition TrySwitchState_body (state : Z) (old_val : AtomicArrayCounter)
  : AtomicArrayCounter * bool :=
  let new_val := old_val in
  let result := negb (GetIndex1 new_val state =? 0) in
  if result then
    let new_val := SetIndex1 new_val 0 (SwapIndex1 new_val state) in
    let new_val := SetIndex1 new_val state 0 in
    let new_val := IncIndex1 new_val 3 in
    (new_val, result)
  else (new_val, result).

(** [TrySwitchState(state, result)]: the state, the slot returned and
    [*result]. *)
Definition TrySwitchState_result (env : list AtomicArrayCounter)
  (s : JackAtomicArrayState) (state : Z)
  : option (JackAtomicArrayState * Z * bool) :=
  if in_fByteVal state then
    let '(c, result) :=
      cas_loop (TrySwitchState_body state) env (fCounter s) in
    let s := set_fCounter s c in
    Some (s, GetIndex1 (fCounter s) 0, result)
  else None.

(** [TrySwitchState(state)]. *)
Definition TrySwitchState (env : list AtomicArrayCounter)
  (s : JackAtomicArrayState) (state : Z)
  : option (JackAtomicArrayState * Z) :=
  '(s, p, _) ← TrySwitchState_result env s state; Some (s, p).

(** [WriteNextStateStart(state, result)]. *)
Definition WriteNextStateStart_result (env : list AtomicArrayCounter)
  (s : JackAtomicArrayState) (state : Z)
  : option (JackAtomicArrayState * Z * bool) :=
  WriteNextStateStartAux env s state.

(** [WriteNextStateStart(state)]. *)
Definition WriteNextStateStart (env : list AtomicArrayCounter)
  (s : JackAtomicArrayState) (state : Z)
  : option (JackAtomicArrayState * Z) :=
  '(s, index, _) ← WriteNextStateStartAux env s state; Some (s, index).

Definition WriteNextStateStop (env : list AtomicArrayCounter)
  (s : JackAtomicArrayState) (state : Z) : option JackAtomicArrayState :=
  WriteNextStateStopAux env s state.

(** What the caller sees behind a returned pointer, and its stores. *)
Definition deref (s : JackAtomicArrayState) (p : Z) : option T :=
  slot (fState s) p.

Definition store (s : JackAtomicArrayState) (p : Z) (f : T -> T)
  : JackAtomicArrayState :=
  set_fState s (poke (fState s) p f).

End State.

Arguments fState {T} _.
Arguments fCounter {T} _.
Arguments set_fState {T} _ _.
Arguments set_fCounter {T} _ _.
Arguments JackAtomicArrayState_init {T} _ _ _.
Arguments WriteNextStateStartAux {T} _ _ _.
Arguments WriteNextStateStopAux {T} _ _ _.
Arguments ReadCurrentState {T} _.
Arguments GetCurrentIndex {T} _.
Arguments TrySwitchState_result {T} _ _ _.
Arguments TrySwitchState {T} _ _ _.
Arguments WriteNextStateStart_result {T} _ _ _.
Arguments WriteNextStateStart {T} _ _ _.
Arguments WriteNextStateStop {T} _ _ _.
Arguments deref {T} _ _.
Arguments store {T} _ _ _.

End ArrayExchanger.

(** ** The single writer and the reader of a JackAtomicState *)

Module SingleProtocol.
Import SingleExchanger.

(** The predicate of the counter: nothing pending ([next == cur]) or one
    update published ([next == cur + 1] on 16 bits). *)
Definition counter_ok (c : AtomicCounter) : Prop :=
  NextIndex c = CurIndex c \/ NextIndex c = to_UInt16 (CurIndex c + 1).

Definition in_UInt16 (z : Z) : Prop := 0 <= z < 65536.

Definition in_SInt32 (z : Z) : Prop := -2147483648 <= z < 2147483648.

Section Protocol.
Variable T : Type.

(** Calls of the two threads: the writer's [WriteNextStateStart] (with
    what its copy reads, should it read beyond [fState]), its stores
    through the pointer it holds, [WriteNextStateStop], and the reader's
    [TrySwitchState]. *)
Inductive op : Type :=
  | Begin (beyond : T)
  | Put (f : T -> T)
  | End
  | Switch.

(** The exchanger with the pointer the writer got from its last
    [WriteNextStateStart], while it is inside a write region. *)
Record sys : Type := MkSys {
  st : JackAtomicState T;
  ptr : option Z
}.

Definition init_sys (a b : T) : sys :=
  {| st := JackAtomicState_init a b; ptr := None |}.

(** Paired and nested calls, as the machine runs them: [End] and [Put]
    only inside a write region, and a [Begin] only while fewer than
    2^31 - 1 regions are open, so that [fCallWriteCounter++] does not
    overflow. *)
Definition step (o : op) (x : sys) : option sys :=
  match o with
  | Begin beyond =>
      if fCallWriteCounter (st x) <? 2147483647 then
        '(s, p) ← WriteNextStateStart_run beyond [] (st x);
        Some {| st := s; ptr := Some p |}
      else None
  | Put f =>
      p ← ptr x;
      Some {| st := store (st x) p f; ptr := ptr x |}
  | End =>
      if 0 <? fCallWriteCounter (st x) then
        Some {| st := WriteNextStateStop [] (st x);
                ptr := if fCallWriteCounter (st x) =? 1 then None
                       else ptr x |}
      else None
  | Switch =>
      Some {| st := fst (TrySwitchState [] (st x)); ptr := ptr x |}
  end.

Fixpoint run (tr : list op) (x : sys) : option sys :=
  match tr with
  | [] => Some x
  | o :: tr' => x' ← step o x; run tr' x'
  end.

(** The calls made inside a write region: it is still open after each of
    them. *)
Fixpoint run_region (tr : list op) (x : sys) : option sys :=
  match tr with
  | [] => Some x
  | o :: tr' =>
      x' ← step o x;
      if 0 <? fCallWriteCounter (st x') then run_region tr' x' else None
  end.

(** What holds of every state the two threads can reach. *)
Definition disciplined (x : sys) : Prop :=
  length (fState (st x)) = 2%nat /\
  in_UInt16 (CurIndex (fCounter (st x))) /\
  in_UInt16 (NextIndex (fCounter (st x))) /\
  0 <= fCallWriteCounter (st x) /\
  (fCallWriteCounter (st x) = 0 ->
     counter_ok (fCounter (st x)) /\ ptr x = None) /\
  (0 < fCallWriteCounter (st x) ->
     NextIndex (fCounter (st x)) = CurIndex (fCounter (st x)) /\
     ptr x = Some (NextArrayIndex (fCounter (st x)))).

(** The same, with [fCallWriteCounter] within the range of a [SInt32]:
    what every state reached by [step] satisfies. *)
Definition in_protocol (x : sys) : Prop :=
  disciplined x /\ fCallWriteCounter (st x) < 2147483648.

(** The payload the reader sees. *)
Definition read (s : JackAtomicState T) : option T :=
  deref s (ReadCurrentState s).

(** One publication, then a switch: [WriteNextStateStart], the writer's
    stores, [WriteNextStateStop], [TrySwitchState]. *)
Definition publish_and_switch (f : T -> T) (s : JackAtomicState T)
  : option (JackAtomicState T) :=
  '(s, p) ← WriteNextStateStart [] s;
  let s := store s p f in
  let s := WriteNextStateStop [] s in
  Some (fst (TrySwitchState [] s)).

(** Two write regions with no switch in between, then one switch, as the
    machine runs them.  The result lists what the reader would read after
    each call of the writer, then [switched], the payload read and
    [IsPendingChange]. *)
Definition supersession (beyond1 beyond2 : T) (v1 v2 : T)
  (s0 : JackAtomicState T)
  : option (list (option T) * bool * option T * bool) :=
  '(s1, p) ← WriteNextStateStart_run beyond1 [] s0;
  let s2 := store s1 p (fun _ => v1) in
  let s3 := WriteNextStateStop [] s2 in
  '(s4, q) ← WriteNextStateStart_run beyond2 [] s3;
  let s5 := store s4 q (fun _ => v2) in
  let s6 := WriteNextStateStop [] s5 in
  let '(s7, _, switched) := TrySwitchState_result [] s6 in
  Some ([read s1; read s2; read s3; read s4; read s5; read s6],
        switched, read s7, IsPendingChange s7).

(** A write region nested in another, then one switch, as the machine
    runs them: the slots handed out, [switched], the payload read and the
    current index. *)
Definition nested_write (beyond1 beyond2 : T) (v1 v2 : T)
  (s0 : JackAtomicState T)
  : option (Z * Z * bool * option T * Z) :=
  '(s1, p) ← WriteNextStateStart_run beyond1 [] s0;
  let s2 := store s1 p (fun _ => v1) in
  '(s3, q) ← WriteNextStateStart_run beyond2 [] s2;
  let s4 := store s3 q (fun _ => v2) in
  let s5 := WriteNextStateStop [] s4 in
  let s6 := WriteNextStateStop [] s5 in
  let '(s7, _, switched) := TrySwitchState_result [] s6 in
  Some (p, q, switched, read s7, GetCurrentIndex s7).

End Protocol.

Arguments Begin {T} _.
Arguments Put {T} _.
Arguments End {T}.
Arguments Switch {T}.
Arguments st {T} _.
Arguments ptr {T} _.
Arguments init_sys {T} _ _.
Arguments step {T} _ _.
Arguments run {T} _ _.
Arguments run_region {T} _ _.
Arguments disciplined {T} _.
Arguments in_protocol {T} _.
Arguments read {T} _.
Arguments publish_and_switch {T} _ _.
Arguments supersession {T} _ _ _ _ _.
Arguments nested_write {T} _ _ _ _ _.

(** The payload of the copy-on-first-write scenario. *)
Record ab : Type := MkAb { a : Z; b : Z }.

Definition set_b (v : Z) (x : ab) : ab := {| a := a x; b := v |}.

(** The exchanger after two publications and switches from the
    constructor: [cur == next == 2], no write region open. *)
Definition after_two_switches : option (JackAtomicState Z) :=
  s ← publish_and_switch (fun _ => 1) (JackAtomicState_init 0 0);
  publish_and_switch (fun _ => 2) s.

(** The exchanger that two publications and switches leave. *)
Definition idle_at_two : JackAtomicState Z :=
  {| fState := [2; 1];
     fCounter := {| fShortVal1 := 2; fShortVal2 := 2 |};
     fCallWriteCounter := 0 |}.

(** An exchanger whose writer published while [cur] was 65535: [next]
    wrapped to 0. *)
Definition published_at_wrap : JackAtomicState Z :=
  {| fState := [7; 8];
     fCounter := {| fShortVal1 := 65535; fShortVal2 := 0 |};
     fCallWriteCounter := 0 |}.

End SingleProtocol.

(** ** The writers and the reader of a JackAtomicArrayState *)

Module ArrayProtocol.
Import ArrayExchanger.

(** The pending ids the class is used with: [fState[1]] pending,
    [fState[2]] request. *)
Definition pending_id (p : Z) : Prop := p = 1 \/ p = 2.

Section Protocol.
Variable T : Type.

(** Calls of the threads, each with the pending id it works on. *)
Inductive op : Type :=
  | Begin (p : Z)
  | Put (p : Z) (f : T -> T)
  | End (p : Z)
  | Switch (p : Z).

(** The exchanger with, for each writer inside a write region, the pointer
    its [WriteNextStateStart] returned. *)
Record sys : Type := MkSys {
  st : JackAtomicArrayState T;
  ptr : Z -> option Z
}.

Definition init_sys (a b c : T) : sys :=
  {| st := JackAtomicArrayState_init a b c; ptr := fun _ => None |}.

Definition set_ptr (h : Z -> option Z) (p : Z) (v : option Z)
  : Z -> option Z :=
  fun q => if q =? p then v else h q.

Definition step (o : op) (x : sys) : option sys :=
  match o with
  | Begin p =>
      '(s, i) ← WriteNextStateStart [] (st x) p;
      Some {| st := s; ptr := set_ptr (ptr x) p (Some i) |}
  | Put p f =>
      i ← ptr x p;
      Some {| st := store (st x) i f; ptr := ptr x |}
  | End p =>
      _ ← ptr x p;
      s ← WriteNextStateStop [] (st x) p;
      Some {| st := s; ptr := set_ptr (ptr x) p None |}
  | Switch p =>
      '(s, _) ← TrySwitchState [] (st x) p;
      Some {| st := s; ptr := ptr x |}
  end.

Fixpoint run (tr : list op) (x : sys) : option sys :=
  match tr with
  | [] => Some x
  | o :: tr' => x' ← step o x; run tr' x'
  end.

(** The payload the reader sees. *)
Definition read (s : JackAtomicArrayState T) : option T :=
  deref s (ReadCurrentState s).

(** No write in progress on the slot [ReadCurrentState] designates. *)
Definition current_not_written (x : sys) : Prop :=
  forall p i, ptr x p = Some i -> i <> ReadCurrentState (st x).

(** Writers on distinct ids inside their write regions hold distinct
    slots. *)
Definition writers_apart (x : sys) : Prop :=
  forall p q i j, p <> q -> ptr x p = Some i -> ptr x q = Some j -> i <> j.

(** The pending id a call works on. *)
Definition op_id (o : op) : Z :=
  match o with
  | Begin p | Put p _ | End p | Switch p => p
  end.

(** The flag of a writer inside its write region is down. *)
Definition flags_down (x : sys) : Prop :=
  forall p i, pending_id p -> ptr x p = Some i ->
    GetIndex1 (fCounter (st x)) p = 0.

(** All the interleavings of the calls of two threads. *)
Fixpoint interleave (l1 : list op) : list op -> list (list op) :=
  fix inner (l2 : list op) : list (list op) :=
    match l1, l2 with
    | [], _ => [l2]
    | _, [] => [l1]
    | o1 :: l1', o2 :: l2' =>
        map (cons o1) (interleave l1' l2) ++ map (cons o2) (inner l2')
    end.

(** After the calls [tr], [TrySwitchState(p1, &r1)] then
    [TrySwitchState(p2, &r2)]: [r1], the switch counter between the two,
    [r2], the payload read, the switch counter and [GetCurrentIndex]. *)
Definition switch_twice (p1 p2 : Z) (tr : list op) (x : sys)
  : option (bool * Z * bool * option T * Z * Z) :=
  x ← run tr x;
  '(s1, _, r1) ← TrySwitchState_result [] (st x) p1;
  '(s2, _, r2) ← TrySwitchState_result [] s1 p2;
  Some (r1, GetIndex1 (fCounter s1) 3, r2, read s2,
        GetIndex1 (fCounter s2) 3, GetCurrentIndex s2).

(** A writer that writes [v1], then starts over and writes [v2] with no
    switch in between; then [TrySwitchState(p, &switched)]: the two slots
    handed out, [was_published] of the second [WriteNextStateStart], the
    slots before and after it, [switched], the payload read and the switch
    counter. *)
Definition overwrite_unswitched (p : Z) (v1 v2 : T)
  (s0 : JackAtomicArrayState T)
  : option (Z * Z * bool * list T * list T * bool * option T * Z) :=
  '(s1, i) ← WriteNextStateStart [] s0 p;
  let s2 := store s1 i (fun _ => v1) in
  s3 ← WriteNextStateStop [] s2 p;
  '(s4, j, was_published) ← WriteNextStateStart_result [] s3 p;
  let s5 := store s4 j (fun _ => v2) in
  s6 ← WriteNextStateStop [] s5 p;
  '(s7, _, switched) ← TrySwitchState_result [] s6 p;
  Some (i, j, was_published, fState s3, fState s4, switched, read s7,
        GetIndex1 (fCounter s7) 3).

End Protocol.

Arguments Begin {T} _.
Arguments Put {T} _ _.
Arguments End {T} _.
Arguments Switch {T} _.
Arguments st {T} _.
Arguments ptr {T} _ _.
Arguments init_sys {T} _ _ _.
Arguments step {T} _ _.
Arguments run {T} _ _.
Arguments read {T} _.
Arguments current_not_written {T} _.
Arguments op_id {T} _.
Arguments flags_down {T} _.
Arguments writers_apart {T} _.
Arguments interleave {T} _ _.
Arguments switch_twice {T} _ _ _ _.
Arguments overwrite_unswitched {T} _ _ _ _.

(** The calls of the two writers of the interleave scenario. *)
Definition writer_A : list (op Z) := [Begin 1; Put 1 (fun _ => 100); End 1].

Definition writer_B : list (op Z) := [Begin 2; Put 2 (fun _ => 200); End 2].

(** Writer 1 publishes and is switched in, writer 2 publishes, writer 1
    starts a new write region (and stays in it); then the update of
    writer 2 is switched in and writer 2 starts over. *)
Definition shared_slot_trace : list (op Z) :=
  [Begin 1; Put 1 (fun _ => 10); End 1; Switch 1;
   Begin 2; Put 2 (fun _ => 20); End 2;
   Begin 1; Switch 2; Begin 2].

(** ... and writer 2 publishes again and is switched in. *)
Definition current_written_trace : list (op Z) :=
  shared_slot_trace ++ [Put 2 (fun _ => 30); End 2; Switch 2].

(** Writer 1 published and switched in, then published once more:
    the current slot id is 1 and [fByteVal[1]] is set. *)
Definition republish_trace : list (op Z) :=
  [Begin 1; Put 1 (fun _ => 10); End 1; Switch 1;
   Begin 1; Put 1 (fun _ => 11); End 1].

(** Writer 1 published and switched in (the current slot id is 1), then
    writer 2 published on slot 2. *)
Definition two_ids_trace : list (op Z) :=
  [Begin 1; Put 1 (fun _ => 10); End 1; Switch 1;
   Begin 2; Put 2 (fun _ => 20); End 2].

(** Writer 1 published and switched in, writer 2 published; then writer 1
    writes 11 in a new write region, the update of writer 2 is switched in
    meanwhile, and writer 1 publishes. *)
Definition disturbed_trace : list (op Z) :=
  two_ids_trace ++ [Begin 1; Put 1 (fun _ => 11); Switch 2; End 1].

(** The exchanger that [disturbed_trace] leaves: the current slot id is 2,
    [fByteVal[1]] is set, and slot 0 holds the update of writer 1. *)
Definition disturbed : JackAtomicArrayState Z :=
  {| fState := [11; 10; 20];
     fCounter := {| fByteVal0 := 2; fByteVal1 := 1; fByteVal2 := 0;
                    fByteVal3 := 2 |} |}.

(** The exchanger that [republish_trace] leaves. *)
Definition republished : JackAtomicArrayState Z :=
  {| fState := [11; 10; 0];
     fCounter := {| fByteVal0 := 1; fByteVal1 := 1; fByteVal2 := 0;
                    fByteVal3 := 1 |} |}.

(** An exchanger whose switch counter is about to wrap, with an update
    published on id 2. *)
Definition ticket_at_wrap : JackAtomicArrayState Z :=
  {| fState := [4; 5; 6];
     fCounter := {| fByteVal0 := 0; fByteVal1 := 0; fByteVal2 := 1;
                    fByteVal3 := 255 |} |}.

End ArrayProtocol.

(** ** The counters as 32-bit words *)

Module CounterWords.

(** [AtomicCounter::Counter()]: the [fLongVal] member of the union, on a
    little-endian machine ([fShortVal1] is the low half). *)
Definition Counter (c : SingleExchanger.AtomicCounter) : Z :=
  SingleExchanger.fShortVal1 c + 65536 * SingleExchanger.fShortVal2 c.

(** A 32-bit word stored into [fLongVal], read back through [scounter]. *)
Definition AtomicCounter_of_word (w : Z) : SingleExchanger.AtomicCounter :=
  {| SingleExchanger.fShortVal1 := w mod 65536;
     SingleExchanger.fShortVal2 := (w / 65536) mod 65536 |}.

(** [AtomicCounter::operator=(AtomicCounter& obj)]:
    [v.fLongVal = obj.Counter(); info.store(v)]. *)
Definition AtomicCounter_assign (obj : SingleExchanger.AtomicCounter)
  : SingleExchanger.AtomicCounter :=
  AtomicCounter_of_word (Counter obj).

(** [AtomicCounter::CompareExchange(old, repl)], on the words. *)
Definition CompareExchange (this old repl : SingleExchanger.AtomicCounter)
  : SingleExchanger.AtomicCounter * bool :=
  if Counter this =? Counter old
  then (AtomicCounter_of_word (Counter repl), true)
  else (this, false).

Definition counter_in_range (c : SingleExchanger.AtomicCounter) : Prop :=
  0 <= SingleExchanger.fShortVal1 c < 65536 /\
  0 <= SingleExchanger.fShortVal2 c < 65536.

(** [AtomicArrayCounter::Counter1()]: [fLongVal] over the four bytes,
    [fByteVal[0]] lowest. *)
Definition Counter1 (c : ArrayExchanger.AtomicArrayCounter) : Z :=
  ArrayExchanger.fByteVal0 c + 256 * ArrayExchanger.fByteVal1 c +
  65536 * ArrayExchanger.fByteVal2 c + 16777216 * ArrayExchanger.fByteVal3 c.

(** [AtomicArrayCounter::SetCounter1(value)]: [v.fLongVal = value], with
    [value] a [UInt32]. *)
Definition SetCounter1 (value : Z) : ArrayExchanger.AtomicArrayCounter :=
  let w := value mod 4294967296 in
  {| ArrayExchanger.fByteVal0 := w mod 256;
     ArrayExchanger.fByteVal1 := (w / 256) mod 256;
     ArrayExchanger.fByteVal2 := (w / 65536) mod 256;
     ArrayExchanger.fByteVal3 := (w / 16777216) mod 256 |}.

(** [AtomicArrayCounter::operator=(AtomicArrayCounter& obj)]. *)
Definition AtomicArrayCounter_assign (obj : ArrayExchanger.AtomicArrayCounter)
  : ArrayExchanger.AtomicArrayCounter :=
  SetCounter1 (Counter1 obj).

Definition bytes_in_range (c : ArrayExchanger.AtomicArrayCounter) : Prop :=
  0 <= ArrayExchanger.fByteVal0 c < 256 /\
  0 <= ArrayExchanger.fByteVal1 c < 256 /\
  0 <= ArrayExchanger.fByteVal2 c < 256 /\
  0 <= ArrayExchanger.fByteVal3 c < 256.

End CounterWords.

(** ** Uses of a JackAtomicState *)

Module SingleUse.
Import SingleExchanger SingleProtocol.

Section Use.
Variable T : Type.

(** The writer changes the payload by [f] in one write region, then the
    reader switches: the exchanger, [*result] and the payload read. *)
Definition update_and_switch (f : T -> T) (s : JackAtomicState T)
  : option (JackAtomicState T * bool * option T) :=
  '(s, p) ← WriteNextStateStart [] s;
  let s := WriteNextStateStop [] (store s p f) in
  let '(s, _, result) := TrySwitchState_result [] s in
  Some (s, result, read s).

(** One paired [WriteNextStateStart] / [WriteNextStateStop], with the
    writer's stores in between, as the machine runs them. *)
Definition write_round (beyond : T) (f : T -> T) (s : JackAtomicState T)
  : option (JackAtomicState T) :=
  '(s, p) ← WriteNextStateStart_run beyond [] s;
  Some (WriteNextStateStop [] (store s p f)).

(** Such pairs one after the other, none nested in another. *)
Fixpoint write_rounds (beyond : T) (fs : list (T -> T))
  (s : JackAtomicState T) : option (JackAtomicState T) :=
  match fs with
  | [] => Some s
  | f :: fs' => s' ← write_round beyond f s; write_rounds beyond fs' s'
  end.

(** A pair nested in another one. *)
Definition nested_round (beyond : T) (f : T -> T) (s : JackAtomicState T)
  : option (JackAtomicState T) :=
  '(s, _) ← WriteNextStateStart_run beyond [] s;
  '(s, q) ← WriteNextStateStart_run beyond [] s;
  let s := store s q f in
  Some (WriteNextStateStop [] (WriteNextStateStop [] s)).

Definition is_Switch (o : op T) : bool :=
  match o with
  | Switch => true
  | _ => false
  end.

End Use.

Arguments update_and_switch {T} _ _.
Arguments write_round {T} _ _ _.
Arguments write_rounds {T} _ _ _.
Arguments nested_round {T} _ _ _.
Arguments is_Switch {T} _.

End SingleUse.

(** ** Uses of a JackAtomicArrayState *)

Module ArrayUse.
Import ArrayExchanger ArrayProtocol.

Section Use.
Variable T : Type.

(** Three slots, and a current slot id that designates one of them. *)
Definition three_slots (s : JackAtomicArrayState T) : Prop :=
  length (fState s) = 3%nat /\ 0 <= GetIndex1 (fCounter s) 0 <= 2.

(** One publication on id [p] and its switch: [WriteNextStateStart(p)],
    the writer's stores, [WriteNextStateStop(p)],
    [TrySwitchState(p, &result)]. *)
Definition update_and_switch (p : Z) (f : T -> T)
  (s : JackAtomicArrayState T)
  : option (JackAtomicArrayState T * bool * option T) :=
  '(s, i) ← WriteNextStateStart [] s p;
  s ← WriteNextStateStop [] (store s i f) p;
  '(s, _, result) ← TrySwitchState_result [] s p;
  Some (s, result, read s).

Fixpoint updates_and_switches (p : Z) (fs : list (T -> T))
  (s : JackAtomicArrayState T) : option (JackAtomicArrayState T) :=
  match fs with
  | [] => Some s
  | f :: fs' =>
      '(s', _, _) ← update_and_switch p f s; updates_and_switches p fs' s'
  end.

Definition is_Switch (o : op T) : bool :=
  match o with
  | Switch _ => true
  | _ => false
  end.

End Use.

Arguments three_slots {T} _.
Arguments update_and_switch {T} _ _ _.
Arguments updates_and_switches {T} _ _ _.
Arguments is_Switch {T} _.

End ArrayUse.

(** ** JackAudioDriver: ports and process cycle *)

Module AudioDriver.

(** The calls the driver makes to its collaborators (graph manager, ports,
    engine, the driver's own virtual [Read] and [Write]) and its error
    reports; [GetPort] and the [JackLog] traces are left out. *)
Inductive call : Type :=
  | AllocatePort (refnum : Z) (name : string) (flags : Z)
  | Rename (port : Z) (format : string) (n : Z)
  | SetLatency (port : Z) (frames : Z)
  | ReleasePort (refnum : Z) (port : Z)
  | CallRead
  | CallWrite
  | EngineProcess (ust : Z)
  | ResumeRefNum
  | SuspendRefNum (timeout : Z)
  | ProcessSlaves
  | jack_error (format : string) (args : list string).

(** The members of the driver the functions below use: its own, and those
    it inherits from [JackDriver] or reaches through [fClientControl] and
    [fEngineControl].  A port list is read as the function from index to
    port id; the size of the three arrays is declared outside the sources
    at hand, and the channel counts are taken to be within it. *)
Record JackAudioDriver : Type := MkDriver {
  fCaptureChannels : Z;
  fPlaybackChannels : Z;
  fWithMonitorPorts : bool;
  fCapturePortList : Z -> Z;
  fPlaybackPortList : Z -> Z;
  fMonitorPortList : Z -> Z;
  fCaptureLatency : Z;
  fPlaybackLatency : Z;
  fCaptureDriverName : string;
  fPlaybackDriverName : string;
  fRefNum : Z;
  fName : string;
  fBufferSize : Z;
  fSyncMode : bool;
  fTimeOutUsecs : Z;
  fIsMaster : bool;
  fLastWaitUst : Z
}.

(** [list[i] = port_index]. *)
Definition set_port (list : Z -> Z) (i port_index : Z) : Z -> Z :=
  fun j => if j =? i then port_index else list j.

Definition set_fCapturePortList (d : JackAudioDriver) (l : Z -> Z)
  : JackAudioDriver :=
  MkDriver (fCaptureChannels d) (fPlaybackChannels d) (fWithMonitorPorts d)
    l (fPlaybackPortList d) (fMonitorPortList d)
    (fCaptureLatency d) (fPlaybackLatency d) (fCaptureDriverName d)
    (fPlaybackDriverName d) (fRefNum d) (fName d) (fBufferSize d)
    (fSyncMode d) (fTimeOutUsecs d) (fIsMaster d) (fLastWaitUst d).

Definition set_fPlaybackPortList (d : JackAudioDriver) (l : Z -> Z)
  : JackAudioDriver :=
  MkDriver (fCaptureChannels d) (fPlaybackChannels d) (fWithMonitorPorts d)
    (fCapturePortList d) l (fMonitorPortList d)
    (fCaptureLatency d) (fPlaybackLatency d) (fCaptureDriverName d)
    (fPlaybackDriverName d) (fRefNum d) (fName d) (fBufferSize d)
    (fSyncMode d) (fTimeOutUsecs d) (fIsMaster d) (fLastWaitUst d).

Definition set_fMonitorPortList (d : JackAudioDriver) (l : Z -> Z)
  : JackAudioDriver :=
  MkDriver (fCaptureChannels d) (fPlaybackChannels d) (fWithMonitorPorts d)
    (fCapturePortList d) (fPlaybackPortList d) l
    (fCaptureLatency d) (fPlaybackLatency d) (fCaptureDriverName d)
    (fPlaybackDriverName d) (fRefNum d) (fName d) (fBufferSize d)
    (fSyncMode d) (fTimeOutUsecs d) (fIsMaster d) (fLastWaitUst d).

(** [jack_nframes_t] arithmetic, on 32 bits. *)
Definition to_nframes (z : Z) : Z := z mod 4294967296.

(** [snprintf(buf, n, ...)] keeps at most [n - 1] characters. *)
Definition snprintf (n : nat) (s : string) : string :=
  String.substring 0 (n - 1) s.

(** A run of a function of the driver: the driver, the number of
    [AllocatePort] calls made so far and the calls made so far. *)
Record run : Type := MkRun {
  drv : JackAudioDriver;
  allocs : nat;
  calls : list call
}.

Definition emit (c : call) (r : run) : run :=
  {| drv := drv r; allocs := allocs r; calls := calls r ++ [c] |}.

Definition set_drv (r : run) (d : JackAudioDriver) : run :=
  {| drv := d; allocs := allocs r; calls := calls r |}.

(** A loop body either goes on to the next iteration or returns. *)
Inductive outcome : Type :=
  | Goes_on
  | Returned (code : Z).

(** [for (i = first; ...; i++)] over [n] iterations, left at the first
    [return]. *)
Fixpoint for_loop (n : nat) (i : Z) (body : Z -> run -> run * outcome)
  (r : run) : run * outcome :=
  match n with
  | O => (r, Goes_on)
  | S n' =>
      match body i r with
      | (r', Goes_on) => for_loop n' (i + 1) body r'
      | (r', Returned code) => (r', Returned code)
      end
  end.

Section Attach.
(** Constants declared outside the sources at hand: [NO_PORT], the port
    flags, and [JACK_CLIENT_NAME_SIZE + JACK_PORT_NAME_SIZE], the size of
    [buf]. *)
Variables (NO_PORT : Z)
  (JackPortIsInput JackPortIsOutput JackPortIsPhysical JackPortIsTerminal : Z)
  (buf_size : nat).

(** The port ids [fGraphManager->AllocatePort] returns, call after call. *)
Variable answer : nat -> Z.

(** [port_index = fGraphManager->AllocatePort(fRefNum, buf, flags)]. *)
Definition allocate (buf : string) (flags : Z) (r : run) : run * Z :=
  ({| drv := drv r; allocs := S (allocs r);
      calls := calls r ++ [AllocatePort (fRefNum (drv r)) buf flags] |},
   answer (allocs r)).

Definition capture_body (i : Z) (r : run) : run * outcome :=
  let d := drv r in
  let port_flags :=
    Z.lor (Z.lor JackPortIsOutput JackPortIsPhysical) JackPortIsTerminal in
  let buf :=
    snprintf (buf_size - 1)
      (fName d +:+ ":" +:+ fCaptureDriverName d +:+ ":out" +:+ pretty (i + 1))
  in
  let '(r, port_index) := allocate buf port_flags r in
  if port_index =? NO_PORT then
    (emit (jack_error "driver: cannot register port for %s" [buf]) r,
     Returned (-1))
  else
    let r := emit (Rename port_index "system:capture_%d" (i + 1)) r in
    let r :=
      emit (SetLatency port_index
              (to_nframes (fBufferSize d + fCaptureLatency d))) r in
    let r :=
      set_drv r
        (set_fCapturePortList (drv r)
           (set_port (fCapturePortList (drv r)) i port_index)) in
    (r, Goes_on).

Definition playback_body (i : Z) (r : run) : run * outcome :=
  let d := drv r in
  let port_flags :=
    Z.lor (Z.lor JackPortIsInput JackPortIsPhysical) JackPortIsTerminal in
  let buf :=
    snprintf (buf_size - 1)
      (fName d +:+ ":" +:+ fPlaybackDriverName d +:+ ":in" +:+ pretty (i + 1))
  in
  let '(r, port_index) := allocate buf port_flags r in
  if port_index =? NO_PORT then
    (emit (jack_error "driver: cannot register port for %s" [buf]) r,
     Returned (-1))
  else
    let r := emit (Rename port_index "system:playback_%d" (i + 1)) r in
    let r :=
      emit (SetLatency port_index
              (to_nframes (fBufferSize d + fPlaybackLatency d))) r in
    let r :=
      set_drv r
        (set_fPlaybackPortList (drv r)
           (set_port (fPlaybackPortList (drv r)) i port_index)) in
    if fWithMonitorPorts d then
      let buf :=
        snprintf (buf_size - 1)
          (fName d +:+ ":" +:+ fPlaybackDriverName d +:+ ":monitor_"
           +:+ pretty (i + 1)) in
      let '(r, port_index) := allocate buf JackPortIsOutput r in
      if port_index =? NO_PORT then
        (emit (jack_error "Cannot register monitor port for %s" [buf]) r,
         Returned (-1))
      else
        let r := emit (SetLatency port_index (fBufferSize d)) r in
        let r :=
          set_drv r
            (set_fMonitorPortList (drv r)
               (set_port (fMonitorPortList (drv r)) i port_index)) in
        (r, Goes_on)
    else (r, Goes_on).

(** [JackAudioDriver::Attach()]: the run and the value returned. *)
Definition Attach (d : JackAudioDriver) : run * Z :=
  let r := {| drv := d; allocs := O; calls := [] |} in
  match for_loop (Z.to_nat (fCaptureChannels d)) 0 capture_body r with
  | (r, Returned code) => (r, code)
  | (r, Goes_on) =>
      match for_loop (Z.to_nat (fPlaybackChannels d)) 0 playback_body r with
      | (r, Returned code) => (r, code)
      | (r, Goes_on) => (r, 0)
      end
  end.

End Attach.

Definition release_capture (i : Z) (r : run) : run * outcome :=
  (emit (ReleasePort (fRefNum (drv r)) (fCapturePortList (drv r) i)) r,
   Goes_on).

Definition release_playback (i : Z) (r : run) : run * outcome :=
  let r := emit (ReleasePort (fRefNum (drv r)) (fPlaybackPortList (drv r) i)) r
  in
  if fWithMonitorPorts (drv r) then
    (emit (ReleasePort (fRefNum (drv r)) (fMonitorPortList (drv r) i)) r,
     Goes_on)
  else (r, Goes_on).

(** [JackAudioDriver::Detach()]: the calls made, and the value returned. *)
Definition Detach (d : JackAudioDriver) : list call * Z :=
  let r := {| drv := d; allocs := O; calls := [] |} in
  let r := fst (for_loop (Z.to_nat (fCaptureChannels d)) 0 release_capture r)
  in
  let r :=
    fst (for_loop (Z.to_nat (fPlaybackChannels d)) 0 release_playback r) in
  (calls r, 0).

(** What the calls of one process cycle answer. *)
Record answers : Type := MkAnswers {
  Read_result : Z;
  Write_result : Z;
  EngineProcess_result : bool;
  ProcessSlaves_result : Z;
  SuspendRefNum_result : Z
}.

(** [JackAudioDriver::ProcessAsync()]. *)
Definition ProcessAsync (d : JackAudioDriver) (a : answers)
  : list call * Z :=
  let t := [CallRead] in
  if Read_result a <? 0 then
    (t ++ [jack_error "ProcessAsync: read error" []], 0)
  else
    let t := t ++ [CallWrite] in
    if Write_result a <? 0 then
      (t ++ [jack_error "ProcessAsync: write error" []], 0)
    else if fIsMaster d then
      (t ++ [EngineProcess (fLastWaitUst d); ResumeRefNum; ProcessSlaves], 0)
    else (t ++ [ResumeRefNum], 0).

(** [JackAudioDriver::ProcessSync()]. *)
Definition ProcessSync (d : JackAudioDriver) (a : answers)
  : list call * Z :=
  let t := [CallRead] in
  if Read_result a <? 0 then
    (t ++ [jack_error "ProcessSync: read error" []], 0)
  else if fIsMaster d then
    let t := t ++ [EngineProcess (fLastWaitUst d)] in
    let t :=
      if EngineProcess_result a then
        let t := t ++ [ResumeRefNum; ProcessSlaves] in
        let t :=
          if ProcessSlaves_result a <? 0 then
            t ++ [jack_error
                    "JackAudioDriver::ProcessSync ProcessSlaves error, engine may now behave abnormally!!"
                    []]
          else t in
        let t := t ++ [SuspendRefNum (fTimeOutUsecs d)] in
        if SuspendRefNum_result a <? 0 then
          t ++ [jack_error
                  "JackAudioDriver::ProcessSync SuspendRefNum error, engine may now behave abnormally!!"
                  []]
        else t
      else t ++ [jack_error "JackAudioDriver::ProcessSync: error" []] in
    let t := t ++ [CallWrite] in
    if Write_result a <? 0 then
      (t ++ [jack_error "Process: write error" []], 0)
    else (t, 0)
  else (t ++ [ResumeRefNum], 0).

(** [JackAudioDriver::Process()]. *)
Definition Process (d : JackAudioDriver) (a : answers) : list call * Z :=
  if fSyncMode d then ProcessSync d a else ProcessAsync d a.

Definition is_AllocatePort (c : call) : bool :=
  match c with
  | AllocatePort _ _ _ => true
  | _ => false
  end.

Definition is_ReleasePort (c : call) : bool :=
  match c with
  | ReleasePort _ _ => true
  | _ => false
  end.

Definition is_EngineProcess (c : call) : bool :=
  match c with
  | EngineProcess _ => true
  | _ => false
  end.

Definition is_CallWrite (c : call) : bool :=
  match c with
  | CallWrite => true
  | _ => false
  end.

(** The number of calls of a kind among the calls made. *)
Definition count (p : call -> bool) (l : list call) : nat :=
  length (List.filter p l).

(** The calls made before the first [Write] and those made after it. *)
Fixpoint split_at_write (l : list call) : option (list call * list call) :=
  match l with
  | [] => None
  | CallWrite :: l' => Some ([], l')
  | c :: l' =>
      match split_at_write l' with
      | Some (before, after) => Some (c :: before, after)
      | None => None
      end
  end.

(** The last two calls are an [AllocatePort] and the report of its
    refusal, for the same name. *)
Definition ends_refused (l : list call) : Prop :=
  exists t refnum buf flags format,
    l = t ++ [AllocatePort refnum buf flags; jack_error format [buf]].

(** What [Attach] keeps all along: the [AllocatePort] calls are counted,
    no port is released, and the members [Attach] only reads are those of
    the driver [d] it started on. *)
Definition attaching (d : JackAudioDriver) (r : run) : Prop :=
  count is_AllocatePort (calls r) = allocs r /\
  count is_ReleasePort (calls r) = O /\
  fCaptureChannels (drv r) = fCaptureChannels d /\
  fPlaybackChannels (drv r) = fPlaybackChannels d /\
  fWithMonitorPorts (drv r) = fWithMonitorPorts d /\
  fRefNum (drv r) = fRefNum d.

(** The number of ports [Attach] asks for. *)
Definition ports_needed (d : JackAudioDriver) : nat :=
  (Z.to_nat (fCaptureChannels d) +
   Z.to_nat (fPlaybackChannels d) * (if fWithMonitorPorts d then 2 else 1))%nat.

(** A driver with two capture channels, one playback channel and monitor
    ports, before [Attach]. *)
Definition stereo_in_mono_out : JackAudioDriver :=
  {| fCaptureChannels := 2; fPlaybackChannels := 1;
     fWithMonitorPorts := true;
     fCapturePortList := fun _ => 0; fPlaybackPortList := fun _ => 0;
     fMonitorPortList := fun _ => 0;
     fCaptureLatency := 64; fPlaybackLatency := 128;
     fCaptureDriverName := "alsa_pcm"; fPlaybackDriverName := "alsa_pcm";
     fRefNum := 0; fName := "system"; fBufferSize := 1024;
     fSyncMode := false; fTimeOutUsecs := 0; fIsMaster := true;
     fLastWaitUst := 0 |}.

(** A cycle in which every call succeeds, and one whose [Read] fails. *)
Definition all_well : answers :=
  {| Read_result := 0; Write_result := 0; EngineProcess_result := true;
     ProcessSlaves_result := 0; SuspendRefNum_result := 0 |}.

Definition read_failed : answers :=
  {| Read_result := -1; Write_result := 0; EngineProcess_result := true;
     ProcessSlaves_result := 0; SuspendRefNum_result := 0 |}.

(** A graph manager that grants port [k + 1] at its call number [k], and
    one that refuses its third port. *)
Definition grants_all (k : nat) : Z := Z.of_nat k + 1.

Definition refuses_third (k : nat) : Z :=
  if Nat.eqb k 2 then 4294967294 else Z.of_nat k + 1.

End AudioDriver.

(** * Properties *)

(** ** Integers, slots, compare-and-exchange loops *)

Lemma land_1_mod (c : Z) : Z.land c 1 = c mod 2.
Proof. exact (Z.land_ones c 1 ltac:(lia)). Qed.

Lemma land_1_range (c : Z) : Z.land c 1 = 0 \/ Z.land c 1 = 1.
Proof.
  rewrite land_1_mod. pose proof (Z.mod_pos_bound c 2 ltac:(lia)). lia.
Qed.

Lemma land_1_succ (c : Z) : Z.land (c + 1) 1 = 1 - Z.land c 1.
Proof.
  rewrite !land_1_mod.
  rewrite (Z.div_mod c 2) at 1 by lia.
  replace (2 * (c / 2) + c mod 2 + 1) with ((c mod 2 + 1) + (c / 2) * 2)
    by lia.
  rewrite Z.mod_add by lia.
  pose proof (Z.mod_pos_bound c 2 ltac:(lia)).
  assert (c mod 2 = 0 \/ c mod 2 = 1) as [-> | ->] by lia; reflexivity.
Qed.

Lemma land_1_succ_ne (c : Z) : Z.land (c + 1) 1 <> Z.land c 1.
Proof. rewrite land_1_succ. destruct (land_1_range c); lia. Qed.

Lemma to_UInt16_range (z : Z) : 0 <= to_UInt16 z < 65536.
Proof. unfold to_UInt16. apply Z.mod_pos_bound. lia. Qed.

Lemma to_UInt16_small (z : Z) : 0 <= z < 65536 -> to_UInt16 z = z.
Proof. intros. unfold to_UInt16. apply Z.mod_small. lia. Qed.

Lemma to_UInt16_idem (z : Z) : to_UInt16 (to_UInt16 z) = to_UInt16 z.
Proof. apply to_UInt16_small, to_UInt16_range. Qed.

(** Incrementing on 16 bits changes the parity: 65536 is even. *)
Lemma land_1_to_UInt16 (z : Z) : Z.land (to_UInt16 z) 1 = Z.land z 1.
Proof.
  rewrite !land_1_mod. unfold to_UInt16.
  rewrite (Z.div_mod z 65536) at 2 by lia.
  replace (65536 * (z / 65536) + z mod 65536)
    with (z mod 65536 + (32768 * (z / 65536)) * 2) by lia.
  rewrite Z.mod_add by lia. reflexivity.
Qed.

Lemma to_SInt32_small (z : Z) :
  -2147483648 <= z < 2147483648 -> to_SInt32 z = z.
Proof. unfold to_SInt32. intros H. Z.div_mod_to_equations. lia. Qed.

Lemma to_SInt32_range (z : Z) : -2147483648 <= to_SInt32 z < 2147483648.
Proof. unfold to_SInt32. Z.div_mod_to_equations. lia. Qed.

(** An increment undone by a decrement, also across the wrap-around. *)
Lemma to_SInt32_succ_pred (z : Z) :
  -2147483648 <= z < 2147483648 -> to_SInt32 (to_SInt32 (z + 1) - 1) = z.
Proof. unfold to_SInt32. intros H. Z.div_mod_to_equations. lia. Qed.

Lemma to_UInt16_succ_ne (z : Z) : 0 <= z < 65536 -> to_UInt16 (z + 1) <> z.
Proof.
  intros Hz E.
  assert (Z.land (to_UInt16 (z + 1)) 1 = Z.land z 1) as E' by (rewrite E; reflexivity).
  rewrite land_1_to_UInt16 in E'. exact (land_1_succ_ne z E').
Qed.

Section SlotFacts.
Context {T : Type}.
Implicit Types (a : list T) (i j : Z).

Lemma slot_Some a i v :
  slot a i = Some v -> 0 <= i /\ (Z.to_nat i < length a)%nat.
Proof.
  unfold slot. destruct (0 <=? i) eqn:E; [|discriminate].
  intros H. split; [lia|]. eapply lookup_lt_Some; eauto.
Qed.

Lemma slot_in_range a i :
  0 <= i -> (Z.to_nat i < length a)%nat -> exists v, slot a i = Some v.
Proof.
  intros Hi Hl. unfold slot.
  destruct (0 <=? i) eqn:E; [|lia].
  destruct (lookup_lt_is_Some_2 a (Z.to_nat i) Hl) as [v Hv]. eauto.
Qed.

Lemma slot_out_of_range a i :
  (length a <= Z.to_nat i)%nat -> slot a i = None.
Proof.
  intros Hl. unfold slot. destruct (0 <=? i); [|reflexivity].
  apply lookup_ge_None_2. exact Hl.
Qed.

Lemma slot_insert_eq a i v w :
  slot a i = Some w -> slot (<[Z.to_nat i := v]> a) i = Some v.
Proof.
  intros H. destruct (slot_Some _ _ _ H) as [Hi Hl].
  unfold slot. destruct (0 <=? i) eqn:E; [|lia].
  apply list_lookup_insert_eq. exact Hl.
Qed.

Lemma slot_insert_ne a i j v :
  0 <= i -> 0 <= j -> i <> j -> slot (<[Z.to_nat i := v]> a) j = slot a j.
Proof.
  intros Hi Hj Hne. unfold slot. destruct (0 <=? j); [|reflexivity].
  apply list_lookup_insert_ne. lia.
Qed.

Lemma memcpy_Some a dst src v w :
  slot a src = Some v -> slot a dst = Some w ->
  memcpy a dst src = Some (<[Z.to_nat dst := v]> a).
Proof. intros Hs Hd. unfold memcpy. rewrite Hs, Hd. reflexivity. Qed.

Lemma memcpy_inv a dst src a' :
  memcpy a dst src = Some a' ->
  exists v, slot a src = Some v /\ a' = <[Z.to_nat dst := v]> a /\
            slot a' dst = Some v /\ length a' = length a.
Proof.
  unfold memcpy. destruct (slot a src) as [v|] eqn:Hs; [|discriminate].
  destruct (slot a dst) as [w|] eqn:Hd; [|discriminate].
  intros [= <-]. exists v. repeat split.
  - eapply slot_insert_eq; eauto.
  - apply length_insert.
Qed.

Lemma memcpy_source_outside a dst src :
  (length a <= Z.to_nat src)%nat -> memcpy a dst src = None.
Proof. intros H. unfold memcpy. rewrite (slot_out_of_range _ _ H). reflexivity. Qed.

Lemma memcpy_run_inv beyond a dst src a' :
  memcpy_run beyond a dst src = Some a' ->
  exists v w, slot a dst = Some w /\
    a' = <[Z.to_nat dst := v]> a /\ length a' = length a /\
    (forall u, slot a src = Some u -> v = u) /\
    (slot a src = None -> v = beyond).
Proof.
  unfold memcpy_run. destruct (slot a dst) as [w|] eqn:Hd; [|discriminate].
  intros [= <-]. eexists _, w. split; [reflexivity|]. split; [reflexivity|].
  split; [apply length_insert|].
  destruct (slot a src); split; congruence.
Qed.

Lemma memcpy_run_total beyond a dst src :
  0 <= dst -> (Z.to_nat dst < length a)%nat ->
  exists a', memcpy_run beyond a dst src = Some a'.
Proof.
  intros H Hl. destruct (slot_in_range a dst H Hl) as [w Hw].
  unfold memcpy_run. rewrite Hw. eexists. reflexivity.
Qed.

(** Where [memcpy] has a result, the machine gives the same. *)
Lemma memcpy_run_memcpy beyond a dst src a' :
  memcpy a dst src = Some a' -> memcpy_run beyond a dst src = Some a'.
Proof.
  unfold memcpy, memcpy_run.
  destruct (slot a src) as [v|]; [|discriminate].
  destruct (slot a dst) as [w|]; [|discriminate]. intros H. exact H.
Qed.

Lemma length_poke a i f : length (poke a i f) = length a.
Proof. unfold poke. destruct (slot a i); [apply length_insert|reflexivity]. Qed.

Lemma slot_poke_eq a i f v :
  slot a i = Some v -> slot (poke a i f) i = Some (f v).
Proof.
  intros H. unfold poke. rewrite H. eapply slot_insert_eq; eauto.
Qed.

Lemma slot_poke_ne a i j f :
  0 <= j -> i <> j -> slot (poke a i f) j = slot a j.
Proof.
  intros Hj Hne. unfold poke. destruct (slot a i) as [v|] eqn:H; [|reflexivity].
  destruct (slot_Some _ _ _ H) as [Hi _].
  apply slot_insert_ne; assumption.
Qed.

End SlotFacts.

Section CasLoopFacts.
Context {C : Type} `{EqDecision C} {A : Type}.

Lemma compare_exchange_strong_same (c v : C) :
  compare_exchange_strong c c v = (v, true).
Proof. unfold compare_exchange_strong. destruct (decide (c = c)); congruence. Qed.

(** Without interference the loop runs its body once. *)
Lemma cas_loop_alone (body : C -> C * A) (c : C) :
  cas_loop body [] c = body c.
Proof.
  simpl. destruct (body c) as [n o].
  rewrite compare_exchange_strong_same. reflexivity.
Qed.

(** A loop takes effect at one point: its result and the counter it leaves
    are those of its body on the value [old_val] of the iteration whose
    compare-and-exchange succeeded. *)
Lemma cas_loop_linearizable (body : C -> C * A) (env : list C) (c : C) :
  exists old_val, In old_val (c :: env) /\ cas_loop body env c = body old_val.
Proof.
  revert c. induction env as [|seen env IH]; intros c.
  - exists c. split; [left; reflexivity | apply cas_loop_alone].
  - simpl. destruct (body c) as [n o] eqn:Hb.
    unfold compare_exchange_strong.
    destruct (decide (seen = c)) as [->|Hne].
    + exists c. split; [left; reflexivity | congruence].
    + destruct (IH seen) as (old & Hin & Heq).
      exists old. split; [right; exact Hin | exact Heq].
Qed.

End CasLoopFacts.

(** ** JackAtomicState: what each operation does to the exchanger *)

Section SingleFacts.
Import SingleExchanger SingleProtocol.
Context {T : Type}.
Implicit Types (s : JackAtomicState T) (c old_val : AtomicCounter)
  (env : list AtomicCounter).

(** [TrySwitchState(bool* result)], at its linearization point. *)
Lemma TrySwitchState_result_inv env s s' p r :
  TrySwitchState_result env s = (s', p, r) ->
  exists old_val, In old_val (fCounter s :: env) /\
    r = negb (CurIndex old_val =? NextIndex old_val) /\
    fCounter s' = SetCurIndex old_val (NextIndex old_val) /\
    p = CurArrayIndex (fCounter s') /\
    fState s' = fState s /\ fCallWriteCounter s' = fCallWriteCounter s.
Proof.
  unfold TrySwitchState_result.
  destruct (cas_loop_linearizable TrySwitchState_body env (fCounter s))
    as (old & Hin & ->).
  unfold TrySwitchState_body. intros [= <- <- <-].
  exists old. repeat split; assumption.
Qed.

Lemma TrySwitchState_result_alone s :
  TrySwitchState_result [] s =
  (set_fCounter s (SetCurIndex (fCounter s) (NextIndex (fCounter s))),
   Z.land (to_UInt16 (NextIndex (fCounter s))) 1,
   negb (CurIndex (fCounter s) =? NextIndex (fCounter s))).
Proof.
  unfold TrySwitchState_result. rewrite cas_loop_alone. reflexivity.
Qed.

(** A switch with nothing pending leaves the exchanger as it is. *)
Lemma TrySwitchState_result_idle s :
  in_UInt16 (NextIndex (fCounter s)) ->
  CurIndex (fCounter s) = NextIndex (fCounter s) ->
  TrySwitchState_result [] s = (s, ReadCurrentState s, false).
Proof.
  intros Hr E. rewrite TrySwitchState_result_alone.
  destruct s as [a [cu ne] d]; simpl in *. subst cu.
  unfold SetCurIndex, set_fCounter, ReadCurrentState, CurArrayIndex; simpl.
  rewrite (to_UInt16_small ne Hr), Z.eqb_refl. reflexivity.
Qed.

(** [WriteNextStateStartAux], at its linearization point. *)
Lemma WriteNextStateStartAux_inv env s s' i :
  WriteNextStateStartAux env s = Some (s', i) ->
  exists old_val, In old_val (fCounter s :: env) /\
    fCounter s' = SetNextIndex old_val (CurIndex old_val) /\
    i = NextArrayIndex old_val /\
    fCallWriteCounter s' = fCallWriteCounter s /\
    (if CurIndex old_val =? NextIndex old_val
     then memcpy (fState s) (NextArrayIndex old_val) (CurIndex old_val)
          = Some (fState s')
     else fState s' = fState s).
Proof.
  unfold WriteNextStateStartAux.
  destruct (cas_loop_linearizable WriteNextStateStartAux_body env (fCounter s))
    as (old & Hin & ->).
  unfold WriteNextStateStartAux_body.
  destruct (CurIndex old =? NextIndex old) eqn:E; simpl.
  - destruct (memcpy (fState s) (NextArrayIndex old) (CurIndex old))
      as [a'|] eqn:Hm; simpl; [|discriminate].
    intros [= <- <-]. exists old. rewrite E. repeat split; assumption.
  - intros [= <- <-]. exists old. rewrite E. repeat split; assumption.
Qed.

(** The copy of [WriteNextStateStartAux] reads [fState[cur_index]] with
    [cur_index = CurIndex()], the whole 16-bit counter: once it is 2 or
    more, the source of the copy is outside [fState]. *)
Lemma WriteNextStateStartAux_outside s :
  length (fState s) = 2%nat ->
  CurIndex (fCounter s) = NextIndex (fCounter s) ->
  2 <= CurIndex (fCounter s) ->
  WriteNextStateStartAux [] s = None.
Proof.
  intros Hl E Hc. unfold WriteNextStateStartAux.
  rewrite cas_loop_alone. unfold WriteNextStateStartAux_body.
  rewrite E, Z.eqb_refl. simpl.
  rewrite memcpy_source_outside; [reflexivity|]. rewrite Hl. lia.
Qed.

(** While the counter is 0 or 1 the copy is the one of the current slot
    into the other one. *)
Lemma WriteNextStateStartAux_copy s v :
  length (fState s) = 2%nat ->
  CurIndex (fCounter s) = NextIndex (fCounter s) ->
  0 <= CurIndex (fCounter s) < 2 ->
  slot (fState s) (ReadCurrentState s) = Some v ->
  exists s', WriteNextStateStartAux [] s = Some (s', NextArrayIndex (fCounter s)) /\
    fCounter s' = fCounter s /\
    slot (fState s') (NextArrayIndex (fCounter s)) = Some v /\
    slot (fState s') (ReadCurrentState s) = Some v /\
    length (fState s') = 2%nat.
Proof.
  intros Hl E Hc Hv. unfold WriteNextStateStartAux.
  rewrite cas_loop_alone. unfold WriteNextStateStartAux_body.
  rewrite E, Z.eqb_refl. rewrite <- E. simpl.
  assert (ReadCurrentState s = CurIndex (fCounter s)) as Hcur.
  { unfold ReadCurrentState, CurArrayIndex.
    assert (CurIndex (fCounter s) = 0 \/ CurIndex (fCounter s) = 1)
      as [-> | ->] by lia; reflexivity. }
  rewrite Hcur in Hv.
  pose proof (land_1_succ_ne (CurIndex (fCounter s))) as Hne.
  destruct (land_1_range (CurIndex (fCounter s) + 1)) as [Hn | Hn].
  all: destruct (slot_in_range (fState s) (NextArrayIndex (fCounter s)))
         as [w Hw]; unfold NextArrayIndex; rewrite ?Hn, ?Hl; try lia.
  all: unfold NextArrayIndex in Hw; rewrite Hn in Hw.
  all: rewrite (memcpy_Some _ _ _ _ _ Hv Hw); simpl.
  all: eexists; split; [reflexivity|]; simpl.
  all: assert (CurIndex (fCounter s) <> Z.land (CurIndex (fCounter s) + 1) 1)
         as Hd by (unfold CurArrayIndex in Hcur; rewrite <- Hcur at 1;
                   unfold ReadCurrentState, CurArrayIndex; congruence).
  all: rewrite Hn in Hd.
  all: repeat split.
  all: try (destruct (fCounter s) as [cu ne]; unfold SetNextIndex; simpl in *;
            subst ne; rewrite to_UInt16_small by lia; reflexivity).
  all: try (eapply slot_insert_eq; eauto).
  all: try (rewrite Hcur, slot_insert_ne by lia; exact Hv).
  all: rewrite length_insert; exact Hl.
Qed.

(** [WriteNextStateStartAux] as the machine runs it, at its linearization
    point. *)
Lemma WriteNextStateStartAux_run_inv beyond env s s' i :
  WriteNextStateStartAux_run beyond env s = Some (s', i) ->
  exists old_val, In old_val (fCounter s :: env) /\
    fCounter s' = SetNextIndex old_val (CurIndex old_val) /\
    i = NextArrayIndex old_val /\
    fCallWriteCounter s' = fCallWriteCounter s /\
    (if CurIndex old_val =? NextIndex old_val
     then memcpy_run beyond (fState s) (NextArrayIndex old_val)
            (CurIndex old_val) = Some (fState s')
     else fState s' = fState s).
Proof.
  unfold WriteNextStateStartAux_run.
  destruct (cas_loop_linearizable WriteNextStateStartAux_body env (fCounter s))
    as (old & Hin & ->).
  unfold WriteNextStateStartAux_body.
  destruct (CurIndex old =? NextIndex old) eqn:E; simpl.
  - destruct (memcpy_run beyond (fState s) (NextArrayIndex old) (CurIndex old))
      as [a'|] eqn:Hm; simpl; [|discriminate].
    intros [= <- <-]. exists old. rewrite E. repeat split; assumption.
  - intros [= <- <-]. exists old. rewrite E. repeat split; assumption.
Qed.

(** On two slots it always returns, whatever the counter and the
    interference. *)
Lemma WriteNextStateStartAux_run_total beyond env s :
  length (fState s) = 2%nat ->
  exists s' i, WriteNextStateStartAux_run beyond env s = Some (s', i).
Proof.
  intros Hl. unfold WriteNextStateStartAux_run.
  destruct (cas_loop_linearizable WriteNextStateStartAux_body env (fCounter s))
    as (old & Hin & ->).
  unfold WriteNextStateStartAux_body.
  destruct (CurIndex old =? NextIndex old); simpl; [|eauto].
  destruct (memcpy_run_total beyond (fState s) (NextArrayIndex old)
              (CurIndex old)) as [a' ->]; [| |simpl; eauto].
  - unfold NextArrayIndex. destruct (land_1_range (CurIndex old + 1)); lia.
  - unfold NextArrayIndex. rewrite Hl.
    destruct (land_1_range (CurIndex old + 1)) as [-> | ->]; simpl; lia.
Qed.

(** Where [WriteNextStateStartAux] has a result, the machine gives the
    same. *)
Lemma WriteNextStateStartAux_run_refines beyond env s r :
  WriteNextStateStartAux env s = Some r ->
  WriteNextStateStartAux_run beyond env s = Some r.
Proof.
  unfold WriteNextStateStartAux, WriteNextStateStartAux_run.
  destruct (cas_loop WriteNextStateStartAux_body env (fCounter s))
    as [c [[cur_index next_index] need_copy]].
  destruct need_copy; [|intros H; exact H]. simpl.
  destruct (memcpy (fState s) next_index cur_index) as [a|] eqn:Hm;
    [|discriminate].
  rewrite (memcpy_run_memcpy beyond _ _ _ _ Hm). intros H. exact H.
Qed.

End SingleFacts.

(** ** JackAtomicState: write regions and the invariant of the counter *)

Section SingleProtocolFacts.
Import SingleExchanger SingleProtocol.
Context {T : Type}.
Implicit Types (s : JackAtomicState T) (x : sys T)
  (env : list AtomicCounter) (beyond : T).

Lemma WriteNextStateStart_nested env s :
  fCallWriteCounter s <> 0 ->
  WriteNextStateStart env s =
  Some (set_fCallWriteCounter s (to_SInt32 (fCallWriteCounter s + 1)),
        NextArrayIndex (fCounter s)).
Proof.
  intros Hd. unfold WriteNextStateStart.
  destruct (fCallWriteCounter s =? 0) eqn:E; [lia | reflexivity].
Qed.

Lemma WriteNextStateStart_outer env s :
  fCallWriteCounter s = 0 ->
  WriteNextStateStart env s =
  WriteNextStateStartAux env (set_fCallWriteCounter s 1).
Proof. intros Hd. unfold WriteNextStateStart. rewrite Hd. reflexivity. Qed.

Lemma WriteNextStateStart_depth env s s' i :
  WriteNextStateStart env s = Some (s', i) ->
  fCallWriteCounter s' = to_SInt32 (fCallWriteCounter s + 1).
Proof.
  destruct (Z.eq_dec (fCallWriteCounter s) 0) as [E|E].
  - rewrite (WriteNextStateStart_outer _ _ E). intros H.
    apply WriteNextStateStartAux_inv in H as (old & _ & _ & _ & Hd & _).
    rewrite Hd, E. reflexivity.
  - rewrite (WriteNextStateStart_nested _ _ E). intros [= <- <-]. reflexivity.
Qed.

Lemma WriteNextStateStart_run_nested beyond env s :
  fCallWriteCounter s <> 0 ->
  WriteNextStateStart_run beyond env s =
  Some (set_fCallWriteCounter s (to_SInt32 (fCallWriteCounter s + 1)),
        NextArrayIndex (fCounter s)).
Proof.
  intros Hd. unfold WriteNextStateStart_run.
  destruct (fCallWriteCounter s =? 0) eqn:E; [lia | reflexivity].
Qed.

Lemma WriteNextStateStart_run_outer beyond env s :
  fCallWriteCounter s = 0 ->
  WriteNextStateStart_run beyond env s =
  WriteNextStateStartAux_run beyond env (set_fCallWriteCounter s 1).
Proof.
  intros Hd. unfold WriteNextStateStart_run. rewrite Hd. reflexivity.
Qed.

(** Where [WriteNextStateStart] has a result, the machine gives the same. *)
Lemma WriteNextStateStart_run_refines beyond env s r :
  WriteNextStateStart env s = Some r ->
  WriteNextStateStart_run beyond env s = Some r.
Proof.
  unfold WriteNextStateStart, WriteNextStateStart_run.
  destruct (fCallWriteCounter s =? 0); [|intros H; exact H].
  apply WriteNextStateStartAux_run_refines.
Qed.

(** On two slots the machine always returns from [WriteNextStateStart],
    with [fCallWriteCounter] one higher on 32 bits. *)
Lemma WriteNextStateStart_run_total beyond env s :
  length (fState s) = 2%nat ->
  exists s' i,
    WriteNextStateStart_run beyond env s = Some (s', i) /\
    fCallWriteCounter s' = to_SInt32 (fCallWriteCounter s + 1).
Proof.
  intros Hl. destruct (Z.eq_dec (fCallWriteCounter s) 0) as [E|E].
  - rewrite (WriteNextStateStart_run_outer _ _ _ E).
    destruct (WriteNextStateStartAux_run_total beyond env
                (set_fCallWriteCounter s 1) Hl) as (s' & i & H).
    exists s', i. split; [exact H|].
    apply WriteNextStateStartAux_run_inv in H as (old & _ & _ & _ & Hd & _).
    rewrite Hd, E. reflexivity.
  - rewrite (WriteNextStateStart_run_nested _ _ _ E).
    eexists _, _. split; reflexivity.
Qed.

Lemma WriteNextStateStop_depth env s :
  fCallWriteCounter (WriteNextStateStop env s) =
  to_SInt32 (fCallWriteCounter s - 1).
Proof.
  unfold WriteNextStateStop. cbn [fCallWriteCounter set_fCallWriteCounter].
  destruct (to_SInt32 (fCallWriteCounter s - 1) =? 0); reflexivity.
Qed.

Lemma WriteNextStateStop_nested env s :
  to_SInt32 (fCallWriteCounter s - 1) <> 0 ->
  WriteNextStateStop env s =
  set_fCallWriteCounter s (to_SInt32 (fCallWriteCounter s - 1)).
Proof.
  intros Hd. unfold WriteNextStateStop.
  cbn [fCallWriteCounter set_fCallWriteCounter].
  destruct (to_SInt32 (fCallWriteCounter s - 1) =? 0) eqn:E;
    [lia | reflexivity].
Qed.

Lemma WriteNextStateStop_outer s :
  fCallWriteCounter s = 1 ->
  WriteNextStateStop [] s =
  set_fCounter (set_fCallWriteCounter s 0)
    (SetNextIndex (fCounter s) (NextIndex (fCounter s) + 1)).
Proof.
  intros Hd. unfold WriteNextStateStop.
  cbn [fCallWriteCounter set_fCallWriteCounter]. rewrite Hd.
  change (to_SInt32 (1 - 1)) with 0. rewrite Z.eqb_refl.
  unfold WriteNextStateStopAux. rewrite cas_loop_alone. reflexivity.
Qed.

Lemma init_disciplined (a b : T) : disciplined (init_sys a b).
Proof.
  unfold disciplined, in_UInt16, counter_ok; simpl.
  repeat split; lia.
Qed.

Lemma init_in_protocol (a b : T) : in_protocol (init_sys a b).
Proof. split; [apply init_disciplined | simpl; lia]. Qed.

Lemma disciplined_counter_ok x :
  disciplined x -> counter_ok (fCounter (st x)).
Proof.
  intros (_ & _ & _ & Hd & H0 & H1).
  destruct (Z.eq_dec (fCallWriteCounter (st x)) 0) as [E|E].
  - apply H0, E.
  - left. apply H1. lia.
Qed.

(** Inside a write region the writer's slot is not the current one. *)
Lemma disciplined_ptr x i :
  disciplined x -> ptr x = Some i -> i <> ReadCurrentState (st x).
Proof.
  intros (_ & _ & _ & Hd & H0 & H1) Hp.
  destruct (Z.eq_dec (fCallWriteCounter (st x)) 0) as [E|E].
  - destruct (H0 E) as [_ Hn]. congruence.
  - destruct H1 as [_ Hn]; [lia|]. rewrite Hn in Hp. injection Hp as <-.
    apply land_1_succ_ne.
Qed.

(** What the outermost [WriteNextStateStart] leaves, whatever the counter:
    the counter with [next := cur], the slot the reader reads untouched. *)
Lemma WriteNextStateStart_run_outer_inv x beyond s1 p :
  disciplined x -> fCallWriteCounter (st x) = 0 ->
  WriteNextStateStart_run beyond [] (st x) = Some (s1, p) ->
  p = NextArrayIndex (fCounter (st x)) /\
  fCounter s1 = SetNextIndex (fCounter (st x)) (CurIndex (fCounter (st x))) /\
  NextIndex (fCounter s1) = CurIndex (fCounter (st x)) /\
  CurIndex (fCounter s1) = CurIndex (fCounter (st x)) /\
  fCallWriteCounter s1 = 1 /\
  length (fState s1) = 2%nat /\
  slot (fState s1) (ReadCurrentState (st x)) =
  slot (fState (st x)) (ReadCurrentState (st x)).
Proof.
  intros (Hl & Hc & _) Hd Hb.
  rewrite (WriteNextStateStart_run_outer _ _ _ Hd) in Hb.
  apply WriteNextStateStartAux_run_inv in Hb
    as (old & [<- | []] & Hcnt & -> & Hd1 & Hcopy). simpl in *.
  rewrite Hcnt. unfold SetNextIndex, NextIndex, CurIndex in *; simpl.
  rewrite (to_UInt16_small _ Hc).
  repeat split; try assumption.
  - destruct (fShortVal1 (fCounter (st x)) =? fShortVal2 (fCounter (st x))).
    + apply memcpy_run_inv in Hcopy as (v & w & _ & _ & Hlen & _). congruence.
    + congruence.
  - destruct (fShortVal1 (fCounter (st x)) =? fShortVal2 (fCounter (st x))).
    + apply memcpy_run_inv in Hcopy as (v & w & _ & -> & _).
      pose proof (land_1_succ_ne (fShortVal1 (fCounter (st x)))) as Hne.
      destruct (land_1_range (fShortVal1 (fCounter (st x)))),
               (land_1_range (fShortVal1 (fCounter (st x)) + 1)).
      all: apply slot_insert_ne;
        unfold NextArrayIndex, ReadCurrentState, CurArrayIndex, CurIndex;
        lia.
    + rewrite Hcopy. reflexivity.
Qed.

Lemma step_in_protocol o x x' :
  in_protocol x -> step o x = Some x' -> in_protocol x'.
Proof.
  intros [Hx Hmax]. pose proof Hx as (Hl & Hc & Hn & Hd & H0 & H1).
  unfold in_UInt16 in Hc, Hn.
  destruct o as [b | f | |]; unfold step.
  - (* Begin *)
    destruct (fCallWriteCounter (st x) <? 2147483647) eqn:Hlt; [|discriminate].
    apply Z.ltb_lt in Hlt.
    destruct (WriteNextStateStart_run b [] (st x)) as [[s' p]|] eqn:Hb;
      cbn [mbind option_bind]; [|discriminate].
    intros [= <-]. unfold in_protocol, disciplined, in_UInt16; cbn [st ptr].
    destruct (Z.eq_dec (fCallWriteCounter (st x)) 0) as [E|E].
    + destruct (WriteNextStateStart_run_outer_inv _ _ _ _ Hx E Hb)
        as (-> & Hcnt & Hn1 & Hc1 & Hd1 & Hl1 & _).
      rewrite Hn1, Hc1, Hd1. unfold NextArrayIndex. rewrite Hc1.
      repeat split; try assumption; try lia.
    + rewrite (WriteNextStateStart_run_nested _ _ _ E) in Hb.
      injection Hb as <- <-.
      cbn [fState fCounter fCallWriteCounter set_fCallWriteCounter].
      rewrite to_SInt32_small by lia. destruct H1 as [H1 H2]; [lia|].
      repeat split; try assumption; try lia.
  - (* Put *)
    destruct (ptr x) as [p|] eqn:Hp; cbn [mbind option_bind]; [|discriminate].
    intros [= <-]. unfold in_protocol, disciplined, in_UInt16; cbn [st ptr].
    unfold store. cbn [fState fCounter fCallWriteCounter set_fState].
    rewrite length_poke.
    repeat split; try assumption; try lia; try (apply H0; assumption);
      try (apply H1; assumption).
  - (* End *)
    destruct (0 <? fCallWriteCounter (st x)) eqn:Hpos; [|discriminate].
    intros [= <-]. apply Z.ltb_lt in Hpos. destruct (H1 Hpos) as [He Hp].
    unfold in_protocol, disciplined, in_UInt16; cbn [st ptr].
    destruct (Z.eq_dec (fCallWriteCounter (st x)) 1) as [E|E].
    + rewrite (WriteNextStateStop_outer _ E). rewrite E.
      cbn [fState fCounter fCallWriteCounter set_fCounter
           set_fCallWriteCounter].
      unfold counter_ok, SetNextIndex, NextIndex, CurIndex in *;
        cbn [fShortVal1 fShortVal2].
      pose proof (to_UInt16_range (fShortVal2 (fCounter (st x)) + 1)).
      change (1 =? 1) with true. cbv iota.
      repeat split; try assumption; try lia.
      right. rewrite He. reflexivity.
    + rewrite (WriteNextStateStop_nested [] (st x))
        by (rewrite to_SInt32_small; lia).
      cbn [fState fCounter fCallWriteCounter set_fCallWriteCounter].
      rewrite to_SInt32_small by lia.
      destruct (fCallWriteCounter (st x) =? 1) eqn:E1; [lia|].
      repeat split; try assumption; try lia.
  - (* Switch *)
    unfold TrySwitchState. rewrite TrySwitchState_result_alone.
    intros [= <-]. unfold in_protocol, disciplined, in_UInt16; cbn [st ptr fst].
    cbn [fState fCounter fCallWriteCounter set_fCounter].
    unfold counter_ok, SetCurIndex, NextArrayIndex, NextIndex, CurIndex in *;
      cbn [fShortVal1 fShortVal2].
    rewrite (to_UInt16_small _ Hn).
    repeat split; try assumption; try lia.
    all: try (apply H0; assumption).
    all: try (destruct H1 as [He Hp]; [assumption|]; rewrite Hp, He;
              reflexivity).
Qed.

Lemma run_in_protocol tr x x' :
  in_protocol x -> run tr x = Some x' -> in_protocol x'.
Proof.
  revert x. induction tr as [|o tr IH]; intros x Hx; simpl.
  - intros [= <-]. exact Hx.
  - destruct (step o x) as [y|] eqn:Hs; simpl; [|discriminate].
    apply IH. eapply step_in_protocol; eauto.
Qed.

(** The calls return: a call has no result only when the writer misuses
    the class ([WriteNextStateStop] or a store outside a write region,
    2^31 regions nested). *)
Lemma step_returns x :
  in_protocol x ->
  (forall beyond,
     fCallWriteCounter (st x) < 2147483647 ->
     exists x', step (Begin beyond) x = Some x') /\
  (forall f, 0 < fCallWriteCounter (st x) ->
     exists x', step (Put f) x = Some x') /\
  (0 < fCallWriteCounter (st x) -> exists x', step End x = Some x') /\
  (exists x', step Switch x = Some x').
Proof.
  intros [(Hl & _ & _ & _ & _ & H1) _]. repeat split.
  - intros b Hlt. unfold step. apply Z.ltb_lt in Hlt. rewrite Hlt.
    destruct (WriteNextStateStart_run_total b [] (st x) Hl)
      as (s' & i & -> & _).
    cbn [mbind option_bind]. eauto.
  - intros f Hpos. unfold step. destruct (H1 Hpos) as [_ ->].
    cbn [mbind option_bind]. eauto.
  - intros Hpos. unfold step. apply Z.ltb_lt in Hpos. rewrite Hpos. eauto.
  - unfold step. eauto.
Qed.

End SingleProtocolFacts.

(** ** JackAtomicState: the switch *)

Section SingleSwitch.
Import SingleExchanger SingleProtocol.
Context {T : Type}.
Implicit Types (s : JackAtomicState T) (env : list AtomicCounter).

(** C7. Two [TrySwitchState] calls in a row, with no call of the writer in
    between, return the same slot, and the second one reports
    [*result == false]; whatever the interference, [*result] is
    [old_val.cur != old_val.next] for the value [old_val] of the iteration
    whose compare-and-exchange succeeded, and the counter becomes that value
    with [cur := next]; a switch from [cur == next] leaves the exchanger, so
    the current slot, as it is. *)
Theorem try_switch_idempotent s :
  in_UInt16 (NextIndex (fCounter s)) ->
  (forall s1 p1 r1 s2 p2 r2,
     TrySwitchState_result [] s = (s1, p1, r1) ->
     TrySwitchState_result [] s1 = (s2, p2, r2) ->
     p2 = p1 /\ r2 = false /\ s2 = s1 /\
     TrySwitchState [] s = (s1, p1) /\ TrySwitchState [] s1 = (s1, p1)) /\
  (forall env s' p r,
     TrySwitchState_result env s = (s', p, r) ->
     exists old_val, In old_val (fCounter s :: env) /\
       r = negb (CurIndex old_val =? NextIndex old_val) /\
       fCounter s' = SetCurIndex old_val (NextIndex old_val) /\
       p = ReadCurrentState s') /\
  (CurIndex (fCounter s) = NextIndex (fCounter s) ->
   TrySwitchState_result [] s = (s, ReadCurrentState s, false) /\
   TrySwitchState [] s = (s, ReadCurrentState s)).
Proof.
  intros Hr. split; [|split].
  - intros s1 p1 r1 s2 p2 r2 H1 H2.
    assert (TrySwitchState_result [] s1 = (s1, p1, false)) as Hidle.
    { rewrite TrySwitchState_result_alone in H1. injection H1 as <- <- <-.
      rewrite TrySwitchState_result_idle; simpl.
      - reflexivity.
      - exact Hr.
      - unfold CurIndex, NextIndex; simpl. apply to_UInt16_small, Hr. }
    rewrite Hidle in H2. injection H2 as <- <- <-.
    unfold TrySwitchState. rewrite H1, Hidle. repeat split; reflexivity.
  - intros env s' p r H.
    apply TrySwitchState_result_inv in H
      as (old & Hin & Hres & Hc & Hp & _ & _).
    exists old. repeat split; assumption.
  - intros E. unfold TrySwitchState.
    rewrite (TrySwitchState_result_idle s Hr E). split; reflexivity.
Qed.

End SingleSwitch.

Section SingleSwitchWitness.
Import SingleExchanger SingleProtocol.

Lemma try_switch_idempotent_witness :
  in_UInt16 (NextIndex (fCounter published_at_wrap)) /\
  exists s1 : JackAtomicState Z,
    TrySwitchState_result [] published_at_wrap = (s1, 0, true) /\
    TrySwitchState_result [] s1 = (s1, 0, false).
Proof.
  assert (in_UInt16 (NextIndex (fCounter published_at_wrap))) as Hr
    by (unfold in_UInt16; simpl; lia).
  split; [exact Hr|].
  destruct (TrySwitchState_result [] published_at_wrap)
    as [[s1 p1] r1] eqn:H1.
  destruct (TrySwitchState_result [] s1) as [[s2 p2] r2] eqn:H2.
  destruct (try_switch_idempotent published_at_wrap Hr) as (Htwice & _ & _).
  destruct (Htwice _ _ _ _ _ _ H1 H2) as (-> & -> & -> & _ & _).
  vm_compute in H1. injection H1 as <- <- <-.
  eexists. split; [reflexivity | exact H2].
Defined.

End SingleSwitchWitness.

(** ** JackAtomicState: the invariant of the counter *)

Section SingleInvariant.
Import SingleExchanger SingleProtocol.
Context {T : Type}.
Implicit Types (s : JackAtomicState T) (x : sys T).

(** A switch that reports [*result == true] moves [cur] one step forward. *)
Lemma switch_advances x s' p :
  disciplined x ->
  TrySwitchState_result [] (st x) = (s', p, true) ->
  CurIndex (fCounter s') = to_UInt16 (CurIndex (fCounter (st x)) + 1) /\
  NextIndex (fCounter s') = CurIndex (fCounter s').
Proof.
  intros Hx. pose proof (disciplined_counter_ok x Hx) as Hok.
  destruct Hx as (_ & _ & Hn & _). unfold in_UInt16 in Hn.
  rewrite TrySwitchState_result_alone. intros [= <- <- Hr].
  apply negb_true_iff, Z.eqb_neq in Hr.
  unfold counter_ok in Hok. destruct Hok as [Hok | Hok]; [congruence|].
  unfold SetCurIndex, CurIndex, NextIndex in *; simpl.
  rewrite (to_UInt16_small _ Hn). split; [exact Hok | reflexivity].
Qed.

(** C9. When the single writer pairs and nests its [WriteNextStateStart] and
    [WriteNextStateStop] calls, every counter the exchanger reaches on the
    machine, whatever the copies read beyond [fState], has [next == cur] or
    [next == cur + 1] on 16 bits; each call of the writer and of the reader
    keeps it so ([ReadCurrentState] only reads); every such call returns,
    whatever the counter ([WriteNextStateStart] as long as fewer than
    2^31 - 1 regions are open); and a switch that reports
    [*result == true] advances [cur] by exactly 1 on 16 bits. *)
Theorem counter_idle_or_published :
  (forall (a b : T) tr x,
     run tr (init_sys a b) = Some x -> counter_ok (fCounter (st x))) /\
  (forall x o x',
     in_protocol x -> step o x = Some x' ->
     in_protocol x' /\ counter_ok (fCounter (st x'))) /\
  (forall x,
     in_protocol x ->
     (forall beyond,
        fCallWriteCounter (st x) < 2147483647 ->
        exists x', step (Begin beyond) x = Some x') /\
     (forall f, 0 < fCallWriteCounter (st x) ->
        exists x', step (Put f) x = Some x') /\
     (0 < fCallWriteCounter (st x) -> exists x', step End x = Some x') /\
     (exists x', step Switch x = Some x')) /\
  (forall x s' p r,
     in_protocol x -> TrySwitchState_result [] (st x) = (s', p, r) ->
     counter_ok (fCounter s') /\
     (r = true ->
      CurIndex (fCounter s') = to_UInt16 (CurIndex (fCounter (st x)) + 1))).
Proof.
  split; [|split; [|split]].
  - intros a b tr x Hrun. apply disciplined_counter_ok.
    apply (run_in_protocol _ _ _ (init_in_protocol a b) Hrun).
  - intros x o x' Hx Hs.
    pose proof (step_in_protocol _ _ _ Hx Hs) as Hx'.
    split; [exact Hx' | apply disciplined_counter_ok, Hx'].
  - intros x. apply step_returns.
  - intros x s' p r Hx Hsw. split.
    + assert (step Switch x = Some {| st := s'; ptr := ptr x |}) as Hs.
      { unfold step, TrySwitchState. rewrite Hsw. reflexivity. }
      apply (disciplined_counter_ok {| st := s'; ptr := ptr x |}),
        (step_in_protocol _ _ _ Hx Hs).
    + intros ->. eapply switch_advances; [apply Hx | exact Hsw].
Qed.

End SingleInvariant.

Section SingleInvariantWitness.
Import SingleExchanger SingleProtocol.

Lemma idle_at_two_in_protocol :
  in_protocol {| st := idle_at_two; ptr := None |}.
Proof.
  unfold in_protocol, disciplined, in_UInt16, counter_ok; simpl.
  repeat split; lia.
Qed.

Lemma published_at_wrap_in_protocol :
  in_protocol {| st := published_at_wrap; ptr := None |}.
Proof.
  unfold in_protocol, disciplined, in_UInt16, counter_ok; simpl.
  repeat split; try lia. right. vm_compute. reflexivity.
Qed.

Lemma counter_idle_or_published_witness :
  counter_ok {| fShortVal1 := 2; fShortVal2 := 3 |} /\
  (exists x', step (Begin 77) {| st := idle_at_two; ptr := None |} = Some x') /\
  CurIndex
    (fCounter (fst (fst (TrySwitchState_result [] published_at_wrap)))) =
  to_UInt16 (65535 + 1).
Proof.
  destruct (@counter_idle_or_published Z) as (Hreach & _ & Hret & Hswitch).
  split; [|split].
  - apply (Hreach 0 0
             [Begin 0; Put (fun _ => 1); End; Switch;
              Begin 0; Put (fun _ => 2); End; Switch;
              Begin 77; Put (fun _ => 3); End]
             {| st := {| fState := [2; 3];
                         fCounter := {| fShortVal1 := 2; fShortVal2 := 3 |};
                         fCallWriteCounter := 0 |};
                ptr := None |}).
    vm_compute. reflexivity.
  - apply (Hret _ idle_at_two_in_protocol). simpl. lia.
  - refine (proj2 (Hswitch _ _ 0 true published_at_wrap_in_protocol _)
              eq_refl).
    vm_compute. reflexivity.
Defined.

End SingleInvariantWitness.

(** ** JackAtomicState: nested write regions *)

Section SingleNested.
Import SingleExchanger SingleProtocol.
Context {T : Type}.
Implicit Types (s : JackAtomicState T) (x : sys T)
  (env : list AtomicCounter).

(** Inside a write region no call moves the counter or the writer's slot. *)
Lemma step_inside o x x' :
  in_protocol x -> 0 < fCallWriteCounter (st x) ->
  step o x = Some x' -> 0 < fCallWriteCounter (st x') ->
  ptr x' = ptr x /\ fCounter (st x') = fCounter (st x).
Proof.
  intros [(_ & _ & Hn & _ & _ & H1) Hmax] Hpos. destruct (H1 Hpos) as [He Hp].
  destruct o as [b | f | |]; unfold step.
  - destruct (fCallWriteCounter (st x) <? 2147483647); [|discriminate].
    rewrite WriteNextStateStart_run_nested by lia. cbn [mbind option_bind].
    intros [= <-] _. cbn [st ptr fCounter set_fCallWriteCounter].
    split; congruence.
  - destruct (ptr x) as [p|]; cbn [mbind option_bind]; [|discriminate].
    intros [= <-] _. split; reflexivity.
  - destruct (0 <? fCallWriteCounter (st x)); [|discriminate].
    intros [= <-]. cbn [st ptr]. rewrite WriteNextStateStop_depth.
    rewrite to_SInt32_small by lia. intros Hpos'.
    rewrite WriteNextStateStop_nested by (rewrite to_SInt32_small; lia).
    destruct (fCallWriteCounter (st x) =? 1) eqn:E; [lia|].
    split; reflexivity.
  - unfold TrySwitchState.
    rewrite TrySwitchState_result_idle by (assumption || congruence).
    intros [= <-] _. split; reflexivity.
Qed.

Lemma run_region_inside tr x x' :
  in_protocol x -> 0 < fCallWriteCounter (st x) ->
  run_region tr x = Some x' ->
  in_protocol x' /\ 0 < fCallWriteCounter (st x') /\
  ptr x' = ptr x /\ fCounter (st x') = fCounter (st x).
Proof.
  revert x. induction tr as [|o tr IH]; intros x Hx Hpos; simpl.
  - intros [= <-]. split; [assumption|]. split; [assumption|].
    split; reflexivity.
  - destruct (step o x) as [y|] eqn:Hs; simpl; [|discriminate].
    destruct (0 <? fCallWriteCounter (st y)) eqn:Hy; [|discriminate].
    apply Z.ltb_lt in Hy. intros Hr.
    pose proof (step_in_protocol _ _ _ Hx Hs) as Hdy.
    destruct (step_inside _ _ _ Hx Hpos Hs Hy) as [Hp Hc].
    destruct (IH y Hdy Hy Hr) as (? & ? & ? & ?).
    split; [assumption|]. split; [assumption|]. split; congruence.
Qed.

End SingleNested.

Section SingleScenarios.
Import SingleExchanger SingleProtocol.
Context {T : Type}.
Implicit Types (s : JackAtomicState T) (x : sys T).

Lemma slot_pending_Some (a : list T) (c : Z) :
  length a = 2%nat -> exists v, slot a (Z.land c 1) = Some v.
Proof.
  intros Hl. apply slot_in_range; destruct (land_1_range c) as [-> | ->];
    rewrite ?Hl; simpl; lia.
Qed.

(** A region nested in another one, from any state with no region open,
    whatever the counter. *)
Lemma nested_write_spec x (beyond1 beyond2 v1 v2 : T) :
  disciplined x -> fCallWriteCounter (st x) = 0 ->
  nested_write beyond1 beyond2 v1 v2 (st x) =
  Some (NextArrayIndex (fCounter (st x)), NextArrayIndex (fCounter (st x)),
        true, Some v2, to_UInt16 (CurIndex (fCounter (st x)) + 1)).
Proof.
  intros Hx Hd.
  destruct (WriteNextStateStart_run_total beyond1 [] (st x) (proj1 Hx))
    as (s1 & p & Hb & _).
  destruct (WriteNextStateStart_run_outer_inv _ _ _ _ Hx Hd Hb)
    as (Hp & _ & Hn1 & Hc1 & Hd1 & Hl1 & _).
  destruct Hx as (_ & Hc & _). unfold in_UInt16 in Hc.
  unfold nested_write. rewrite Hb. cbn [mbind option_bind]. rewrite <- Hp.
  destruct s1 as [a1 [c1 n1] d1]. unfold CurIndex, NextIndex in *.
  simpl in Hn1, Hc1, Hd1, Hl1. subst c1 n1 d1.
  set (c := fShortVal1 (fCounter (st x))) in *.
  assert (p = Z.land (c + 1) 1) as Hp' by exact Hp. clear Hp.
  destruct (slot_pending_Some a1 (c + 1) Hl1) as [w Hw]. rewrite <- Hp' in Hw.
  match goal with |- context [store ?s1 p ?f] => set (s2 := store s1 p f) end.
  assert (WriteNextStateStart_run beyond2 [] s2
          = Some (set_fCallWriteCounter s2 2, p)) as Hb2.
  { rewrite WriteNextStateStart_run_nested by (simpl; lia). simpl.
    rewrite Hp'. reflexivity. }
  rewrite Hb2. cbn [mbind option_bind].
  match goal with |- context [store ?s3 p ?f] => set (s4 := store s3 p f) end.
  rewrite (WriteNextStateStop_nested [] s4) by (vm_compute; discriminate).
  change (to_SInt32 (fCallWriteCounter s4 - 1)) with 1.
  rewrite WriteNextStateStop_outer by reflexivity.
  rewrite TrySwitchState_result_alone.
  unfold read, deref, ReadCurrentState, GetCurrentIndex, CurArrayIndex,
    SetCurIndex, SetNextIndex, NextIndex, CurIndex. simpl.
  rewrite to_UInt16_idem, land_1_to_UInt16, <- Hp'.
  pose proof (slot_poke_eq a1 p (fun _ => v1) w Hw) as Hw1.
  rewrite (slot_poke_eq _ p (fun _ => v2) _ Hw1), (proj2 (Z.eqb_neq _ _)).
  - reflexivity.
  - intros E. symmetry in E. exact (to_UInt16_succ_ne c Hc E).
Qed.

(** Two write regions in a row and one switch, from any state with no
    region open, whatever the counter: the reader keeps reading the payload
    it read before, then reads the second one. *)
Lemma supersession_spec x (beyond1 beyond2 v1 v2 : T) :
  disciplined x -> fCallWriteCounter (st x) = 0 ->
  supersession beyond1 beyond2 v1 v2 (st x) =
  Some ([read (st x); read (st x); read (st x);
         read (st x); read (st x); read (st x)], true, Some v2, false).
Proof.
  intros Hx Hd.
  destruct (WriteNextStateStart_run_total beyond1 [] (st x) (proj1 Hx))
    as (s1 & p & Hb & _).
  destruct (WriteNextStateStart_run_outer_inv _ _ _ _ Hx Hd Hb)
    as (Hp & _ & Hn1 & Hc1 & Hd1 & Hl1 & Hcur).
  destruct Hx as (_ & Hc & _). unfold in_UInt16 in Hc.
  unfold supersession. rewrite Hb. cbn [mbind option_bind].
  destruct s1 as [a1 [c1 n1] d1]. unfold CurIndex, NextIndex in *.
  simpl in Hn1, Hc1, Hd1, Hl1, Hcur. subst c1 n1 d1.
  unfold read, deref, ReadCurrentState, CurArrayIndex, CurIndex in *.
  set (c := fShortVal1 (fCounter (st x))) in *.
  assert (p = Z.land (c + 1) 1) as Hp' by exact Hp. clear Hp.
  destruct (slot_pending_Some a1 (c + 1) Hl1) as [w Hw]. rewrite <- Hp' in Hw.
  assert (p <> Z.land c 1) as Hne by (rewrite Hp'; apply land_1_succ_ne).
  assert (0 <= Z.land c 1) as Hpos by (destruct (land_1_range c); lia).
  assert ((c =? to_UInt16 (c + 1)) = false) as Hpub.
  { apply Z.eqb_neq. intros E. symmetry in E.
    exact (to_UInt16_succ_ne c Hc E). }
  match goal with |- context [store ?s1 p ?f] => set (s2 := store s1 p f) end.
  rewrite (WriteNextStateStop_outer s2) by reflexivity.
  match goal with |- context [WriteNextStateStart_run beyond2 [] ?s] =>
    set (s3 := s) end.
  assert (WriteNextStateStart_run beyond2 [] s3 =
          Some ({| fState := poke a1 p (fun _ => v1);
                   fCounter := {| fShortVal1 := c; fShortVal2 := c |};
                   fCallWriteCounter := 1 |}, p)) as Hb3.
  { rewrite WriteNextStateStart_run_outer by reflexivity.
    unfold WriteNextStateStartAux_run. rewrite cas_loop_alone.
    unfold WriteNextStateStartAux_body, SetNextIndex, NextArrayIndex,
      CurIndex, NextIndex. simpl.
    rewrite Hpub, (to_UInt16_small c Hc), <- Hp'. reflexivity. }
  rewrite Hb3. cbn [mbind option_bind].
  match goal with |- context [store ?s4 p ?f] => set (s5 := store s4 p f) end.
  rewrite (WriteNextStateStop_outer s5) by reflexivity.
  rewrite TrySwitchState_result_alone.
  unfold IsPendingChange, SetCurIndex, SetNextIndex, NextIndex, CurIndex.
  simpl.
  rewrite to_UInt16_idem, land_1_to_UInt16, <- Hp', Hpub, Z.eqb_refl.
  rewrite !(slot_poke_ne _ p _ _ Hpos Hne), Hcur.
  pose proof (slot_poke_eq a1 p (fun _ => v1) w Hw) as Hw1.
  rewrite (slot_poke_eq _ p (fun _ => v2) _ Hw1). reflexivity.
Qed.

End SingleScenarios.

(** ** JackAtomicState: the claims on write regions *)

Section SingleRegions.
Import SingleExchanger SingleProtocol.
Context {T : Type}.
Implicit Types (s : JackAtomicState T) (x : sys T)
  (env : list AtomicCounter).

(** C5. On the machine, whatever the counter and whatever the copy reads,
    every [WriteNextStateStart] returns and adds one to [fCallWriteCounter],
    and every [WriteNextStateStop] takes one off, in 32-bit arithmetic:
    exactly one unless the [SInt32] overflows.  After the outermost
    [WriteNextStateStart] returned slot [p], whatever is called inside the
    region, an inner [WriteNextStateStart] returns [p] again, whatever the
    interference (it runs no compare-and-exchange), and changes nothing but
    [fCallWriteCounter]: the counter is the one the outermost call left.
    A [WriteNextStateStop] that is not the outermost leaves the counter as
    it is, with nothing pending; the outermost one publishes.  In scenario
    S3 both calls return slot 1, the switch succeeds, the reader reads 8 and
    [cur] went from 0 to 1; from any state with no region open, the reader
    reads the inner payload and [cur] has advanced by exactly 1 on
    16 bits. *)
Theorem nested_write_region :
  (forall (beyond : T) env s,
     length (fState s) = 2%nat ->
     exists s' p,
       WriteNextStateStart_run beyond env s = Some (s', p) /\
       fCallWriteCounter s' = to_SInt32 (fCallWriteCounter s + 1) /\
       (in_SInt32 (fCallWriteCounter s) ->
        fCallWriteCounter s < 2147483647 ->
        fCallWriteCounter s' = fCallWriteCounter s + 1)) /\
  (forall env s,
     fCallWriteCounter (WriteNextStateStop env s) =
     to_SInt32 (fCallWriteCounter s - 1) /\
     (in_SInt32 (fCallWriteCounter s) ->
      -2147483648 < fCallWriteCounter s ->
      fCallWriteCounter (WriteNextStateStop env s) =
      fCallWriteCounter s - 1)) /\
  (forall x0 (beyond : T),
     in_protocol x0 -> fCallWriteCounter (st x0) = 0 ->
     exists x1,
       step (Begin beyond) x0 = Some x1 /\
       ptr x1 = Some (NextArrayIndex (fCounter (st x0))) /\
       forall tr x2 (beyond' : T) env,
         run_region tr x1 = Some x2 ->
         fCounter (st x2) = fCounter (st x1) /\
         WriteNextStateStart_run beyond' env (st x2) =
         Some (set_fCallWriteCounter (st x2)
                 (to_SInt32 (fCallWriteCounter (st x2) + 1)),
               NextArrayIndex (fCounter (st x0)))) /\
  (forall x env,
     in_protocol x -> 1 < fCallWriteCounter (st x) ->
     fCounter (WriteNextStateStop env (st x)) = fCounter (st x) /\
     IsPendingChange (WriteNextStateStop env (st x)) = false) /\
  (forall x,
     in_protocol x -> fCallWriteCounter (st x) = 1 ->
     IsPendingChange (WriteNextStateStop [] (st x)) = true) /\
  (forall beyond1 beyond2,
     nested_write beyond1 beyond2 7 8 (JackAtomicState_init 0 0) =
     Some (1, 1, true, Some 8, 1)) /\
  (forall x (beyond1 beyond2 v1 v2 : T),
     in_protocol x -> fCallWriteCounter (st x) = 0 ->
     nested_write beyond1 beyond2 v1 v2 (st x) =
     Some (NextArrayIndex (fCounter (st x)),
           NextArrayIndex (fCounter (st x)), true, Some v2,
           to_UInt16 (CurIndex (fCounter (st x)) + 1))).
Proof.
  split; [|split; [|split; [|split; [|split; [|split]]]]].
  - intros beyond env s Hl.
    destruct (WriteNextStateStart_run_total beyond env s Hl)
      as (s' & p & Hb & Hd).
    exists s', p. split; [exact Hb|]. split; [exact Hd|].
    intros Hr Hlt. unfold in_SInt32 in Hr. rewrite Hd.
    apply to_SInt32_small. lia.
  - intros env s. split; [apply WriteNextStateStop_depth|].
    intros Hr Hlt. unfold in_SInt32 in Hr. rewrite WriteNextStateStop_depth.
    apply to_SInt32_small. lia.
  - intros x0 beyond Hx0 Hd0.
    destruct (proj1 (step_returns x0 Hx0) beyond) as [x1 Hb]; [lia|].
    exists x1. split; [exact Hb|].
    pose proof (step_in_protocol _ _ _ Hx0 Hb) as Hx1.
    assert (fCallWriteCounter (st x1) = 1 /\
            ptr x1 = Some (NextArrayIndex (fCounter (st x0)))) as [Hd1 Hp].
    { unfold step in Hb.
      destruct (fCallWriteCounter (st x0) <? 2147483647); [|discriminate].
      destruct (WriteNextStateStart_run beyond [] (st x0))
        as [[s1 q]|] eqn:Hw; cbn [mbind option_bind] in Hb; [|discriminate].
      injection Hb as <-. cbn [st ptr].
      destruct (WriteNextStateStart_run_outer_inv _ _ _ _ (proj1 Hx0) Hd0 Hw)
        as (-> & _ & _ & _ & Hd1 & _).
      split; [exact Hd1 | reflexivity]. }
    split; [exact Hp|].
    intros tr x2 beyond' env Hr.
    destruct (run_region_inside tr x1 x2 Hx1 ltac:(lia) Hr)
      as (Hx2 & Hpos & Hptr & Hcnt).
    split; [exact Hcnt|].
    rewrite WriteNextStateStart_run_nested by lia.
    destruct Hx2 as [(_ & _ & _ & _ & _ & H1) _].
    destruct (H1 Hpos) as [_ Hq].
    rewrite Hptr, Hp in Hq. injection Hq as ->. reflexivity.
  - intros x env [(_ & _ & _ & _ & _ & H1) Hmax] Hd.
    destruct H1 as [He _]; [lia|].
    rewrite WriteNextStateStop_nested by (rewrite to_SInt32_small; lia).
    split; [reflexivity|].
    unfold IsPendingChange; simpl. rewrite He, Z.eqb_refl. reflexivity.
  - intros x [(_ & Hc & _ & _ & _ & H1) _] Hd. destruct H1 as [He _]; [lia|].
    rewrite WriteNextStateStop_outer by exact Hd.
    unfold IsPendingChange, SetNextIndex, NextIndex, CurIndex in *; simpl.
    rewrite He. apply negb_true_iff, Z.eqb_neq. intros E. symmetry in E.
    exact (to_UInt16_succ_ne _ Hc E).
  - intros beyond1 beyond2.
    apply (nested_write_spec (init_sys 0 0) beyond1 beyond2 7 8
             (init_disciplined 0 0) eq_refl).
  - intros x beyond1 beyond2 v1 v2 [Hx _]. apply nested_write_spec, Hx.
Qed.

End SingleRegions.

Section SingleRegionsWitness.
Import SingleExchanger SingleProtocol.

Lemma nested_write_region_witness :
  nested_write 77 77 7 8 idle_at_two = Some (1, 1, true, Some 8, 3) /\
  (exists x1,
     step (Begin 77) {| st := idle_at_two; ptr := None |} = Some x1 /\
     ptr x1 = Some 1) /\
  fCallWriteCounter (WriteNextStateStop [] idle_at_two) = -1.
Proof.
  destruct (@nested_write_region Z) as (_ & Hstop & Hin & _ & _ & _ & Hgen).
  split; [|split].
  - exact (Hgen _ 77 77 7 8 idle_at_two_in_protocol eq_refl).
  - destruct (Hin _ 77 idle_at_two_in_protocol eq_refl) as (x1 & Hb & Hp & _).
    exists x1. split; [exact Hb | exact Hp].
  - refine (proj2 (Hstop [] idle_at_two) _ _); unfold in_SInt32; simpl; lia.
Defined.

End SingleRegionsWitness.

(** ** JackAtomicState: the copy of [WriteNextStateStartAux] *)

Section SingleCopy.
Import SingleExchanger SingleProtocol.

(** Scenario S6, from the constructor: the pending slot is seeded from the
    current one. *)
Lemma copy_on_first_write_S6 :
  ('(s, p) ← WriteNextStateStart []
               (JackAtomicState_init (MkAb 5 9) (MkAb 0 0));
   let s := store s p (set_b 99) in
   let s := WriteNextStateStop [] s in
   read (fst (TrySwitchState [] s)))
  = Some (MkAb 5 99).
Proof. vm_compute. reflexivity. Qed.

(** With the counter at 0 or 1 and nothing pending, [WriteNextStateStart]
    copies the current slot into the slot it returns. *)
Lemma WriteNextStateStart_copy {T : Type} (s : JackAtomicState T) v :
  length (fState s) = 2%nat -> fCallWriteCounter s = 0 ->
  CurIndex (fCounter s) = NextIndex (fCounter s) ->
  0 <= CurIndex (fCounter s) < 2 ->
  deref s (ReadCurrentState s) = Some v ->
  exists s', WriteNextStateStart [] s = Some (s', NextArrayIndex (fCounter s)) /\
    deref s' (NextArrayIndex (fCounter s)) = Some v /\
    deref s' (ReadCurrentState s) = Some v.
Proof.
  intros Hl Hd E Hc Hv. rewrite (WriteNextStateStart_outer _ _ Hd).
  destruct (WriteNextStateStartAux_copy (set_fCallWriteCounter s 1) v)
    as (s' & Hs & _ & Hn & Hcur & _); try assumption.
  exists s'. repeat split; assumption.
Qed.

(** C1 (the code departs from the claim). [WriteNextStateStartAux] takes
    the source of its copy from [CurIndex()], not from [CurArrayIndex()]:
    from the constructor the copy is the one of the current slot (S6), but
    after two publications and switches, with [cur == next == 2] and no
    region open, the current slot is [fState[0]], the loop computes
    [cur_index == 2], [next_index == 1], [need_copy == true], and the copy
    reads [fState[2]], outside the two slots: [WriteNextStateStart] has no
    defined result. *)
Theorem begin_write_copy_outside_fState :
  exists s : JackAtomicState Z,
    after_two_switches = Some s /\
    fCallWriteCounter s = 0 /\
    CurIndex (fCounter s) = 2 /\ NextIndex (fCounter s) = 2 /\
    length (fState s) = 2%nat /\
    ReadCurrentState s = 0 /\
    snd (WriteNextStateStartAux_body (fCounter s)) = (2, 1, true) /\
    slot (fState s) 2 = None /\
    WriteNextStateStart [] s = None.
Proof.
  eexists. split; [vm_compute; reflexivity|].
  repeat split; vm_compute; reflexivity.
Qed.

(** On the machine the call returns, and the slot handed to the writer
    holds what lies beyond [fState], not the current payload. *)
Lemma begin_write_copy_on_machine (beyond : Z) :
  exists s',
    WriteNextStateStart_run beyond [] idle_at_two = Some (s', 1) /\
    after_two_switches = Some idle_at_two /\
    read idle_at_two = Some 2 /\ deref s' 1 = Some beyond.
Proof.
  eexists. split; [reflexivity|]. repeat split; vm_compute; reflexivity.
Qed.

(** C4. From any state with no write region open, whatever the counter
    and whatever the first copy reads: after [WriteNextStateStart], the
    payload set to [v1], [WriteNextStateStop], [WriteNextStateStart], the
    payload set to [v2], [WriteNextStateStop], with no switch in between,
    the reader has read the payload it read before after each of these
    calls, never [v1]; one [TrySwitchState] then reports
    [*result == true], the reader reads [v2], and [IsPendingChange] is
    false.  So it is in scenario S2, from the constructor. *)
Theorem supersession_second_update :
  (forall beyond1 beyond2 : Z,
     supersession beyond1 beyond2 10 20 (JackAtomicState_init 0 0) =
     Some ([Some 0; Some 0; Some 0; Some 0; Some 0; Some 0],
           true, Some 20, false)) /\
  (forall (T : Type) (x : sys T) (beyond1 beyond2 v1 v2 : T),
     disciplined x -> fCallWriteCounter (st x) = 0 ->
     supersession beyond1 beyond2 v1 v2 (st x) =
     Some ([read (st x); read (st x); read (st x);
            read (st x); read (st x); read (st x)], true, Some v2, false)).
Proof.
  split.
  - intros beyond1 beyond2.
    apply (supersession_spec (init_sys 0 0) beyond1 beyond2 10 20
             (init_disciplined 0 0) eq_refl).
  - intros T x beyond1 beyond2 v1 v2. apply supersession_spec.
Qed.

Lemma supersession_second_update_witness :
  disciplined {| st := idle_at_two; ptr := None |} /\
  supersession 131074 131074 10 20 idle_at_two =
  Some ([Some 2; Some 2; Some 2; Some 2; Some 2; Some 2],
        true, Some 20, false).
Proof.
  split; [apply idle_at_two_in_protocol|].
  exact (proj2 supersession_second_update Z
           {| st := idle_at_two; ptr := None |} 131074 131074 10 20
           (proj1 idle_at_two_in_protocol) eq_refl).
Defined.

End SingleCopy.

(** ** JackAtomicArrayState: what each operation does to the exchanger *)

Section ArrayFacts.
Import ArrayExchanger ArrayProtocol.
Context {T : Type}.
Implicit Types (s : JackAtomicArrayState T) (c old_val : AtomicArrayCounter)
  (env : list AtomicArrayCounter).

Lemma pending_id_in_fByteVal p : pending_id p -> in_fByteVal p = true.
Proof. intros [-> | ->]; reflexivity. Qed.

Lemma to_uchar_pending_id p : pending_id p -> to_uchar p = p.
Proof. intros [-> | ->]; reflexivity. Qed.

(** The one rule for slots: 0 if the current slot id is [p], else [p]. *)
Lemma SwapIndex1_pending_id c p :
  pending_id p ->
  SwapIndex1 c p = if GetIndex1 c 0 =? p then 0 else p.
Proof.
  intros Hp. unfold SwapIndex1.
  destruct (GetIndex1 c 0 =? p); [reflexivity | apply to_uchar_pending_id, Hp].
Qed.

Lemma SwapIndex1_not_current c p :
  pending_id p -> SwapIndex1 c p <> GetIndex1 c 0.
Proof.
  intros Hp. rewrite (SwapIndex1_pending_id _ _ Hp).
  destruct (GetIndex1 c 0 =? p) eqn:E.
  - apply Z.eqb_eq in E. destruct Hp; lia.
  - apply Z.eqb_neq in E. congruence.
Qed.

Lemma SwapIndex1_apart c p q :
  pending_id p -> pending_id q -> p <> q -> SwapIndex1 c p <> SwapIndex1 c q.
Proof.
  intros Hp Hq Hne.
  rewrite (SwapIndex1_pending_id _ _ Hp), (SwapIndex1_pending_id _ _ Hq).
  destruct (GetIndex1 c 0 =? p) eqn:E1, (GetIndex1 c 0 =? q) eqn:E2;
    rewrite ?Z.eqb_eq, ?Z.eqb_neq in *; destruct Hp, Hq; lia.
Qed.

Lemma GetIndex1_SetIndex1_pending c p v :
  pending_id p ->
  GetIndex1 (SetIndex1 c p v) p = to_uchar v /\
  GetIndex1 (SetIndex1 c p v) 0 = GetIndex1 c 0 /\
  GetIndex1 (SetIndex1 c p v) 3 = GetIndex1 c 3 /\
  (forall q, pending_id q -> q <> p ->
     GetIndex1 (SetIndex1 c p v) q = GetIndex1 c q).
Proof.
  intros [-> | ->]; repeat split; try (intros q [-> | ->] Hq);
    try reflexivity; congruence.
Qed.

(** The counter after a switch of a written state. *)
Lemma array_TrySwitchState_body_written c p :
  pending_id p -> GetIndex1 c p <> 0 ->
  snd (TrySwitchState_body p c) = true /\
  GetIndex1 (fst (TrySwitchState_body p c)) 0
  = (if GetIndex1 c 0 =? p then 0 else p) /\
  GetIndex1 (fst (TrySwitchState_body p c)) p = 0 /\
  GetIndex1 (fst (TrySwitchState_body p c)) 3 = to_uchar (GetIndex1 c 3 + 1) /\
  (forall q, pending_id q -> q <> p ->
     GetIndex1 (fst (TrySwitchState_body p c)) q = GetIndex1 c q).
Proof.
  intros Hp Hw. unfold TrySwitchState_body.
  apply Z.eqb_neq in Hw. rewrite Hw. simpl.
  rewrite (SwapIndex1_pending_id _ _ Hp).
  destruct (GetIndex1 c 0 =? p) eqn:E0;
    destruct Hp as [-> | ->]; repeat split; try (intros q [-> | ->] Hq);
    try reflexivity; try congruence.
  all: simpl in *; rewrite E0; reflexivity.
Qed.

Lemma array_TrySwitchState_body_unwritten c p :
  GetIndex1 c p = 0 -> TrySwitchState_body p c = (c, false).
Proof. intros E. unfold TrySwitchState_body. rewrite E. reflexivity. Qed.

(** [TrySwitchState(state, result)], at its linearization point. *)
Lemma array_TrySwitchState_result_total env s p :
  pending_id p ->
  exists old_val, In old_val (fCounter s :: env) /\
    TrySwitchState_result env s p =
    Some (set_fCounter s (fst (TrySwitchState_body p old_val)),
          GetIndex1 (fst (TrySwitchState_body p old_val)) 0,
          snd (TrySwitchState_body p old_val)).
Proof.
  intros Hp. unfold TrySwitchState_result.
  rewrite (pending_id_in_fByteVal _ Hp).
  destruct (cas_loop_linearizable (TrySwitchState_body p) env (fCounter s))
    as (old & Hin & ->).
  exists old. split; [exact Hin|].
  destruct (TrySwitchState_body p old); reflexivity.
Qed.

(** [WriteNextStateStartAux(state, result)], at its linearization point. *)
Lemma array_WriteNextStateStartAux_inv env s p s' i r :
  pending_id p ->
  WriteNextStateStartAux env s p = Some (s', i, r) ->
  exists old_val, In old_val (fCounter s :: env) /\
    fCounter s' = SetIndex1 old_val p 0 /\
    i = SwapIndex1 old_val p /\
    r = negb (GetIndex1 old_val p =? 0) /\
    (if GetIndex1 old_val p =? 0
     then memcpy (fState s) i (GetIndex1 old_val 0) = Some (fState s')
     else fState s' = fState s).
Proof.
  intros Hp. unfold WriteNextStateStartAux.
  rewrite (pending_id_in_fByteVal _ Hp).
  destruct (cas_loop_linearizable (WriteNextStateStartAux_body p) env
              (fCounter s)) as (old & Hin & ->).
  unfold WriteNextStateStartAux_body.
  destruct (GetIndex1 old p =? 0) eqn:E; cbn [negb fState set_fCounter].
  - destruct (memcpy (fState s) (SwapIndex1 old p) (GetIndex1 old 0))
      as [a'|] eqn:Hm; cbn [mbind option_bind]; [|discriminate].
    intros [= <- <- <-]. exists old. rewrite E. repeat split; assumption.
  - intros [= <- <- <-]. exists old. rewrite E. repeat split; assumption.
Qed.

Lemma array_WriteNextStateStop_alone s p :
  pending_id p ->
  WriteNextStateStop [] s p = Some (set_fCounter s (SetIndex1 (fCounter s) p 1)).
Proof.
  intros Hp. unfold WriteNextStateStop, WriteNextStateStopAux.
  rewrite (pending_id_in_fByteVal _ Hp), cas_loop_alone. reflexivity.
Qed.

End ArrayFacts.

(** ** JackAtomicArrayState: the switch *)

Section ArraySwitch.
Import ArrayExchanger ArrayProtocol.
Context {T : Type}.
Implicit Types (s : JackAtomicArrayState T) (env : list AtomicArrayCounter).

Lemma set_fCounter_same s : set_fCounter s (fCounter s) = s.
Proof. destruct s; reflexivity. Qed.

(** C2, as amended. For a pending id [p] (1 or 2), [TrySwitchState(p)]
    takes effect in one compare-and-exchange, on the value [old_val] of
    the counter: when [old_val.byte[p] != 0] the current slot id
    [byte[0]] becomes 0 if it was [p] and [p] otherwise, [byte[p]]
    becomes 0, the switch counter [byte[3]] goes up by 1 modulo 256 and
    the flag of the other pending id is kept; when [byte[p] == 0] the
    counter is left as it is, and the slot returned is the unchanged
    current one.  The slots are never touched. *)
Theorem try_switch_toggles_current env s p :
  pending_id p ->
  exists old_val s' r,
    In old_val (fCounter s :: env) /\
    TrySwitchState_result env s p = Some (s', ReadCurrentState s', r) /\
    TrySwitchState env s p = Some (s', ReadCurrentState s') /\
    fState s' = fState s /\
    (GetIndex1 old_val p <> 0 ->
       r = true /\
       ReadCurrentState s' = (if GetIndex1 old_val 0 =? p then 0 else p) /\
       GetIndex1 (fCounter s') p = 0 /\
       GetIndex1 (fCounter s') 3 = to_uchar (GetIndex1 old_val 3 + 1) /\
       (forall q, pending_id q -> q <> p ->
          GetIndex1 (fCounter s') q = GetIndex1 old_val q)) /\
    (GetIndex1 old_val p = 0 ->
       r = false /\ fCounter s' = old_val /\
       ReadCurrentState s' = GetIndex1 old_val 0 /\
       (env = [] -> s' = s)).
Proof.
  intros Hp.
  destruct (array_TrySwitchState_result_total env s p Hp) as (old & Hin & Hsw).
  exists old, (set_fCounter s (fst (TrySwitchState_body p old))),
    (snd (TrySwitchState_body p old)).
  split; [exact Hin|]. split; [exact Hsw|]. split.
  { unfold TrySwitchState. rewrite Hsw. reflexivity. }
  split; [reflexivity|]. split.
  - intros Hw.
    destruct (array_TrySwitchState_body_written old p Hp Hw)
      as (Hr & H0 & Hpp & H3 & Hq).
    repeat split; assumption.
  - intros E. rewrite (array_TrySwitchState_body_unwritten old p E).
    repeat split. intros ->. destruct Hin as [<- | []].
    apply set_fCounter_same.
Qed.

End ArraySwitch.

Section ArraySwitchExamples.
Import ArrayExchanger ArrayProtocol.

Lemma try_switch_toggles_current_witness :
  pending_id 2 /\
  exists s',
    TrySwitchState_result [] ticket_at_wrap 2 = Some (s', 2, true) /\
    GetIndex1 (fCounter s') 3 = 0.
Proof.
  assert (pending_id 2) as Hp by (right; reflexivity).
  split; [exact Hp|].
  destruct (try_switch_toggles_current [] ticket_at_wrap 2 Hp)
    as (old & s' & r & [<- | []] & Hsw & _ & _ & Hw & _).
  destruct Hw as (-> & Hcur & _ & H3 & _); [simpl; lia|].
  exists s'. split; [rewrite Hsw, Hcur; reflexivity | exact H3].
Defined.

(** C2, as it was stated, fails: after [republish_trace] the current slot
    id is 1 and [fByteVal[1]] is 1; [TrySwitchState(1)] reports a switch and
    sets the current slot id to 0, not to 1. *)
Lemma try_switch_current_not_p :
  exists x s',
    run republish_trace (init_sys 0 0 0) = Some x /\
    st x = republished /\
    ReadCurrentState (st x) = 1 /\ GetIndex1 (fCounter (st x)) 1 = 1 /\
    TrySwitchState_result [] (st x) 1 = Some (s', 0, true) /\
    GetIndex1 (fCounter s') 0 <> 1.
Proof.
  eexists. eexists. split; [vm_compute; reflexivity|].
  split; [reflexivity|]. split; [reflexivity|]. split; [reflexivity|].
  split; [vm_compute; reflexivity|]. vm_compute. discriminate.
Qed.

End ArraySwitchExamples.

(** ** JackAtomicArrayState: the slot of a pending id *)

Section ArraySlots.
Import ArrayExchanger ArrayProtocol.
Context {T : Type}.
Implicit Types (s t : JackAtomicArrayState T)
  (env : list AtomicArrayCounter).

Lemma array_WriteNextStateStart_inv env s p s' i :
  pending_id p ->
  WriteNextStateStart env s p = Some (s', i) ->
  exists r, WriteNextStateStart_result env s p = Some (s', i, r).
Proof.
  intros Hp. unfold WriteNextStateStart, WriteNextStateStart_result.
  destruct (WriteNextStateStartAux env s p) as [[[s1 i1] r1]|];
    simpl; [|discriminate].
  intros [= <- <-]. exists r1. reflexivity.
Qed.

(** Without interference: the slot handed out, and what is left. *)
Lemma array_WriteNextStateStart_alone s p s' i r :
  pending_id p ->
  WriteNextStateStart_result [] s p = Some (s', i, r) ->
  i = (if ReadCurrentState s =? p then 0 else p) /\
  ReadCurrentState s' = ReadCurrentState s /\
  GetIndex1 (fCounter s') p = 0 /\
  GetIndex1 (fCounter s') 3 = GetIndex1 (fCounter s) 3 /\
  (forall q, pending_id q -> q <> p ->
     GetIndex1 (fCounter s') q = GetIndex1 (fCounter s) q) /\
  r = negb (GetIndex1 (fCounter s) p =? 0) /\
  (if GetIndex1 (fCounter s) p =? 0
   then memcpy (fState s) i (ReadCurrentState s) = Some (fState s')
   else fState s' = fState s).
Proof.
  intros Hp H. unfold WriteNextStateStart_result in H.
  apply array_WriteNextStateStartAux_inv in H
    as (old & [<- | []] & Hc & Hi & Hr & Hcopy); [|exact Hp].
  destruct (GetIndex1_SetIndex1_pending (fCounter s) p 0 Hp)
    as (Hpp & H0 & H3 & Hq).
  unfold ReadCurrentState. rewrite Hc, Hi.
  rewrite <- (SwapIndex1_pending_id _ _ Hp).
  repeat split; try assumption. rewrite <- Hi. exact Hcopy.
Qed.

(** Without interference: the switch of a written state. *)
Lemma array_TrySwitchState_written t p :
  pending_id p -> GetIndex1 (fCounter t) p <> 0 ->
  exists t',
    TrySwitchState_result [] t p =
    Some (t', (if ReadCurrentState t =? p then 0 else p), true) /\
    TrySwitchState [] t p =
    Some (t', (if ReadCurrentState t =? p then 0 else p)) /\
    ReadCurrentState t' = (if ReadCurrentState t =? p then 0 else p) /\
    GetIndex1 (fCounter t') p = 0 /\
    GetIndex1 (fCounter t') 3 = to_uchar (GetIndex1 (fCounter t) 3 + 1) /\
    fState t' = fState t.
Proof.
  intros Hp Hw.
  destruct (array_TrySwitchState_result_total [] t p Hp)
    as (old & [<- | []] & Hsw).
  destruct (array_TrySwitchState_body_written (fCounter t) p Hp Hw)
    as (Hr & H0 & Hpp & H3 & _).
  rewrite Hr, H0 in Hsw.
  eexists. split; [exact Hsw|].
  split; [unfold TrySwitchState; rewrite Hsw; reflexivity|].
  repeat split; assumption.
Qed.

(** The toggle rule.  [WriteNextStateStart(p)] and a [TrySwitchState(p)]
    that switches pick their slot by the same rule, each from the current
    slot id it finds: slot 0 if the current slot id is [p], slot [p]
    otherwise.  As long as the current slot id is the one
    [WriteNextStateStart(p)] found, the slot that [TrySwitchState(p)] makes
    current is the one the writer was handed; and a switch made while the
    current slot id is [p] makes it 0. *)
Lemma one_toggle_rule s p :
  pending_id p ->
  (forall s1 i,
     WriteNextStateStart [] s p = Some (s1, i) ->
     i = (if ReadCurrentState s =? p then 0 else p) /\
     ReadCurrentState s1 = ReadCurrentState s /\
     (forall f, exists s2 s3,
        WriteNextStateStop [] (store s1 i f) p = Some s2 /\
        TrySwitchState [] s2 p = Some (s3, i) /\
        ReadCurrentState s3 = i) /\
     (forall t,
        ReadCurrentState t = ReadCurrentState s1 ->
        GetIndex1 (fCounter t) p <> 0 ->
        exists t', TrySwitchState [] t p = Some (t', i) /\
                   ReadCurrentState t' = i)) /\
  (GetIndex1 (fCounter s) p <> 0 -> ReadCurrentState s = p ->
   exists s', TrySwitchState [] s p = Some (s', 0) /\
              ReadCurrentState s' = 0).
Proof.
  intros Hp. split.
  - intros s1 i Hb.
    destruct (array_WriteNextStateStart_inv _ _ _ _ _ Hp Hb) as [r Hr].
    destruct (array_WriteNextStateStart_alone _ _ _ _ _ Hp Hr)
      as (Hi & Hcur & _).
    split; [exact Hi|]. split; [exact Hcur|].
    assert (forall t,
              ReadCurrentState t = ReadCurrentState s1 ->
              GetIndex1 (fCounter t) p <> 0 ->
              exists t', TrySwitchState [] t p = Some (t', i) /\
                         ReadCurrentState t' = i) as Hlater.
    { intros t Ht Hw.
      destruct (array_TrySwitchState_written t p Hp Hw)
        as (t' & _ & Hsw & Hc' & _).
      rewrite Ht, Hcur, <- Hi in Hsw, Hc'. exists t'. split; assumption. }
    split; [|exact Hlater].
    intros f. rewrite (array_WriteNextStateStop_alone _ _ Hp).
    destruct (Hlater (set_fCounter (store s1 i f)
                        (SetIndex1 (fCounter (store s1 i f)) p 1)))
      as (s3 & Hsw & Hc3).
    + unfold ReadCurrentState; simpl.
      apply (GetIndex1_SetIndex1_pending _ _ _ Hp).
    + simpl. rewrite (proj1 (GetIndex1_SetIndex1_pending _ _ _ Hp)).
      discriminate.
    + eexists. exists s3. split; [reflexivity|]. split; assumption.
  - intros Hw Hc.
    destruct (array_TrySwitchState_written s p Hp Hw)
      as (s' & _ & Hsw & Hc' & _).
    rewrite Hc, Z.eqb_refl in Hsw, Hc'. exists s'. split; assumption.
Qed.

End ArraySlots.

Section ArraySlotsWitness.
Import ArrayExchanger ArrayProtocol.

Lemma one_toggle_rule_witness :
  pending_id 1 /\
  (exists s', TrySwitchState [] republished 1 = Some (s', 0) /\
              ReadCurrentState s' = 0) /\
  (exists s1 s2 s3,
     WriteNextStateStart [] republished 1 = Some (s1, 0) /\
     WriteNextStateStop [] (store s1 0 (fun _ => 12)) 1 = Some s2 /\
     TrySwitchState [] s2 1 = Some (s3, 0) /\ ReadCurrentState s3 = 0).
Proof.
  assert (pending_id 1) as Hp by (left; reflexivity).
  split; [exact Hp|].
  destruct (one_toggle_rule republished 1 Hp) as [Hbegin Hswitch].
  split.
  - apply Hswitch; [simpl; lia | reflexivity].
  - destruct (WriteNextStateStart [] republished 1) as [[s1 i]|] eqn:Hb;
      [|vm_compute in Hb; discriminate].
    destruct (Hbegin s1 i eq_refl) as (Hi & _ & Hseq & _).
    change (i = 0) in Hi. subst i.
    destruct (Hseq (fun _ => 12)) as (s2 & s3 & H2 & H3 & H4).
    exists s1, s2, s3. repeat split; assumption.
Defined.

(** C3 (the code departs from the claim).  The class keeps no record of
    the slot it hands to a writer: [TrySwitchState(p)] computes the slot
    to promote afresh, from the current slot id it finds.  After
    [two_ids_trace] the current slot id is 1 and an update is published on
    id 2; [WriteNextStateStart(1)] hands out slot 0 and the writer stores
    11 there; [TrySwitchState(2)] makes slot 2 current; after
    [WriteNextStateStop(1)], [TrySwitchState(1)] reports a switch and makes
    slot 1 current, not the slot 0 the writer was handed: the reader, who
    read 20, now reads 10, the payload of two switches before; the update
    11 stays in slot 0, and no flag is left up to have it switched in. *)
Theorem switch_promotes_another_slot :
  exists x0 x1 x2 s',
    run two_ids_trace (init_sys 0 0 0) = Some x0 /\
    ReadCurrentState (st x0) = 1 /\
    step (Begin 1) x0 = Some x1 /\
    WriteNextStateStart [] (st x0) 1 = Some (st x1, 0) /\
    run [Put 1 (fun _ => 11); Switch 2; End 1] x1 = Some x2 /\
    st x2 = disturbed /\ read (st x2) = Some 20 /\
    TrySwitchState_result [] (st x2) 1 = Some (s', 1, true) /\
    ReadCurrentState s' = 1 /\
    read s' = Some 10 /\ deref s' 0 = Some 11 /\
    GetIndex1 (fCounter s') 1 = 0 /\ GetIndex1 (fCounter s') 2 = 0.
Proof.
  eexists. eexists. eexists. eexists.
  split; [vm_compute; reflexivity|].
  split; [vm_compute; reflexivity|].
  split; [vm_compute; reflexivity|].
  split; [vm_compute; reflexivity|].
  split; [vm_compute; reflexivity|].
  split; [vm_compute; reflexivity|].
  split; [vm_compute; reflexivity|].
  split; [vm_compute; reflexivity|].
  repeat split; vm_compute; reflexivity.
Qed.

End ArraySlotsWitness.

(** ** JackAtomicArrayState: starting over an update that was not switched *)

Section ArrayOverwrite.
Import ArrayExchanger ArrayProtocol.
Context {T : Type}.
Implicit Types (s t : JackAtomicArrayState T)
  (env : list AtomicArrayCounter).

(** [WriteNextStateStart(p, &result)] on a state still publishable: no
    copy, the flag is taken down, [*result] is [true]. *)
Lemma array_WriteNextStateStart_published t p :
  pending_id p -> GetIndex1 (fCounter t) p <> 0 ->
  WriteNextStateStart_result [] t p =
  Some (set_fCounter t (SetIndex1 (fCounter t) p 0),
        (if ReadCurrentState t =? p then 0 else p), true).
Proof.
  intros Hp Hw. unfold WriteNextStateStart_result, WriteNextStateStartAux.
  rewrite (pending_id_in_fByteVal _ Hp), cas_loop_alone.
  unfold WriteNextStateStartAux_body.
  apply Z.eqb_neq in Hw. rewrite Hw.
  rewrite (SwapIndex1_pending_id _ _ Hp). reflexivity.
Qed.

Lemma slot_of_three (a : list T) (c p : Z) :
  pending_id p -> length a = 3%nat ->
  exists v, slot a (if c =? p then 0 else p) = Some v.
Proof.
  intros Hp Hl. apply slot_in_range;
    destruct (c =? p); destruct Hp as [-> | ->]; rewrite ?Hl; simpl; lia.
Qed.

(** A writer that starts over before any switch, from any exchanger of
    three slots in which its first [WriteNextStateStart] returns. *)
Lemma overwrite_unswitched_spec s p (v1 v2 : T) s1 i :
  pending_id p -> length (fState s) = 3%nat ->
  WriteNextStateStart [] s p = Some (s1, i) ->
  overwrite_unswitched p v1 v2 s =
  Some (i, i, true,
        poke (fState s1) i (fun _ => v1), poke (fState s1) i (fun _ => v1),
        true, Some v2, to_uchar (GetIndex1 (fCounter s) 3 + 1)).
Proof.
  intros Hp Hl Hb.
  destruct (array_WriteNextStateStart_inv _ _ _ _ _ Hp Hb) as [r Hr].
  destruct (array_WriteNextStateStart_alone _ _ _ _ _ Hp Hr)
    as (Hi & Hcur & _ & H3 & _ & _ & Hcopy).
  assert (length (fState s1) = 3%nat) as Hl1.
  { destruct (GetIndex1 (fCounter s) p =? 0).
    - apply memcpy_inv in Hcopy as (v & _ & _ & _ & Hlen). congruence.
    - congruence. }
  destruct (slot_of_three (fState s1) (ReadCurrentState s) p Hp Hl1)
    as [w Hw]. rewrite <- Hi in Hw.
  destruct (GetIndex1_SetIndex1_pending (fCounter s1) p 1 Hp)
    as (Hpp & H0 & H3' & _).
  unfold overwrite_unswitched. rewrite Hb. cbn [mbind option_bind].
  rewrite (array_WriteNextStateStop_alone _ _ Hp). cbn [mbind option_bind].
  match goal with |- context [WriteNextStateStart_result [] ?t p] =>
    set (s3 := t) end.
  assert (GetIndex1 (fCounter s3) p <> 0) as Hpub.
  { subst s3. cbn [fCounter set_fCounter store set_fState]. rewrite Hpp. discriminate. }
  assert (ReadCurrentState s3 = ReadCurrentState s) as Hcur3.
  { subst s3. unfold ReadCurrentState in *.
    cbn [fCounter set_fCounter store set_fState]. rewrite H0. exact Hcur. }
  rewrite (array_WriteNextStateStart_published s3 p Hp Hpub).
  rewrite Hcur3, <- Hi. cbn [mbind option_bind].
  rewrite (array_WriteNextStateStop_alone _ _ Hp). cbn [mbind option_bind].
  match goal with |- context [TrySwitchState_result [] ?t p] =>
    set (s6 := t) end.
  assert (GetIndex1 (fCounter s6) p <> 0) as Hpub6.
  { subst s6. cbn [fCounter set_fCounter store set_fState].
    rewrite (proj1 (GetIndex1_SetIndex1_pending _ p 1 Hp)). discriminate. }
  assert (ReadCurrentState s6 = ReadCurrentState s) as Hcur6.
  { subst s6. unfold ReadCurrentState in *.
    cbn [fCounter set_fCounter store set_fState].
    rewrite (proj1 (proj2 (GetIndex1_SetIndex1_pending _ p 1 Hp))).
    rewrite (proj1 (proj2 (GetIndex1_SetIndex1_pending _ p 0 Hp))).
    exact Hcur3. }
  assert (GetIndex1 (fCounter s6) 3 = GetIndex1 (fCounter s) 3) as H36.
  { subst s6. cbn [fCounter set_fCounter store set_fState].
    rewrite (proj1 (proj2 (proj2 (GetIndex1_SetIndex1_pending _ p 1 Hp)))).
    rewrite (proj1 (proj2 (proj2 (GetIndex1_SetIndex1_pending _ p 0 Hp)))).
    subst s3. cbn [fCounter set_fCounter store set_fState]. rewrite H3'. exact H3. }
  destruct (array_TrySwitchState_written s6 p Hp Hpub6)
    as (s7 & Hsw & _ & Hc7 & _ & H37 & Hf7).
  rewrite Hsw. cbn [mbind option_bind].
  rewrite Hcur6, <- Hi in Hc7.
  unfold read, deref. rewrite Hc7, Hf7, H37, H36.
  subst s6 s3. cbn [fState fCounter set_fCounter store set_fState].
  pose proof (slot_poke_eq (fState s1) i (fun _ => v1) w Hw) as Hw1.
  rewrite (slot_poke_eq _ i (fun _ => v2) _ Hw1). reflexivity.
Qed.

(** What [WriteNextStateStart(p, &was_published)] does.  [*was_published]
    is [true] exactly when [old_val.byte[p] != 0] for the value of the
    counter its compare-and-exchange succeeded on; the copy is made exactly
    when [old_val.byte[p] == 0], and the slots are left as they are
    otherwise; the flag [byte[p]] is taken down.  As long as the current
    slot id is the one the previous [WriteNextStateStart(p)] found, the
    slot handed out is the same one.  A writer that starts over before any
    switch is handed the same slot, gets [was_published == true], finds the
    slots as its first update left them, and the switch then gives the
    second payload with the switch counter one higher (on 8 bits); in
    scenario S5 the reader reads 2 and the switch counter is 1. *)
Lemma begin_write_was_published :
  (forall s t p s1 i t1 j r,
     pending_id p ->
     ReadCurrentState t = ReadCurrentState s ->
     WriteNextStateStart [] s p = Some (s1, i) ->
     WriteNextStateStart_result [] t p = Some (t1, j, r) ->
     j = i) /\
  (forall env s p s' i r,
     pending_id p ->
     WriteNextStateStart_result env s p = Some (s', i, r) ->
     exists old_val, In old_val (fCounter s :: env) /\
       (r = true <-> GetIndex1 old_val p <> 0) /\
       (GetIndex1 old_val p <> 0 -> fState s' = fState s) /\
       (GetIndex1 old_val p = 0 ->
        memcpy (fState s) i (GetIndex1 old_val 0) = Some (fState s')) /\
       GetIndex1 (fCounter s') p = 0) /\
  (forall s p (v1 v2 : T) s1 i,
     pending_id p -> length (fState s) = 3%nat ->
     WriteNextStateStart [] s p = Some (s1, i) ->
     overwrite_unswitched p v1 v2 s =
     Some (i, i, true,
           poke (fState s1) i (fun _ => v1), poke (fState s1) i (fun _ => v1),
           true, Some v2, to_uchar (GetIndex1 (fCounter s) 3 + 1))) /\
  overwrite_unswitched 1 1 2 (JackAtomicArrayState_init 0 0 0) =
  Some (1, 1, true, [0; 1; 0], [0; 1; 0], true, Some 2, 1).
Proof.
  split; [|split; [|split]].
  - intros s t p s1 i t1 j r Hp Hc Hb Hr.
    destruct (array_WriteNextStateStart_inv _ _ _ _ _ Hp Hb) as [r1 Hr1].
    destruct (array_WriteNextStateStart_alone _ _ _ _ _ Hp Hr1) as (-> & _).
    destruct (array_WriteNextStateStart_alone _ _ _ _ _ Hp Hr) as (-> & _).
    rewrite Hc. reflexivity.
  - intros env s p s' i r Hp H. unfold WriteNextStateStart_result in H.
    apply array_WriteNextStateStartAux_inv in H
      as (old & Hin & Hc & Hi & Hr & Hcopy); [|exact Hp].
    exists old. split; [exact Hin|]. rewrite Hr, Hc.
    destruct (GetIndex1 old p =? 0) eqn:E;
      [apply Z.eqb_eq in E | apply Z.eqb_neq in E]; simpl.
    + repeat split; try congruence; try (intros; assumption).
      exact (proj1 (GetIndex1_SetIndex1_pending old p 0 Hp)).
    + repeat split; try congruence; try (intros; assumption).
      exact (proj1 (GetIndex1_SetIndex1_pending old p 0 Hp)).
  - intros s p v1 v2 s1 i. apply overwrite_unswitched_spec.
  - vm_compute. reflexivity.
Qed.

End ArrayOverwrite.

Section ArrayOverwriteWitness.
Import ArrayExchanger ArrayProtocol.

Lemma begin_write_was_published_witness :
  pending_id 1 /\
  overwrite_unswitched 1 12 13 republished =
  Some (0, 0, true, [12; 10; 0], [12; 10; 0], true, Some 13, 2).
Proof.
  assert (pending_id 1) as Hp by (left; reflexivity).
  split; [exact Hp|].
  destruct (@begin_write_was_published Z) as (_ & _ & Hover & _).
  refine (Hover republished 1 12 13
            {| fState := [11; 10; 0];
               fCounter := {| fByteVal0 := 1; fByteVal1 := 0;
                              fByteVal2 := 0; fByteVal3 := 1 |} |}
            0 Hp eq_refl _).
  vm_compute. reflexivity.
Defined.

(** C8 (the code departs from the claim).  [need_copy] and
    [*was_published] are read off the flag [byte[p]] alone, as if the slot
    handed out still held the update the flag stands for; the slot is
    computed afresh from the current slot id.  After [two_ids_trace] the
    current slot id is 1 and an update is published on id 2;
    [WriteNextStateStart(1)] hands out slot 0, the writer stores 11 there
    and publishes; [TrySwitchState(2)] makes slot 2 current.  The writer
    starts over: [*was_published] is [true] and no copy is made, yet the
    slot handed out is slot 1, not slot 0.  The update 11 is not
    overwritten, and the writer is left to work on 10, which is neither
    its update nor the current payload, 20. *)
Theorem restart_handed_another_slot :
  exists x0 x1 x2 s',
    run two_ids_trace (init_sys 0 0 0) = Some x0 /\
    step (Begin 1) x0 = Some x1 /\
    WriteNextStateStart [] (st x0) 1 = Some (st x1, 0) /\
    run [Put 1 (fun _ => 11); End 1; Switch 2] x1 = Some x2 /\
    st x2 = disturbed /\
    GetIndex1 (fCounter (st x2)) 1 = 1 /\
    WriteNextStateStart_result [] (st x2) 1 = Some (s', 1, true) /\
    fState s' = fState (st x2) /\
    deref s' 0 = Some 11 /\ deref s' 1 = Some 10 /\
    ReadCurrentState s' = 2 /\ read s' = Some 20.
Proof.
  eexists. eexists. eexists. eexists.
  split; [vm_compute; reflexivity|].
  split; [vm_compute; reflexivity|].
  split; [vm_compute; reflexivity|].
  split; [vm_compute; reflexivity|].
  split; [vm_compute; reflexivity|].
  split; [vm_compute; reflexivity|].
  split; [vm_compute; reflexivity|].
  repeat split; vm_compute; reflexivity.
Qed.

End ArrayOverwriteWitness.

(** ** JackAtomicArrayState: two writers *)

Section ArrayWriters.
Import ArrayExchanger ArrayProtocol.

(** C6. From the constructor with all slots zero, writer A on id 1
    (payload 100) and writer B on id 2 (payload 200) each complete a
    [WriteNextStateStart] / [WriteNextStateStop] pair, their calls
    interleaved in any of the 20 ways; then [TrySwitchState(1)] and
    [TrySwitchState(2)] both switch, the switch counter is 1 after the
    first and 2 after the second, the reader reads 200 and
    [GetCurrentIndex] returns that counter, 2. *)
Theorem two_writers_two_switches :
  Forall (fun tr =>
            switch_twice 1 2 tr (init_sys 0 0 0) =
            Some (true, 1, true, Some 200, 2, 2))
         (interleave writer_A writer_B) /\
  In (writer_A ++ writer_B) (interleave writer_A writer_B) /\
  length (interleave writer_A writer_B) = 20%nat.
Proof.
  split; [|split].
  - unfold writer_A, writer_B. cbn [interleave map app].
    repeat (constructor; [vm_compute; reflexivity|]). constructor.
  - left. reflexivity.
  - reflexivity.
Qed.

End ArrayWriters.

(** ** Writers and the current slot *)

Section ArrayRegions.
Import ArrayExchanger ArrayProtocol.
Context {T : Type}.
Implicit Types (s t : JackAtomicArrayState T) (x : sys T)
  (env : list AtomicArrayCounter).

Lemma array_WriteNextStateStart_not_current env s p s' i :
  pending_id p ->
  WriteNextStateStart env s p = Some (s', i) ->
  i <> ReadCurrentState s'.
Proof.
  intros Hp Hb.
  destruct (array_WriteNextStateStart_inv _ _ _ _ _ Hp Hb) as [r Hr].
  unfold WriteNextStateStart_result in Hr.
  apply array_WriteNextStateStartAux_inv in Hr
    as (old & _ & Hc & -> & _); [|exact Hp].
  unfold ReadCurrentState. rewrite Hc.
  rewrite (proj1 (proj2 (GetIndex1_SetIndex1_pending old p 0 Hp))).
  apply SwapIndex1_not_current, Hp.
Qed.

Lemma array_WriteNextStateStart_apart s t p q s' t' i j :
  pending_id p -> pending_id q -> p <> q ->
  ReadCurrentState t = ReadCurrentState s ->
  WriteNextStateStart [] s p = Some (s', i) ->
  WriteNextStateStart [] t q = Some (t', j) ->
  i <> j.
Proof.
  intros Hp Hq Hne Hc Hb1 Hb2.
  destruct (array_WriteNextStateStart_inv _ _ _ _ _ Hp Hb1) as [r1 Hr1].
  destruct (array_WriteNextStateStart_inv _ _ _ _ _ Hq Hb2) as [r2 Hr2].
  destruct (array_WriteNextStateStart_alone _ _ _ _ _ Hp Hr1) as (-> & _).
  destruct (array_WriteNextStateStart_alone _ _ _ _ _ Hq Hr2) as (-> & _).
  rewrite Hc. unfold ReadCurrentState.
  rewrite <- (SwapIndex1_pending_id (fCounter s) p Hp).
  rewrite <- (SwapIndex1_pending_id (fCounter s) q Hq).
  apply SwapIndex1_apart; assumption.
Qed.

(** A switch on an id whose flag is down changes nothing. *)
Lemma array_TrySwitchState_unwritten s p :
  pending_id p -> GetIndex1 (fCounter s) p = 0 ->
  TrySwitchState [] s p = Some (s, ReadCurrentState s).
Proof.
  intros Hp E. unfold TrySwitchState.
  destruct (array_TrySwitchState_result_total [] s p Hp)
    as (old & [<- | []] & ->).
  rewrite (array_TrySwitchState_body_unwritten _ _ E). simpl.
  rewrite set_fCounter_same. reflexivity.
Qed.

Lemma step_flags_down o x x' :
  pending_id (op_id o) -> flags_down x -> step o x = Some x' ->
  flags_down x'.
Proof.
  intros Hp0 Hx. destruct x as [s h]. unfold flags_down in *. simpl in Hx.
  destruct o as [p0 | p0 f | p0 | p0]; cbn [op_id] in Hp0; cbn [step st ptr].
  - destruct (WriteNextStateStart [] s p0) as [[s' i0]|] eqn:Hb;
      cbn [mbind option_bind]; [|discriminate].
    intros [= <-] p i Hp. cbn [st ptr]. unfold set_ptr.
    destruct (array_WriteNextStateStart_inv _ _ _ _ _ Hp0 Hb) as [r Hr].
    destruct (array_WriteNextStateStart_alone _ _ _ _ _ Hp0 Hr)
      as (_ & _ & Hdown & _ & Hother & _).
    destruct (p =? p0) eqn:E;
      [apply Z.eqb_eq in E; subst p | apply Z.eqb_neq in E].
    + intros _. exact Hdown.
    + intros Hh. rewrite (Hother p Hp E). eapply Hx; eauto.
  - destruct (h p0) as [i0|]; cbn [mbind option_bind]; [|discriminate].
    intros [= <-] p i Hp Hh. cbn [st ptr] in *. eapply Hx; eauto.
  - destruct (h p0) as [i0|]; cbn [mbind option_bind]; [|discriminate].
    rewrite (array_WriteNextStateStop_alone _ _ Hp0).
    cbn [mbind option_bind].
    intros [= <-] p i Hp. cbn [st ptr fCounter set_fCounter]. unfold set_ptr.
    destruct (p =? p0) eqn:E;
      [discriminate | apply Z.eqb_neq in E].
    intros Hh.
    rewrite (proj2 (proj2 (proj2
               (GetIndex1_SetIndex1_pending (fCounter s) p0 1 Hp0))) p Hp E).
    eapply Hx; eauto.
  - unfold TrySwitchState.
    destruct (array_TrySwitchState_result_total [] s p0 Hp0)
      as (old & [<- | []] & ->). cbn [mbind option_bind].
    intros [= <-] p i Hp Hh. cbn [st ptr fCounter set_fCounter] in *.
    destruct (Z.eq_dec (GetIndex1 (fCounter s) p0) 0) as [E0 | E0].
    + rewrite (array_TrySwitchState_body_unwritten _ _ E0). simpl fst.
      eapply Hx; eauto.
    + destruct (array_TrySwitchState_body_written _ _ Hp0 E0)
        as (_ & _ & Hdown & _ & Hother).
      destruct (Z.eq_dec p p0) as [-> | E]; [exact Hdown|].
      rewrite (Hother p Hp E). eapply Hx; eauto.
Qed.

Lemma run_flags_down tr x x' :
  Forall (fun o => pending_id (op_id o)) tr -> flags_down x ->
  run tr x = Some x' -> flags_down x'.
Proof.
  intros Htr. revert x. induction Htr as [|o tr Ho Htr IH]; intros x Hx; simpl.
  - intros [= <-]. exact Hx.
  - destruct (step o x) as [y|] eqn:Hs; simpl; [|discriminate].
    apply IH. eapply step_flags_down; eauto.
Qed.

Lemma init_flags_down (a b c : T) : flags_down (init_sys a b c).
Proof. intros p i _ Hh. discriminate Hh. Qed.

End ArrayRegions.

Section SingleRegionSlot.
Import SingleExchanger SingleProtocol.
Context {T : Type}.

Lemma WriteNextStateStart_not_current env (s s' : JackAtomicState T) i :
  WriteNextStateStart env s = Some (s', i) -> i <> ReadCurrentState s'.
Proof.
  destruct (Z.eq_dec (fCallWriteCounter s) 0) as [E|E].
  - rewrite (WriteNextStateStart_outer _ _ E). intros H.
    apply WriteNextStateStartAux_inv in H as (old & _ & Hc & -> & _).
    unfold ReadCurrentState, CurArrayIndex, NextArrayIndex. rewrite Hc.
    apply land_1_succ_ne.
  - rewrite (WriteNextStateStart_nested _ _ E). intros [= <- <-].
    apply land_1_succ_ne.
Qed.

(** On the machine too, in every state the two threads reach, the slot
    the writer holds inside a write region is not the current one. *)
Lemma single_writer_slot_not_current (a b : T) tr x i :
  run tr (init_sys a b) = Some x -> ptr x = Some i ->
  i <> ReadCurrentState (st x).
Proof.
  intros Hrun Hp.
  apply (disciplined_ptr x i); [|exact Hp].
  apply (run_in_protocol _ _ _ (init_in_protocol a b) Hrun).
Qed.

End SingleRegionSlot.

Section WritersAndCurrent.

(** C10 (the code departs from the claim).  JackAtomicArrayState picks
    the slot of a writer by the toggle rule alone and keeps no record of
    the slots being written.  After [shared_slot_trace] writers 1 and 2
    are both inside a write region and both hold slot 0.  After
    [current_written_trace] writer 1 is still inside its write region on
    slot 0, and slot 0 is the current slot: the reader reads 30, and a
    store of writer 1, with no switch, changes what it reads. *)
Theorem array_write_region_on_current_slot :
  (exists x,
     ArrayProtocol.run ArrayProtocol.shared_slot_trace
       (ArrayProtocol.init_sys 0 0 0) = Some x /\
     ArrayProtocol.ptr x 1 = Some 0 /\ ArrayProtocol.ptr x 2 = Some 0 /\
     ~ ArrayProtocol.writers_apart x) /\
  (exists x y,
     ArrayProtocol.run ArrayProtocol.current_written_trace
       (ArrayProtocol.init_sys 0 0 0) = Some x /\
     ArrayProtocol.ptr x 1 = Some 0 /\
     ArrayExchanger.ReadCurrentState (ArrayProtocol.st x) = 0 /\
     ~ ArrayProtocol.current_not_written x /\
     ArrayProtocol.read (ArrayProtocol.st x) = Some 30 /\
     ArrayProtocol.step (ArrayProtocol.Put 1 (fun _ => 99)) x = Some y /\
     ArrayProtocol.read (ArrayProtocol.st y) = Some 99).
Proof.
  split.
  - eexists. split; [vm_compute; reflexivity|].
    split; [reflexivity|]. split; [reflexivity|].
    intros H. apply (H 1 2 0 0); [lia | reflexivity | reflexivity | reflexivity].
  - eexists. eexists. split; [vm_compute; reflexivity|].
    split; [reflexivity|]. split; [reflexivity|].
    split; [intros H; apply (H 1 0); reflexivity|].
    split; [reflexivity|]. split; reflexivity.
Qed.

End WritersAndCurrent.

(** ** The counters as words *)

Section CounterWordFacts.
Import CounterWords.

Lemma AtomicCounter_of_word_Counter (c : SingleExchanger.AtomicCounter) :
  counter_in_range c -> AtomicCounter_of_word (Counter c) = c.
Proof.
  destruct c as [cu ne]. unfold counter_in_range, AtomicCounter_of_word,
    Counter. simpl. intros [Hc Hn]. f_equal; Z.div_mod_to_equations; lia.
Qed.

(** X1. [AtomicCounter::operator=] goes through the 32-bit word
    [fLongVal]: for 16-bit fields the word is below 2^32, the assignment
    gives back the same [cur] and [next], a word read as fields and packed
    again is the same word, two counters with the same word are equal, and
    so [CompareExchange] on the word is the comparison of both fields. *)
Theorem atomic_counter_word_round_trip (c : SingleExchanger.AtomicCounter) :
  counter_in_range c ->
  0 <= Counter c < 4294967296 /\
  AtomicCounter_assign c = c /\
  (forall w, 0 <= w < 4294967296 ->
     Counter (AtomicCounter_of_word w) = w /\
     counter_in_range (AtomicCounter_of_word w)) /\
  (forall d, counter_in_range d -> Counter c = Counter d -> c = d) /\
  (forall old repl,
     counter_in_range old -> counter_in_range repl ->
     CompareExchange c old repl = compare_exchange_strong c old repl).
Proof.
  intros Hc. split; [|split; [|split; [|split]]].
  - destruct Hc as [H1 H2]. unfold Counter. lia.
  - apply AtomicCounter_of_word_Counter, Hc.
  - intros w Hw. unfold Counter, AtomicCounter_of_word, counter_in_range.
    simpl. rewrite (Z.mod_small (w / 65536)).
    + pose proof (Z.div_mod w 65536 ltac:(lia)).
      pose proof (Z.mod_pos_bound w 65536 ltac:(lia)).
      assert (0 <= w / 65536 < 65536)
        by (split; [apply Z.div_pos; lia
                   | apply Z.div_lt_upper_bound; lia]).
      lia.
    + split; [apply Z.div_pos; lia | apply Z.div_lt_upper_bound; lia].
  - intros d Hd E.
    rewrite <- (AtomicCounter_of_word_Counter c Hc),
            <- (AtomicCounter_of_word_Counter d Hd), E. reflexivity.
  - intros old repl Ho Hr. unfold CompareExchange, compare_exchange_strong.
    rewrite (AtomicCounter_of_word_Counter repl Hr).
    destruct (Counter c =? Counter old) eqn:E;
      [apply Z.eqb_eq in E | apply Z.eqb_neq in E].
    + assert (c = old) as ->.
      { rewrite <- (AtomicCounter_of_word_Counter c Hc),
                <- (AtomicCounter_of_word_Counter old Ho), E. reflexivity. }
      destruct (decide (old = old)); congruence.
    + destruct (decide (c = old)) as [-> | Hne]; [congruence | reflexivity].
Qed.

Lemma atomic_counter_word_round_trip_witness :
  counter_in_range
    {| SingleExchanger.fShortVal1 := 65535; SingleExchanger.fShortVal2 := 0 |}
  /\
  AtomicCounter_assign
    {| SingleExchanger.fShortVal1 := 65535; SingleExchanger.fShortVal2 := 0 |}
  = {| SingleExchanger.fShortVal1 := 65535; SingleExchanger.fShortVal2 := 0 |}.
Proof.
  assert (counter_in_range
            {| SingleExchanger.fShortVal1 := 65535;
               SingleExchanger.fShortVal2 := 0 |}) as H
    by (unfold counter_in_range; simpl; lia).
  split; [exact H|].
  exact (proj1 (proj2 (atomic_counter_word_round_trip _ H))).
Defined.

Lemma SetCounter1_Counter1 (c : ArrayExchanger.AtomicArrayCounter) :
  bytes_in_range c -> SetCounter1 (Counter1 c) = c.
Proof.
  destruct c as [b0 b1 b2 b3].
  unfold bytes_in_range, SetCounter1, Counter1. simpl.
  intros (H0 & H1 & H2 & H3).
  rewrite (Z.mod_small _ 4294967296) by lia.
  f_equal; Z.div_mod_to_equations; lia.
Qed.

(** X2. [AtomicArrayCounter::operator=] and [SetCounter1] go through
    [fLongVal]: for byte-sized fields the word is below 2^32 and the
    assignment gives back the same four bytes; [SetCounter1(value)]
    followed by [Counter1()] returns [value] on 32 bits; two counters with
    the same word are equal; the constructor's [SetCounter1(0)] clears the
    current slot id, both flags and the switch counter. *)
Theorem array_counter_word_round_trip
  (c : ArrayExchanger.AtomicArrayCounter) :
  bytes_in_range c ->
  0 <= Counter1 c < 4294967296 /\
  AtomicArrayCounter_assign c = c /\
  (forall value,
     Counter1 (SetCounter1 value) = value mod 4294967296 /\
     bytes_in_range (SetCounter1 value)) /\
  (forall d, bytes_in_range d -> Counter1 c = Counter1 d -> c = d) /\
  SetCounter1 0 = ArrayExchanger.AtomicArrayCounter_init.
Proof.
  intros Hc. split; [|split; [|split; [|split]]].
  - destruct Hc as (H0 & H1 & H2 & H3). unfold Counter1. lia.
  - apply SetCounter1_Counter1, Hc.
  - intros value. unfold Counter1, SetCounter1, bytes_in_range. simpl.
    pose proof (Z.mod_pos_bound value 4294967296 ltac:(lia)) as Hw.
    set (w := value mod 4294967296) in *. clearbody w.
    split; [|repeat split]; Z.div_mod_to_equations; lia.
  - intros d Hd E.
    rewrite <- (SetCounter1_Counter1 c Hc), <- (SetCounter1_Counter1 d Hd), E.
    reflexivity.
  - reflexivity.
Qed.

Lemma array_counter_word_round_trip_witness :
  bytes_in_range (ArrayExchanger.fCounter ArrayProtocol.ticket_at_wrap) /\
  AtomicArrayCounter_assign
    (ArrayExchanger.fCounter ArrayProtocol.ticket_at_wrap)
  = ArrayExchanger.fCounter ArrayProtocol.ticket_at_wrap.
Proof.
  assert (bytes_in_range (ArrayExchanger.fCounter ArrayProtocol.ticket_at_wrap))
    as H by (unfold bytes_in_range; simpl; lia).
  split; [exact H|].
  exact (proj1 (proj2 (array_counter_word_round_trip _ H))).
Defined.

End CounterWordFacts.

(** ** JackAtomicState: a write region over a published update *)

Section SingleWithdraw.
Import SingleExchanger SingleProtocol SingleUse.
Context {T : Type}.
Implicit Types (s : JackAtomicState T) (x : sys T).

Lemma disciplined_pending x :
  disciplined x -> IsPendingChange (st x) = true ->
  fCallWriteCounter (st x) = 0 /\
  NextIndex (fCounter (st x)) = to_UInt16 (CurIndex (fCounter (st x)) + 1) /\
  (CurIndex (fCounter (st x)) =? NextIndex (fCounter (st x))) = false.
Proof.
  intros (_ & _ & _ & Hd & H0 & H1) Hp. unfold IsPendingChange in Hp.
  apply negb_true_iff in Hp. pose proof Hp as Hne. apply Z.eqb_neq in Hne.
  destruct (Z.eq_dec (fCallWriteCounter (st x)) 0) as [E|E].
  - destruct (H0 E) as [[Hok | Hok] _]; [congruence|].
    repeat split; assumption.
  - destruct H1 as [He _]; [lia | congruence].
Qed.

Lemma WriteNextStateStart_pending x :
  disciplined x -> IsPendingChange (st x) = true ->
  WriteNextStateStart [] (st x) =
  Some (set_fCounter (set_fCallWriteCounter (st x) 1)
          {| fShortVal1 := CurIndex (fCounter (st x));
             fShortVal2 := CurIndex (fCounter (st x)) |},
        NextArrayIndex (fCounter (st x))).
Proof.
  intros Hx Hp. destruct (disciplined_pending x Hx Hp) as (Hd & _ & Hne).
  destruct Hx as (_ & Hc & _). unfold in_UInt16 in Hc.
  rewrite (WriteNextStateStart_outer _ _ Hd).
  unfold WriteNextStateStartAux. rewrite cas_loop_alone.
  unfold WriteNextStateStartAux_body. simpl fCounter. rewrite Hne.
  unfold SetNextIndex. rewrite (to_UInt16_small _ Hc). reflexivity.
Qed.

(** X3. [WriteNextStateStart] called while an update is published and not
    yet switched always returns: no copy is made, the slots are left as
    they are, the slot handed out is the one that holds the published
    update, and the update is withdrawn: [IsPendingChange] is false and a
    [TrySwitchState] inside the region changes nothing and keeps the
    reader on its slot. *)
Theorem begin_write_withdraws_published (x : sys T) :
  disciplined x -> IsPendingChange (st x) = true ->
  exists s1,
    WriteNextStateStart [] (st x) =
    Some (s1, NextArrayIndex (fCounter (st x))) /\
    NextArrayIndex (fCounter (st x)) = Z.land (NextIndex (fCounter (st x))) 1 /\
    fState s1 = fState (st x) /\
    fCallWriteCounter s1 = 1 /\
    IsPendingChange s1 = false /\
    TrySwitchState_result [] s1 = (s1, ReadCurrentState (st x), false).
Proof.
  intros Hx Hp. destruct (disciplined_pending x Hx Hp) as (Hd & Hn & Hne).
  rewrite (WriteNextStateStart_pending x Hx Hp).
  destruct Hx as (_ & Hc & _).
  eexists. split; [reflexivity|].
  split; [|split; [reflexivity|split; [reflexivity|split]]].
  - rewrite Hn, land_1_to_UInt16. reflexivity.
  - unfold IsPendingChange; simpl. rewrite Z.eqb_refl. reflexivity.
  - rewrite TrySwitchState_result_idle; [reflexivity | exact Hc | reflexivity].
Qed.

(** X4. A write region opened over a published update works on that
    update: after [WriteNextStateStart], stores changing the payload by
    [g], [WriteNextStateStop] and [TrySwitchState], the switch succeeds and
    the reader reads [g] of the payload of the update that was withdrawn;
    the counter [cur] has advanced by one and the slot that was current
    still holds its payload. *)
Theorem update_over_published (x : sys T) (w : T) (g : T -> T) :
  disciplined x -> IsPendingChange (st x) = true ->
  deref (st x) (NextArrayIndex (fCounter (st x))) = Some w ->
  exists s',
    update_and_switch g (st x) = Some (s', true, Some (g w)) /\
    GetCurrentIndex s' = to_UInt16 (GetCurrentIndex (st x) + 1) /\
    deref s' (ReadCurrentState (st x)) =
    deref (st x) (ReadCurrentState (st x)).
Proof.
  intros Hx Hp Hw. destruct (disciplined_pending x Hx Hp) as (Hd & Hn & Hne).
  unfold update_and_switch. rewrite (WriteNextStateStart_pending x Hx Hp).
  cbn [mbind option_bind]. destruct Hx as (_ & Hc & _).
  unfold in_UInt16 in Hc.
  rewrite WriteNextStateStop_outer by reflexivity.
  rewrite TrySwitchState_result_alone.
  unfold read, deref, ReadCurrentState, GetCurrentIndex, CurArrayIndex,
    NextArrayIndex, SetCurIndex, SetNextIndex, NextIndex, CurIndex in *.
  simpl. set (c := fShortVal1 (fCounter (st x))) in *.
  rewrite to_UInt16_idem, land_1_to_UInt16.
  assert ((c =? to_UInt16 (c + 1)) = false) as Hpub.
  { apply Z.eqb_neq. intros E. symmetry in E.
    exact (to_UInt16_succ_ne c Hc E). }
  rewrite Hpub, (slot_poke_eq _ _ g w Hw).
  eexists. split; [reflexivity|]. split; [reflexivity|].
  apply slot_poke_ne; [destruct (land_1_range c); lia | apply land_1_succ_ne].
Qed.

End SingleWithdraw.

Section SingleWithdrawWitness.
Import SingleExchanger SingleProtocol SingleUse.

Lemma published_at_wrap_disciplined :
  disciplined {| st := published_at_wrap; ptr := None |}.
Proof.
  unfold disciplined, in_UInt16, counter_ok; simpl.
  repeat split; try lia. right. vm_compute. reflexivity.
Qed.

Lemma begin_write_withdraws_published_witness :
  IsPendingChange published_at_wrap = true /\
  exists s1,
    WriteNextStateStart [] published_at_wrap = Some (s1, 0) /\
    fState s1 = [7; 8] /\ IsPendingChange s1 = false.
Proof.
  split; [reflexivity|].
  destruct (begin_write_withdraws_published
              {| st := published_at_wrap; ptr := None |}
              published_at_wrap_disciplined eq_refl)
    as (s1 & Hb & _ & Hf & _ & Hp & _).
  exists s1. repeat split; assumption.
Defined.

Lemma update_over_published_witness :
  deref published_at_wrap 0 = Some 7 /\
  exists s',
    update_and_switch (Z.add 1) published_at_wrap = Some (s', true, Some 8) /\
    GetCurrentIndex s' = 0.
Proof.
  split; [reflexivity|].
  destruct (update_over_published
              {| st := published_at_wrap; ptr := None |} 7 (Z.add 1)
              published_at_wrap_disciplined eq_refl eq_refl)
    as (s' & Hu & Hc & _).
  exists s'. split; [exact Hu | exact Hc].
Defined.

End SingleWithdrawWitness.

(** ** JackAtomicState: what the reader reads, and when *)

Section SingleReader.
Import SingleExchanger SingleProtocol SingleUse.
Context {T : Type}.
Implicit Types (s : JackAtomicState T) (x : sys T).

(** X5. With nothing pending and the counter at 0 or 1, a write region
    works on a copy of the current payload: after [WriteNextStateStart],
    stores changing the payload by [f], [WriteNextStateStop] and
    [TrySwitchState], the switch succeeds, the reader reads [f] of the
    payload it read before, and the slot it read before still holds that
    payload. *)
Theorem update_applies_to_current (x : sys T) (v : T) (f : T -> T) :
  disciplined x -> fCallWriteCounter (st x) = 0 ->
  IsPendingChange (st x) = false ->
  CurIndex (fCounter (st x)) < 2 ->
  read (st x) = Some v ->
  exists s',
    update_and_switch f (st x) = Some (s', true, Some (f v)) /\
    GetCurrentIndex s' = GetCurrentIndex (st x) + 1 /\
    deref s' (ReadCurrentState (st x)) = Some v.
Proof.
  intros Hx Hd Hp Hlt Hv.
  destruct Hx as (Hl & Hc & _). unfold in_UInt16 in Hc.
  unfold IsPendingChange in Hp. apply negb_false_iff, Z.eqb_eq in Hp.
  unfold update_and_switch. rewrite (WriteNextStateStart_outer _ _ Hd).
  destruct (WriteNextStateStartAux_copy (set_fCallWriteCounter (st x) 1) v)
    as (s1 & Hb & Hcnt & Hn & Hcur & Hl1); try assumption; [simpl; lia|].
  rewrite Hb. cbn [mbind option_bind]. simpl fCounter in *.
  assert (fCallWriteCounter s1 = 1) as Hd1.
  { apply WriteNextStateStartAux_inv in Hb as (? & _ & _ & _ & Hd1 & _).
    exact Hd1. }
  rewrite WriteNextStateStop_outer by exact Hd1.
  rewrite TrySwitchState_result_alone.
  change (ReadCurrentState (set_fCallWriteCounter (st x) 1))
    with (ReadCurrentState (st x)) in Hcur.
  unfold read, deref, ReadCurrentState, GetCurrentIndex, CurArrayIndex,
    NextArrayIndex, SetCurIndex, SetNextIndex, NextIndex, CurIndex in *.
  simpl. rewrite Hcnt. set (c := fShortVal1 (fCounter (st x))) in *.
  rewrite <- Hp, to_UInt16_idem, land_1_to_UInt16.
  assert (to_UInt16 (c + 1) = c + 1) as Hsmall
    by (apply to_UInt16_small; lia).
  rewrite Hsmall. rewrite (proj2 (Z.eqb_neq c (c + 1))) by lia.
  rewrite (slot_poke_eq _ _ f v Hn).
  eexists. split; [reflexivity|]. split; [reflexivity|].
  cbn [fState set_fCounter set_fCallWriteCounter store set_fState].
  rewrite slot_poke_ne; [exact Hcur | destruct (land_1_range c); lia
                        | apply land_1_succ_ne].
Qed.

(** X6. The slot a switch promotes is the slot [NextArrayIndex] handed to
    the writer: when an update is published, [TrySwitchState] reports a
    switch, returns that slot, which is not the slot that was current,
    also when the 16-bit counter wraps from 65535 to 0, and nothing is
    pending afterwards. *)
Theorem switch_promotes_pending_slot (x : sys T) :
  disciplined x -> IsPendingChange (st x) = true ->
  exists s',
    TrySwitchState_result [] (st x) =
    (s', NextArrayIndex (fCounter (st x)), true) /\
    ReadCurrentState s' = 1 - ReadCurrentState (st x) /\
    fState s' = fState (st x) /\
    IsPendingChange s' = false.
Proof.
  intros Hx Hp. destruct (disciplined_pending x Hx Hp) as (Hd & Hn & Hne).
  rewrite TrySwitchState_result_alone.
  unfold IsPendingChange, ReadCurrentState, CurArrayIndex, NextArrayIndex,
    SetCurIndex, NextIndex, CurIndex in *. simpl.
  rewrite Hne, Hn, to_UInt16_idem, land_1_to_UInt16.
  eexists. split; [reflexivity|]. simpl.
  rewrite land_1_to_UInt16, Z.eqb_refl.
  split; [apply land_1_succ|]. split; reflexivity.
Qed.

Lemma write_round_off_balance (beyond : T) (f : T -> T) s :
  in_SInt32 (fCallWriteCounter s) -> fCallWriteCounter s <> 0 ->
  exists s',
    write_round beyond f s = Some s' /\
    fCounter s' = fCounter s /\
    fCallWriteCounter s' = fCallWriteCounter s /\
    slot (fState s') (ReadCurrentState s) =
    slot (fState s) (ReadCurrentState s).
Proof.
  intros Hr Hd. unfold in_SInt32 in Hr. unfold write_round.
  rewrite (WriteNextStateStart_run_nested beyond [] s Hd).
  cbn [mbind option_bind].
  rewrite WriteNextStateStop_nested;
    cbn [fCallWriteCounter set_fCallWriteCounter store set_fState];
    rewrite (to_SInt32_succ_pred _ Hr); [|exact Hd].
  eexists. split; [reflexivity|].
  cbn [fState fCounter fCallWriteCounter set_fCallWriteCounter store
       set_fState].
  split; [reflexivity|]. split; [reflexivity|].
  apply slot_poke_ne.
  - unfold ReadCurrentState, CurArrayIndex.
    destruct (land_1_range (CurIndex (fCounter s))); lia.
  - apply land_1_succ_ne.
Qed.


(** X8. On the machine, whatever the counter and whatever the copies read
    beyond [fState], the payload the reader sees changes only at a switch:
    [WriteNextStateStart] returns (as long as fewer than 2^31 - 1 regions
    are open), and a call of the writer ([WriteNextStateStart], a store
    through the pointer it holds, [WriteNextStateStop]) or a
    [TrySwitchState] with nothing pending leaves the current slot and its
    payload as they are; so does any sequence of calls of the writer. *)
Theorem reader_payload_changes_at_switch_only (x : sys T) :
  in_protocol x ->
  (forall beyond,
     fCallWriteCounter (st x) < 2147483647 ->
     exists x', step (Begin beyond) x = Some x') /\
  (forall o x',
     step o x = Some x' ->
     (is_Switch o = true /\ IsPendingChange (st x) = true) \/
     (ReadCurrentState (st x') = ReadCurrentState (st x) /\
      read (st x') = read (st x))) /\
  (forall (tr : list (op T)) (x' : sys T),
     forallb (fun o => negb (is_Switch o)) tr = true ->
     run tr x = Some x' ->
     ReadCurrentState (st x') = ReadCurrentState (st x) /\
     read (st x') = read (st x)).
Proof.
  assert (forall (y : sys T) o y',
            in_protocol y -> step o y = Some y' ->
            (is_Switch o = true /\ IsPendingChange (st y) = true) \/
            (ReadCurrentState (st y') = ReadCurrentState (st y) /\
             read (st y') = read (st y))) as Hstep.
  { intros y o y' [Hy Hmax] Hs. destruct o as [b | f | |]; unfold step in Hs.
    - right.
      destruct (fCallWriteCounter (st y) <? 2147483647); [|discriminate].
      destruct (WriteNextStateStart_run b [] (st y)) as [[s1 p]|] eqn:Hb;
        cbn [mbind option_bind] in Hs; [|discriminate].
      injection Hs as <-. cbn [st].
      destruct (Z.eq_dec (fCallWriteCounter (st y)) 0) as [E|E].
      + destruct (WriteNextStateStart_run_outer_inv _ _ _ _ Hy E Hb)
          as (_ & _ & _ & Hc & _ & _ & Hslot).
        assert (ReadCurrentState s1 = ReadCurrentState (st y)) as Hr
          by (unfold ReadCurrentState, CurArrayIndex; rewrite Hc; reflexivity).
        split; [exact Hr|]. unfold read, deref. rewrite Hr. exact Hslot.
      + rewrite (WriteNextStateStart_run_nested _ _ _ E) in Hb.
        injection Hb as <- <-. split; reflexivity.
    - right. destruct (ptr y) as [p|] eqn:Hp;
        cbn [mbind option_bind] in Hs; [|discriminate].
      injection Hs as <-. cbn [st]. split; [reflexivity|].
      unfold read, deref, store. simpl. apply slot_poke_ne.
      + unfold ReadCurrentState, CurArrayIndex.
        destruct (land_1_range (CurIndex (fCounter (st y)))); lia.
      + apply (disciplined_ptr y p Hy Hp).
    - right. destruct (0 <? fCallWriteCounter (st y)) eqn:Hpos;
        [|discriminate].
      apply Z.ltb_lt in Hpos.
      injection Hs as <-. cbn [st].
      destruct (Z.eq_dec (fCallWriteCounter (st y)) 1) as [E|E].
      + rewrite (WriteNextStateStop_outer _ E). split; reflexivity.
      + rewrite (WriteNextStateStop_nested [] (st y))
          by (rewrite to_SInt32_small; lia).
        split; reflexivity.
    - destruct (IsPendingChange (st y)) eqn:Hp; [left; split; reflexivity|].
      right. destruct Hy as (_ & _ & Hn & _).
      unfold IsPendingChange in Hp. apply negb_false_iff, Z.eqb_eq in Hp.
      unfold TrySwitchState in Hs.
      rewrite (TrySwitchState_result_idle _ Hn Hp) in Hs.
      injection Hs as <-. split; reflexivity. }
  intros Hx. split; [apply (step_returns x Hx)|].
  split; [intros o x'; apply Hstep, Hx|].
  intros tr. revert x Hx. induction tr as [|o tr IH]; intros x Hx x' Hall.
  - intros [= <-]. split; reflexivity.
  - cbn [forallb] in Hall. apply andb_true_iff in Hall as [Ho Hall].
    cbn [run]. destruct (step o x) as [y|] eqn:Hs;
      cbn [mbind option_bind]; [|discriminate].
    intros Hrun.
    destruct (Hstep x o y Hx Hs) as [[Hsw _] | [Hr Hread]].
    + rewrite Hsw in Ho. discriminate.
    + destruct (IH y (step_in_protocol _ _ _ Hx Hs) x' Hall Hrun)
        as [Hr' Hread'].
      split; congruence.
Qed.

End SingleReader.

Section SingleReaderWitness.
Import SingleExchanger SingleProtocol SingleUse.

Lemma update_applies_to_current_witness :
  read (JackAtomicState_init 5 9) = Some 5 /\
  exists s',
    update_and_switch (Z.add 1) (JackAtomicState_init 5 9) =
    Some (s', true, Some 6) /\
    deref s' 0 = Some 5.
Proof.
  split; [reflexivity|].
  destruct (update_applies_to_current (init_sys 5 9) 5 (Z.add 1)
              (init_disciplined 5 9) eq_refl eq_refl ltac:(simpl; lia) eq_refl)
    as (s' & Hu & _ & Hold).
  exists s'. split; [exact Hu | exact Hold].
Defined.

Lemma switch_promotes_pending_slot_witness :
  IsPendingChange published_at_wrap = true /\
  exists s',
    TrySwitchState_result [] published_at_wrap = (s', 0, true) /\
    ReadCurrentState s' = 0 /\ ReadCurrentState published_at_wrap = 1.
Proof.
  split; [reflexivity|].
  destruct (switch_promotes_pending_slot
              {| st := published_at_wrap; ptr := None |}
              published_at_wrap_disciplined eq_refl)
    as (s' & Hs & Hr & _).
  exists s'. split; [exact Hs|]. split; [exact Hr | reflexivity].
Defined.


Lemma reader_payload_changes_at_switch_only_witness :
  in_protocol {| st := idle_at_two; ptr := None |} /\
  exists x',
    run [Begin 77; Put (fun _ => 1); End; Begin 77; Put (fun _ => 3)]
      {| st := idle_at_two; ptr := None |} = Some x' /\
    read (st x') = Some 2.
Proof.
  split; [apply idle_at_two_in_protocol|].
  destruct (run [Begin 77; Put (fun _ => 1); End; Begin 77; Put (fun _ => 3)]
              {| st := idle_at_two; ptr := None |}) as [x'|] eqn:Hrun;
    [|vm_compute in Hrun; discriminate].
  exists x'. split; [reflexivity|].
  exact (proj2 (proj2 (proj2 (reader_payload_changes_at_switch_only
                                {| st := idle_at_two; ptr := None |}
                                idle_at_two_in_protocol))
                  [Begin 77; Put (fun _ => 1); End; Begin 77;
                   Put (fun _ => 3)]
                  x' eq_refl Hrun)).
Defined.

End SingleReaderWitness.

(** ** JackAtomicArrayState: the calls stay inside the three slots *)

Section ArrayInside.
Import ArrayExchanger ArrayProtocol ArrayUse.
Context {T : Type}.
Implicit Types (s : JackAtomicArrayState T) (x : sys T).

Lemma slot_three (a : list T) (i : Z) :
  length a = 3%nat -> 0 <= i <= 2 -> exists v, slot a i = Some v.
Proof. intros Hl Hi. apply slot_in_range; [lia | rewrite Hl; lia]. Qed.

Lemma toggle_range (c p : Z) :
  pending_id p -> 0 <= (if c =? p then 0 else p) <= 2.
Proof. intros [-> | ->]; destruct (c =? _); lia. Qed.

Lemma array_WriteNextStateStart_total s p :
  three_slots s -> pending_id p ->
  exists s' r,
    WriteNextStateStart_result [] s p =
    Some (s', (if ReadCurrentState s =? p then 0 else p), r) /\
    three_slots s'.
Proof.
  intros [Hl H0] Hp.
  unfold WriteNextStateStart_result, WriteNextStateStartAux.
  rewrite (pending_id_in_fByteVal _ Hp), cas_loop_alone.
  unfold WriteNextStateStartAux_body.
  rewrite (SwapIndex1_pending_id _ _ Hp).
  destruct (GetIndex1_SetIndex1_pending (fCounter s) p 0 Hp)
    as (_ & Hb0 & _).
  destruct (GetIndex1 (fCounter s) p =? 0); cbn [negb fState set_fCounter].
  - destruct (slot_three (fState s) (GetIndex1 (fCounter s) 0) Hl H0)
      as [v Hv].
    destruct (slot_three (fState s)
                (if GetIndex1 (fCounter s) 0 =? p then 0 else p) Hl
                (toggle_range _ p Hp)) as [w Hw].
    rewrite (memcpy_Some _ _ _ _ _ Hv Hw). cbn [mbind option_bind].
    eexists. eexists. split; [reflexivity|].
    split; cbn [fState fCounter set_fState set_fCounter].
    + rewrite length_insert. exact Hl.
    + rewrite Hb0. exact H0.
  - eexists. eexists. split; [reflexivity|].
    split; cbn [fState fCounter set_fCounter]; [exact Hl|].
    rewrite Hb0. exact H0.
Qed.

Lemma array_TrySwitchState_three_slots s p :
  three_slots s -> pending_id p ->
  exists s' r,
    TrySwitchState_result [] s p = Some (s', ReadCurrentState s', r) /\
    three_slots s'.
Proof.
  intros [Hl H0] Hp.
  destruct (array_TrySwitchState_result_total [] s p Hp)
    as (old & [<- | []] & Hsw).
  rewrite Hsw.
  exists (set_fCounter s (fst (TrySwitchState_body p (fCounter s)))),
    (snd (TrySwitchState_body p (fCounter s))).
  split; [reflexivity|].
  split; cbn [fState fCounter set_fCounter]; [exact Hl|].
  destruct (Z.eq_dec (GetIndex1 (fCounter s) p) 0) as [E | E].
  - rewrite (array_TrySwitchState_body_unwritten _ _ E). exact H0.
  - destruct (array_TrySwitchState_body_written _ _ Hp E) as (_ & -> & _).
    apply toggle_range, Hp.
Qed.

Lemma step_three_slots o x x' :
  pending_id (op_id o) -> three_slots (st x) -> step o x = Some x' ->
  three_slots (st x').
Proof.
  intros Hp Hx. destruct o as [p | p f | p | p]; cbn [op_id] in Hp;
    unfold step.
  - destruct (array_WriteNextStateStart_total _ p Hx Hp)
      as (s' & r & Hr & Hs').
    unfold WriteNextStateStart. unfold WriteNextStateStart_result in Hr.
    rewrite Hr. cbn [mbind option_bind]. intros [= <-]. exact Hs'.
  - destruct (ptr x p); cbn [mbind option_bind]; [|discriminate].
    intros [= <-]. destruct Hx as [Hl H0]. split; cbn [st]; [|exact H0].
    unfold store. cbn [fState set_fState]. rewrite length_poke. exact Hl.
  - destruct (ptr x p); cbn [mbind option_bind]; [|discriminate].
    rewrite (array_WriteNextStateStop_alone _ _ Hp).
    cbn [mbind option_bind]. intros [= <-].
    destruct Hx as [Hl H0]. split; cbn [st fState fCounter set_fCounter];
      [exact Hl|].
    rewrite (proj1 (proj2 (GetIndex1_SetIndex1_pending _ p 1 Hp))). exact H0.
  - destruct (array_TrySwitchState_three_slots _ p Hx Hp)
      as (s' & r & Hr & Hs').
    unfold TrySwitchState. rewrite Hr. cbn [mbind option_bind].
    intros [= <-]. exact Hs'.
Qed.

(** X9. In JackAtomicArrayState no call leaves the three slots: from the
    constructor, and from any state whose current slot id is 0, 1 or 2,
    [WriteNextStateStart(p)], [WriteNextStateStop(p)] and
    [TrySwitchState(p)] on a pending id (1 or 2) always return, the slot
    they hand out or return is one of the three, the current slot id stays
    0, 1 or 2, and so the reader always reads a payload. *)
Theorem array_calls_stay_inside_fState :
  (forall a b c : T, three_slots (JackAtomicArrayState_init a b c)) /\
  (forall s p,
     three_slots s -> pending_id p ->
     (exists s' i r,
        WriteNextStateStart_result [] s p = Some (s', i, r) /\
        three_slots s' /\ is_Some (deref s' i)) /\
     (exists s', WriteNextStateStop [] s p = Some s' /\ three_slots s') /\
     (exists s' i r,
        TrySwitchState_result [] s p = Some (s', i, r) /\
        three_slots s' /\ is_Some (deref s' i))) /\
  (forall (a b c : T) tr x,
     Forall (fun o => pending_id (op_id o)) tr ->
     run tr (init_sys a b c) = Some x ->
     three_slots (st x) /\ is_Some (read (st x))).
Proof.
  assert (forall s, three_slots s -> is_Some (read s)) as Hread.
  { intros s [Hl H0]. destruct (slot_three (fState s) _ Hl H0) as [v Hv].
    exists v. exact Hv. }
  split; [|split].
  - intros a b c. split; [reflexivity | simpl; lia].
  - intros s p Hs Hp. split; [|split].
    + destruct (array_WriteNextStateStart_total s p Hs Hp)
        as (s' & r & Hr & Hs').
      eexists. eexists. eexists. split; [exact Hr|]. split; [exact Hs'|].
      destruct Hs' as [Hl' _].
      destruct (slot_three (fState s') _ Hl'
                  (toggle_range (ReadCurrentState s) p Hp)) as [v Hv].
      exists v. exact Hv.
    + rewrite (array_WriteNextStateStop_alone _ _ Hp).
      eexists. split; [reflexivity|]. destruct Hs as [Hl H0].
      split; cbn [fState fCounter set_fCounter]; [exact Hl|].
      rewrite (proj1 (proj2 (GetIndex1_SetIndex1_pending _ p 1 Hp))).
      exact H0.
    + destruct (array_TrySwitchState_three_slots s p Hs Hp)
        as (s' & r & Hr & Hs').
      eexists. eexists. eexists. split; [exact Hr|]. split; [exact Hs'|].
      apply Hread, Hs'.
  - intros a b c tr x Htr.
    assert (three_slots (st (init_sys a b c))) as Hi
      by (split; [reflexivity | simpl; lia]).
    revert Hi. generalize (init_sys a b c).
    induction Htr as [|o tr Ho Htr IH]; intros y Hy; cbn [run].
    + intros [= <-]. split; [exact Hy | apply Hread, Hy].
    + destruct (step o y) as [z|] eqn:Hs; cbn [mbind option_bind];
        [|discriminate].
      apply IH. eapply step_three_slots; eauto.
Qed.

End ArrayInside.

Section ArrayInsideWitness.
Import ArrayExchanger ArrayProtocol ArrayUse.

Lemma republished_three_slots : three_slots republished.
Proof. split; [reflexivity | simpl; lia]. Qed.

Lemma array_calls_stay_inside_fState_witness :
  three_slots republished /\ pending_id 2 /\
  exists s' i r,
    WriteNextStateStart_result [] republished 2 = Some (s', i, r) /\
    is_Some (deref s' i).
Proof.
  assert (pending_id 2) as Hp by (right; reflexivity).
  split; [exact republished_three_slots|]. split; [exact Hp|].
  destruct (@array_calls_stay_inside_fState Z) as (_ & Hcalls & _).
  destruct (Hcalls republished 2 republished_three_slots Hp)
    as ((s' & i & r & Hr & _ & Hv) & _).
  exists s', i, r. split; [exact Hr | exact Hv].
Defined.

End ArrayInsideWitness.

(** ** JackAtomicArrayState: publications on one pending id *)

Section ArrayUpdates.
Import ArrayExchanger ArrayProtocol ArrayUse.
Context {T : Type}.
Implicit Types (s : JackAtomicArrayState T) (x : sys T).

Lemma toggle_not_current s p :
  pending_id p ->
  (if ReadCurrentState s =? p then 0 else p) <> ReadCurrentState s.
Proof.
  intros Hp. unfold ReadCurrentState.
  rewrite <- (SwapIndex1_pending_id _ _ Hp).
  apply SwapIndex1_not_current, Hp.
Qed.

Lemma array_update_and_switch_spec s p (f : T -> T) (v : T) :
  three_slots s -> pending_id p ->
  deref s (if GetIndex1 (fCounter s) p =? 0 then ReadCurrentState s
           else if ReadCurrentState s =? p then 0 else p) = Some v ->
  exists s',
    update_and_switch p f s = Some (s', true, Some (f v)) /\
    three_slots s' /\
    ReadCurrentState s' = (if ReadCurrentState s =? p then 0 else p) /\
    GetIndex1 (fCounter s') 3 = to_uchar (GetIndex1 (fCounter s) 3 + 1) /\
    deref s' (ReadCurrentState s) = deref s (ReadCurrentState s).
Proof.
  intros Hs Hp Hv.
  destruct (array_WriteNextStateStart_total s p Hs Hp) as (s1 & r & Hr & Hs1).
  destruct (array_WriteNextStateStart_alone _ _ _ _ _ Hp Hr)
    as (_ & Hcur & _ & H3 & _ & _ & Hcopy).
  pose proof (toggle_not_current s p Hp) as Hne.
  pose proof (toggle_range (ReadCurrentState s) p Hp) as Hrange.
  destruct Hs as [Hl H0]. fold (ReadCurrentState s) in H0.
  set (i := if ReadCurrentState s =? p then 0 else p) in *.
  unfold deref in *.
  assert (slot (fState s1) i = Some v /\
          slot (fState s1) (ReadCurrentState s) =
          slot (fState s) (ReadCurrentState s)) as [Hi Hold].
  { destruct (GetIndex1 (fCounter s) p =? 0).
    - apply memcpy_inv in Hcopy as (v0 & Hsrc & Ha & Hdst & _).
      split; [congruence|]. rewrite Ha. apply slot_insert_ne; lia.
    - rewrite Hcopy. split; [exact Hv | reflexivity]. }
  unfold update_and_switch, WriteNextStateStart.
  unfold WriteNextStateStart_result in Hr. rewrite Hr.
  cbn [mbind option_bind].
  rewrite (array_WriteNextStateStop_alone _ _ Hp). cbn [mbind option_bind].
  match goal with |- context [TrySwitchState_result [] ?t p] =>
    set (s3 := t) end.
  destruct (GetIndex1_SetIndex1_pending (fCounter s1) p 1 Hp)
    as (Hpp & Hb0 & Hb3 & _).
  assert (GetIndex1 (fCounter s3) p <> 0) as Hpub.
  { subst s3. cbn [fCounter set_fCounter store set_fState].
    rewrite Hpp. discriminate. }
  assert (ReadCurrentState s3 = ReadCurrentState s) as Hcur3.
  { subst s3. unfold ReadCurrentState in *.
    cbn [fCounter set_fCounter store set_fState]. rewrite Hb0. exact Hcur. }
  assert (GetIndex1 (fCounter s3) 3 = GetIndex1 (fCounter s) 3) as H33.
  { subst s3. cbn [fCounter set_fCounter store set_fState].
    rewrite Hb3. exact H3. }
  destruct (array_TrySwitchState_written s3 p Hp Hpub)
    as (s7 & Hsw & _ & Hc7 & _ & H37 & Hf7).
  rewrite Hsw. cbn [mbind option_bind].
  rewrite Hcur3 in Hc7. fold i in Hc7.
  exists s7. unfold read, deref. rewrite Hc7, Hf7, H37, H33.
  subst s3. cbn [fState fCounter set_fCounter store set_fState].
  rewrite (slot_poke_eq _ i f v Hi).
  split; [reflexivity|]. split.
  { split; [rewrite Hf7; cbn [fState set_fCounter store set_fState];
            rewrite length_poke; apply Hs1|].
    fold (ReadCurrentState s7). rewrite Hc7. exact Hrange. }
  split; [reflexivity|]. split; [reflexivity|].
  rewrite slot_poke_ne; [exact Hold | lia | exact Hne].
Qed.

(** X10. What a publication on a pending id [p] starts from: a copy of
    the current payload when the flag [byte[p]] is down; when the flag is
    up, what the slot handed out (slot 0 if the current slot id is [p],
    slot [p] otherwise) holds at that moment, with no copy, be it the
    update the flag stands for or not.  After [WriteNextStateStart(p)],
    stores changing the payload by [f], [WriteNextStateStop(p)] and
    [TrySwitchState(p)], the switch succeeds and the reader reads [f] of
    that payload; the slot toggles, the switch counter goes up by one on
    8 bits and the slot that was current still holds its payload. *)
Theorem array_update_applies s p (f : T -> T) (v : T) :
  three_slots s -> pending_id p ->
  deref s (if GetIndex1 (fCounter s) p =? 0 then ReadCurrentState s
           else if ReadCurrentState s =? p then 0 else p) = Some v ->
  exists s',
    update_and_switch p f s = Some (s', true, Some (f v)) /\
    ReadCurrentState s' = (if ReadCurrentState s =? p then 0 else p) /\
    ReadCurrentState s' <> ReadCurrentState s /\
    GetIndex1 (fCounter s') 3 = to_uchar (GetIndex1 (fCounter s) 3 + 1) /\
    deref s' (ReadCurrentState s) = deref s (ReadCurrentState s).
Proof.
  intros Hs Hp Hv.
  destruct (array_update_and_switch_spec s p f v Hs Hp Hv)
    as (s' & Hu & _ & Hc & H3 & Hold).
  exists s'. split; [exact Hu|]. split; [exact Hc|].
  split; [rewrite Hc; apply toggle_not_current, Hp|].
  split; assumption.
Qed.

Lemma array_update_and_switch_total s p (f : T -> T) :
  three_slots s -> pending_id p ->
  exists s' v,
    update_and_switch p f s = Some (s', true, v) /\
    three_slots s' /\
    ReadCurrentState s' = (if ReadCurrentState s =? p then 0 else p) /\
    GetIndex1 (fCounter s') 3 = to_uchar (GetIndex1 (fCounter s) 3 + 1).
Proof.
  intros Hs Hp.
  assert (exists v,
            deref s (if GetIndex1 (fCounter s) p =? 0 then ReadCurrentState s
                     else if ReadCurrentState s =? p then 0 else p) = Some v)
    as [v Hv].
  { destruct Hs as [Hl H0]. apply slot_three; [exact Hl|].
    destruct (GetIndex1 (fCounter s) p =? 0);
      [exact H0 | apply toggle_range, Hp]. }
  destruct (array_update_and_switch_spec s p f v Hs Hp Hv)
    as (s' & Hu & Hs' & Hc & H3 & _).
  exists s', (Some (f v)). repeat split; try assumption; apply Hs'.
Qed.

(** X11. The switch counter counts the switches on 8 bits only: after [n]
    publications and switches on one pending id, all of which succeed,
    [fByteVal[3]] is the starting value plus [n] modulo 256, so after 256
    of them [GetCurrentIndex] returns the value it returned before; and
    with the current slot id at 0 or [p], the current slot alternates
    between slot [p] and slot 0. *)
Theorem array_ticket_counts_switches s p (fs : list (T -> T)) :
  three_slots s -> pending_id p ->
  exists s',
    updates_and_switches p fs s = Some s' /\
    GetIndex1 (fCounter s') 3 mod 256 =
    (GetIndex1 (fCounter s) 3 + Z.of_nat (length fs)) mod 256 /\
    (length fs = 256%nat -> 0 <= GetIndex1 (fCounter s) 3 < 256 ->
     GetCurrentIndex s' = GetCurrentIndex s) /\
    (ReadCurrentState s = 0 \/ ReadCurrentState s = p ->
     ReadCurrentState s' =
     if Nat.even (length fs) then ReadCurrentState s
     else p - ReadCurrentState s).
Proof.
  intros Hs Hp.
  assert (exists s',
            updates_and_switches p fs s = Some s' /\
            (fs <> [] -> 0 <= GetIndex1 (fCounter s') 3 < 256) /\
            GetIndex1 (fCounter s') 3 mod 256 =
            (GetIndex1 (fCounter s) 3 + Z.of_nat (length fs)) mod 256 /\
            (ReadCurrentState s = 0 \/ ReadCurrentState s = p ->
             ReadCurrentState s' =
             if Nat.even (length fs) then ReadCurrentState s
             else p - ReadCurrentState s)) as (s' & Hrun & Hrng & Hcnt & Halt).
  { revert s Hs. induction fs as [|f fs IH]; intros s Hs.
    - exists s. split; [reflexivity|]. split; [congruence|].
      split; [f_equal; simpl; lia | intros _; reflexivity].
    - destruct (array_update_and_switch_total s p f Hs Hp)
        as (s1 & v & Hu & Hs1 & Hc1 & H31).
      destruct (IH s1 Hs1) as (s' & Hrun & Hrng & Hcnt & Halt).
      exists s'. cbn [updates_and_switches]. rewrite Hu.
      cbn [mbind option_bind]. split; [exact Hrun|].
      assert (0 <= GetIndex1 (fCounter s1) 3 < 256) as Hr1
        by (rewrite H31; apply Z.mod_pos_bound; lia).
      split; [|split].
      + intros _. destruct fs as [|g fs'].
        * injection Hrun as <-. exact Hr1.
        * apply Hrng. discriminate.
      + rewrite Hcnt, H31. unfold to_uchar.
        rewrite Zplus_mod_idemp_l. f_equal. cbn [length]. lia.
      + intros Hin. cbn [length]. rewrite Nat.even_succ, <- Nat.negb_even.
        rewrite Halt; rewrite Hc1.
        * destruct (Nat.even (length fs)); cbn [negb];
            destruct Hin as [E | E]; rewrite E;
            destruct Hp as [-> | ->]; reflexivity.
        * destruct Hin as [E | E]; rewrite E;
            destruct Hp as [-> | ->]; [right | right | left | left];
            reflexivity. }
  exists s'. split; [exact Hrun|]. split; [exact Hcnt|].
  split; [|exact Halt].
  intros Hlen Hr0. unfold GetCurrentIndex. f_equal.
  rewrite Hlen in Hcnt. change (Z.of_nat 256) with (1 * 256) in Hcnt.
  rewrite Z.mod_add in Hcnt by lia.
  rewrite (Z.mod_small _ 256 Hr0) in Hcnt.
  rewrite Z.mod_small in Hcnt; [exact Hcnt|].
  apply Hrng. intros ->. discriminate Hlen.
Qed.

End ArrayUpdates.

Section ArrayReader.
Import ArrayExchanger ArrayProtocol ArrayUse.
Context {T : Type}.
Implicit Types (s : JackAtomicArrayState T) (x : sys T).

Lemma array_step_writer o x x' :
  three_slots (st x) -> current_not_written x ->
  pending_id (op_id o) -> is_Switch o = false ->
  step o x = Some x' ->
  ReadCurrentState (st x') = ReadCurrentState (st x) /\
  GetCurrentIndex (st x') = GetCurrentIndex (st x) /\
  read (st x') = read (st x) /\
  three_slots (st x') /\ current_not_written x'.
Proof.
  intros Hs Hx Hp Hsw Hstep.
  pose proof (step_three_slots o x x' Hp Hs Hstep) as Hs'.
  destruct Hs as [Hl H0]. fold (ReadCurrentState (st x)) in H0.
  destruct o as [p | p f | p | p]; cbn [op_id] in Hp; [| | |discriminate];
    unfold step in Hstep.
  - destruct (WriteNextStateStart [] (st x) p) as [[s1 i]|] eqn:Hb;
      cbn [mbind option_bind] in Hstep; [|discriminate].
    injection Hstep as <-. cbn [st ptr] in *.
    pose proof (array_WriteNextStateStart_not_current _ _ _ _ _ Hp Hb) as Hni.
    destruct (array_WriteNextStateStart_inv _ _ _ _ _ Hp Hb) as [r Hr].
    destruct (array_WriteNextStateStart_alone _ _ _ _ _ Hp Hr)
      as (Hi & Hcur & _ & H3 & _ & _ & Hcopy).
    split; [exact Hcur|]. split; [unfold GetCurrentIndex; congruence|].
    split; [|split; [exact Hs'|]].
    + unfold read, deref. rewrite Hcur.
      destruct (GetIndex1 (fCounter (st x)) p =? 0).
      * apply memcpy_inv in Hcopy as (v0 & _ & -> & _ & _).
        apply slot_insert_ne; [|lia|congruence].
        rewrite Hi. apply toggle_range, Hp.
      * rewrite Hcopy. reflexivity.
    + intros q j. unfold set_ptr. cbn [st ptr].
      destruct (q =? p); intros Hq; [injection Hq as <-; exact Hni|].
      rewrite Hcur. eapply Hx; eauto.
  - destruct (ptr x p) as [i|] eqn:Hi;
      cbn [mbind option_bind] in Hstep; [|discriminate].
    injection Hstep as <-. cbn [st ptr] in *.
    split; [reflexivity|]. split; [reflexivity|].
    split; [|split; [exact Hs' | exact Hx]].
    unfold read, deref, store. cbn [fState fCounter set_fState].
    apply slot_poke_ne; [lia | eapply Hx; eauto].
  - destruct (ptr x p) as [i|] eqn:Hi;
      cbn [mbind option_bind] in Hstep; [|discriminate].
    rewrite (array_WriteNextStateStop_alone _ _ Hp) in Hstep.
    cbn [mbind option_bind] in Hstep. injection Hstep as <-.
    cbn [st ptr] in *.
    destruct (GetIndex1_SetIndex1_pending (fCounter (st x)) p 1 Hp)
      as (_ & Hb0 & Hb3 & _).
    assert (ReadCurrentState
              (set_fCounter (st x) (SetIndex1 (fCounter (st x)) p 1)) =
            ReadCurrentState (st x)) as Hcur by exact Hb0.
    split; [exact Hcur|].
    split; [unfold GetCurrentIndex; cbn [fCounter set_fCounter];
            rewrite Hb3; reflexivity|].
    split; [unfold read, deref; rewrite Hcur; reflexivity|].
    split; [exact Hs'|].
    intros q j. unfold set_ptr. cbn [st ptr]. rewrite Hcur.
    destruct (q =? p); intros Hq; [discriminate|]. eapply Hx; eauto.
Qed.

(** X12. Between two switches the reader is left alone: from a state in
    which no writer holds the current slot, a call of a writer
    ([WriteNextStateStart], a store through the pointer it was handed,
    [WriteNextStateStop], on pending ids) changes neither the current slot
    id, nor [GetCurrentIndex], nor the payload the reader sees, and no
    writer holds the current slot afterwards; so does any sequence of such
    calls of any number of writers. *)
Theorem array_reader_left_alone_between_switches (x : sys T) :
  three_slots (st x) -> current_not_written x ->
  (forall o x',
     pending_id (op_id o) -> is_Switch o = false ->
     step o x = Some x' ->
     ReadCurrentState (st x') = ReadCurrentState (st x) /\
     GetCurrentIndex (st x') = GetCurrentIndex (st x) /\
     read (st x') = read (st x) /\
     current_not_written x') /\
  (forall (tr : list (op T)) (x' : sys T),
     Forall (fun o => pending_id (op_id o)) tr ->
     forallb (fun o => negb (is_Switch o)) tr = true ->
     run tr x = Some x' ->
     ReadCurrentState (st x') = ReadCurrentState (st x) /\
     GetCurrentIndex (st x') = GetCurrentIndex (st x) /\
     read (st x') = read (st x) /\
     current_not_written x').
Proof.
  intros Hs Hx. split.
  - intros o x' Hp Hsw Hstep.
    destruct (array_step_writer o x x' Hs Hx Hp Hsw Hstep)
      as (H1 & H2 & H3 & _ & H5).
    repeat split; assumption.
  - intros tr x' Htr. revert x Hs Hx.
    induction Htr as [|o tr Ho Htr IH]; intros x Hs Hx Hall; cbn [run].
    + intros [= <-]. repeat split; try reflexivity. exact Hx.
    + cbn [forallb] in Hall. apply andb_true_iff in Hall as [Hsw Hall].
      apply negb_true_iff in Hsw.
      destruct (step o x) as [y|] eqn:Hstep; cbn [mbind option_bind];
        [|discriminate].
      intros Hrun.
      destruct (array_step_writer o x y Hs Hx Ho Hsw Hstep)
        as (H1 & H2 & H3 & Hsy & Hy).
      destruct (IH y Hsy Hy Hall Hrun) as (H1' & H2' & H3' & H4').
      repeat split; try congruence. exact H4'.
Qed.

End ArrayReader.

Section ArrayUpdatesWitness.
Import ArrayExchanger ArrayProtocol ArrayUse.

Lemma array_update_applies_witness :
  three_slots disturbed /\ pending_id 1 /\
  GetIndex1 (fCounter disturbed) 1 = 1 /\
  deref disturbed 1 = Some 10 /\
  exists s',
    update_and_switch 1 (Z.add 100) disturbed = Some (s', true, Some 110) /\
    ReadCurrentState s' = 1.
Proof.
  assert (pending_id 1) as Hp by (left; reflexivity).
  assert (three_slots disturbed) as Hs
    by (split; [reflexivity | simpl; lia]).
  split; [exact Hs|]. split; [exact Hp|].
  split; [reflexivity|]. split; [reflexivity|].
  destruct (array_update_applies disturbed 1 (Z.add 100) 10 Hs Hp eq_refl)
    as (s' & Hu & Hc & _).
  exists s'. split; [exact Hu | exact Hc].
Defined.

Lemma array_ticket_counts_switches_witness :
  three_slots ticket_at_wrap /\ pending_id 2 /\
  exists s',
    updates_and_switches 2 [Z.add 1; Z.add 1; Z.add 1] ticket_at_wrap
    = Some s' /\
    GetIndex1 (fCounter s') 3 mod 256 = 2 /\
    ReadCurrentState s' = 2.
Proof.
  assert (pending_id 2) as Hp by (right; reflexivity).
  assert (three_slots ticket_at_wrap) as Hs
    by (split; [reflexivity | simpl; lia]).
  split; [exact Hs|]. split; [exact Hp|].
  destruct (array_ticket_counts_switches ticket_at_wrap 2
              [Z.add 1; Z.add 1; Z.add 1] Hs Hp)
    as (s' & Hrun & Hcnt & _ & Halt).
  exists s'. split; [exact Hrun|]. split; [exact Hcnt|].
  exact (Halt (or_introl eq_refl)).
Defined.

Lemma array_reader_left_alone_between_switches_witness :
  three_slots (st (init_sys 5 0 0)) /\
  current_not_written (init_sys 5 0 0) /\
  exists x',
    run (writer_A ++ writer_B ++ [Begin 1; Put 1 (fun _ => 7)])
      (init_sys 5 0 0) = Some x' /\
    read (st x') = Some 5.
Proof.
  assert (three_slots (st (init_sys 5 0 0))) as Hs
    by (split; [reflexivity | simpl; lia]).
  assert (current_not_written (init_sys 5 0 0)) as Hx
    by (intros p i Hh; discriminate Hh).
  split; [exact Hs|]. split; [exact Hx|].
  destruct (run (writer_A ++ writer_B ++ [Begin 1; Put 1 (fun _ => 7)])
              (init_sys 5 0 0)) as [x'|] eqn:Hrun;
    [|vm_compute in Hrun; discriminate].
  exists x'. split; [reflexivity|].
  refine (proj1 (proj2 (proj2
            (proj2 (array_reader_left_alone_between_switches
                      (init_sys 5 0 0) Hs Hx)
               (writer_A ++ writer_B ++ [Begin 1; Put 1 (fun _ => 7)])
               x' _ eq_refl Hrun)))).
  repeat constructor; (left; reflexivity) || (right; reflexivity).
Defined.

End ArrayUpdatesWitness.

(** ** JackAudioDriver: registering and releasing the ports *)

Section DriverPorts.
Import AudioDriver.
Variables (NO_PORT : Z)
  (JackPortIsInput JackPortIsOutput JackPortIsPhysical JackPortIsTerminal : Z)
  (buf_size : nat) (answer : nat -> Z).

Local Abbreviation capture_body :=
  (AudioDriver.capture_body NO_PORT JackPortIsOutput JackPortIsPhysical
     JackPortIsTerminal buf_size answer).
Local Abbreviation playback_body :=
  (AudioDriver.playback_body NO_PORT JackPortIsInput JackPortIsOutput
     JackPortIsPhysical JackPortIsTerminal buf_size answer).
Local Abbreviation Attach :=
  (AudioDriver.Attach NO_PORT JackPortIsInput JackPortIsOutput
     JackPortIsPhysical JackPortIsTerminal buf_size answer).

Lemma count_app p l1 l2 : count p (l1 ++ l2) = (count p l1 + count p l2)%nat.
Proof.
  unfold count. rewrite List.filter_app, length_app. reflexivity.
Qed.

Lemma for_loop_invariant (P : run -> Prop) body :
  (forall i r r' o, P r -> body i r = (r', o) -> P r') ->
  forall n i r r' o, P r -> for_loop n i body r = (r', o) -> P r'.
Proof.
  intros Hbody n. induction n as [|n IH]; intros i r r' o HP; cbn [for_loop].
  - intros [= <- _]. exact HP.
  - destruct (body i r) as [r1 [|code]] eqn:Hb.
    + apply IH. exact (Hbody _ _ _ _ HP Hb).
    + intros [= <- _]. exact (Hbody _ _ _ _ HP Hb).
Qed.

Ltac attaching_step :=
  match goal with
  | H : attaching _ _ |- attaching _ _ =>
      destruct H as (Hc & Hr & H1 & H2 & H3 & H4);
      unfold attaching, count in *; cbn;
      rewrite ?List.filter_app, ?length_app, ?Hc, ?Hr; cbn;
      repeat split; try assumption; try lia
  end.

Lemma capture_body_attaching d i r r' o :
  attaching d r -> capture_body i r = (r', o) -> attaching d r'.
Proof.
  intros H. unfold AudioDriver.capture_body, allocate, emit, set_drv.
  cbn. destruct (answer (allocs r) =? NO_PORT);
    intros [= <- _]; attaching_step.
Qed.

Lemma playback_body_attaching d i r r' o :
  attaching d r -> playback_body i r = (r', o) -> attaching d r'.
Proof.
  intros H. unfold AudioDriver.playback_body, allocate, emit, set_drv.
  cbn. destruct (answer (allocs r) =? NO_PORT);
    [intros [= <- _]; attaching_step|].
  destruct (fWithMonitorPorts (drv r));
    [|intros [= <- _]; attaching_step].
  cbn. destruct (answer (S (allocs r)) =? NO_PORT);
    intros [= <- _]; attaching_step.
Qed.

Lemma capture_body_registers i r :
  answer (allocs r) <> NO_PORT ->
  exists r',
    capture_body i r = (r', Goes_on) /\
    allocs r' = S (allocs r) /\
    fCapturePortList (drv r')
    = set_port (fCapturePortList (drv r)) i (answer (allocs r)).
Proof.
  intros H. apply Z.eqb_neq in H.
  unfold AudioDriver.capture_body, allocate, emit, set_drv. cbn.
  rewrite H. eexists. split; [reflexivity|]. cbn. split; reflexivity.
Qed.

Lemma capture_body_refused i r :
  answer (allocs r) = NO_PORT ->
  exists r',
    capture_body i r = (r', Returned (-1)) /\
    allocs r' = S (allocs r) /\ ends_refused (calls r').
Proof.
  intros H. apply Z.eqb_eq in H.
  unfold AudioDriver.capture_body, allocate, emit, set_drv. cbn.
  rewrite H. eexists. split; [reflexivity|]. cbn. split; [reflexivity|].
  unfold ends_refused. rewrite <- app_assoc. cbn.
  eexists _, _, _, _, _. reflexivity.
Qed.

Lemma capture_loop_registers n : forall i r,
  (forall k, (k < n)%nat -> answer (allocs r + k) <> NO_PORT) ->
  exists r',
    for_loop n i capture_body r = (r', Goes_on) /\
    allocs r' = (allocs r + n)%nat /\
    (forall j, j < i ->
       fCapturePortList (drv r') j = fCapturePortList (drv r) j) /\
    (forall k, (k < n)%nat ->
       fCapturePortList (drv r') (i + Z.of_nat k) = answer (allocs r + k)).
Proof.
  induction n as [|n IH]; intros i r Hans; cbn [for_loop].
  - exists r. split; [reflexivity|]. split; [lia|].
    split; [reflexivity | intros k Hk; lia].
  - destruct (capture_body_registers i r) as (r1 & -> & Ha1 & Hl1).
    { specialize (Hans O). rewrite Nat.add_0_r in Hans. apply Hans. lia. }
    destruct (IH (i + 1) r1) as (r' & Hloop & Ha & Hframe & Hval).
    { intros k Hk. rewrite Ha1.
      replace (S (allocs r) + k)%nat with (allocs r + S k)%nat by lia.
      apply Hans. lia. }
    exists r'. split; [exact Hloop|]. split; [lia|].
    assert (fCapturePortList (drv r') i = answer (allocs r)) as Hi.
    { rewrite Hframe by lia. rewrite Hl1. unfold set_port.
      rewrite Z.eqb_refl. reflexivity. }
    split.
    + intros j Hj. rewrite Hframe by lia. rewrite Hl1. unfold set_port.
      destruct (j =? i) eqn:E; [apply Z.eqb_eq in E; lia | reflexivity].
    + intros [|k] Hk.
      * rewrite Z.add_0_r, Nat.add_0_r. exact Hi.
      * replace (i + Z.of_nat (S k)) with (i + 1 + Z.of_nat k) by lia.
        rewrite Hval by lia. rewrite Ha1. f_equal. lia.
Qed.

Lemma capture_loop_refused n : forall i r k,
  (k < n)%nat ->
  (forall j, (j < k)%nat -> answer (allocs r + j) <> NO_PORT) ->
  answer (allocs r + k) = NO_PORT ->
  exists r',
    for_loop n i capture_body r = (r', Returned (-1)) /\
    allocs r' = S (allocs r + k) /\ ends_refused (calls r').
Proof.
  induction n as [|n IH]; intros i r k Hk Hok Hno; [lia|]. cbn [for_loop].
  destruct k as [|k].
  - rewrite Nat.add_0_r in Hno.
    destruct (capture_body_refused i r Hno) as (r' & -> & Ha & He).
    exists r'. split; [reflexivity|]. split; [lia | exact He].
  - destruct (capture_body_registers i r) as (r1 & -> & Ha1 & _).
    { specialize (Hok O). rewrite Nat.add_0_r in Hok. apply Hok. lia. }
    destruct (IH (i + 1) r1 k) as (r' & Hloop & Ha & He).
    + lia.
    + intros j Hj. rewrite Ha1.
      replace (S (allocs r) + j)%nat with (allocs r + S j)%nat by lia.
      apply Hok. lia.
    + rewrite Ha1.
      replace (S (allocs r) + k)%nat with (allocs r + S k)%nat by lia.
      exact Hno.
    + exists r'. split; [exact Hloop|]. split; [lia | exact He].
Qed.

Lemma playback_body_registers i r :
  answer (allocs r) <> NO_PORT ->
  (fWithMonitorPorts (drv r) = true -> answer (S (allocs r)) <> NO_PORT) ->
  exists r',
    playback_body i r = (r', Goes_on) /\
    allocs r'
    = (allocs r + if fWithMonitorPorts (drv r) then 2 else 1)%nat /\
    fWithMonitorPorts (drv r') = fWithMonitorPorts (drv r) /\
    fCapturePortList (drv r') = fCapturePortList (drv r) /\
    fPlaybackPortList (drv r')
    = set_port (fPlaybackPortList (drv r)) i (answer (allocs r)) /\
    fMonitorPortList (drv r')
    = if fWithMonitorPorts (drv r)
      then set_port (fMonitorPortList (drv r)) i (answer (S (allocs r)))
      else fMonitorPortList (drv r).
Proof.
  intros H Hm. apply Z.eqb_neq in H.
  unfold AudioDriver.playback_body, allocate, emit, set_drv. cbn.
  rewrite H. destruct (fWithMonitorPorts (drv r)) eqn:Hw.
  - specialize (Hm eq_refl). apply Z.eqb_neq in Hm. cbn. rewrite Hm.
    eexists. split; [reflexivity|]. cbn.
    repeat split; try reflexivity; try lia. exact Hw.
  - eexists. split; [reflexivity|]. cbn.
    repeat split; try reflexivity; try lia. exact Hw.
Qed.

Lemma playback_body_refused i r :
  answer (allocs r) = NO_PORT ->
  exists r',
    playback_body i r = (r', Returned (-1)) /\
    allocs r' = S (allocs r) /\ ends_refused (calls r').
Proof.
  intros H. apply Z.eqb_eq in H.
  unfold AudioDriver.playback_body, allocate, emit, set_drv. cbn.
  rewrite H. eexists. split; [reflexivity|]. cbn. split; [reflexivity|].
  unfold ends_refused. rewrite <- app_assoc. cbn.
  eexists _, _, _, _, _. reflexivity.
Qed.

Lemma monitor_refused i r :
  fWithMonitorPorts (drv r) = true ->
  answer (allocs r) <> NO_PORT ->
  answer (S (allocs r)) = NO_PORT ->
  exists r',
    playback_body i r = (r', Returned (-1)) /\
    allocs r' = S (S (allocs r)) /\ ends_refused (calls r').
Proof.
  intros Hw H Hm. apply Z.eqb_neq in H. apply Z.eqb_eq in Hm.
  unfold AudioDriver.playback_body, allocate, emit, set_drv. cbn.
  rewrite H, Hw. cbn. rewrite Hm.
  eexists. split; [reflexivity|]. cbn. split; [reflexivity|].
  unfold ends_refused. rewrite <- (app_assoc _ [_] [_]). cbn.
  eexists _, _, _, _, _. reflexivity.
Qed.

Lemma playback_loop_registers n : forall i r,
  (forall k,
     (k < n * if fWithMonitorPorts (drv r) then 2 else 1)%nat ->
     answer (allocs r + k) <> NO_PORT) ->
  exists r',
    for_loop n i playback_body r = (r', Goes_on) /\
    allocs r'
    = (allocs r + n * if fWithMonitorPorts (drv r) then 2 else 1)%nat /\
    fWithMonitorPorts (drv r') = fWithMonitorPorts (drv r) /\
    fCapturePortList (drv r') = fCapturePortList (drv r) /\
    (forall j, j < i ->
       fPlaybackPortList (drv r') j = fPlaybackPortList (drv r) j /\
       fMonitorPortList (drv r') j = fMonitorPortList (drv r) j) /\
    (forall k, (k < n)%nat ->
       fPlaybackPortList (drv r') (i + Z.of_nat k)
       = answer
           (allocs r + k * if fWithMonitorPorts (drv r) then 2 else 1) /\
       (fWithMonitorPorts (drv r) = true ->
        fMonitorPortList (drv r') (i + Z.of_nat k)
        = answer (allocs r + k * 2 + 1))).
Proof.
  induction n as [|n IH]; intros i r Hans; cbn [for_loop].
  - exists r. split; [reflexivity|]. split; [lia|].
    repeat split; try reflexivity; intros; lia.
  - destruct (playback_body_registers i r)
      as (r1 & -> & Ha1 & Hw1 & Hc1 & Hp1 & Hm1).
    { specialize (Hans O). rewrite Nat.add_0_r in Hans. apply Hans.
      destruct (fWithMonitorPorts (drv r)); lia. }
    { intros Hw. specialize (Hans 1%nat).
      replace (allocs r + 1)%nat with (S (allocs r)) in Hans by lia.
      apply Hans. rewrite Hw. lia. }
    destruct (IH (i + 1) r1) as (r' & Hloop & Ha & Hw & Hc & Hframe & Hval).
    { intros k Hk. rewrite Hw1 in Hk. rewrite Ha1.
      rewrite <- Nat.add_assoc. apply Hans.
      destruct (fWithMonitorPorts (drv r)); lia. }
    rewrite Hw1 in *.
    exists r'. split; [exact Hloop|].
    split; [destruct (fWithMonitorPorts (drv r)); lia|].
    split; [exact Hw|]. split; [congruence|].
    assert (fPlaybackPortList (drv r') i = answer (allocs r) /\
            (fWithMonitorPorts (drv r) = true ->
             fMonitorPortList (drv r') i = answer (S (allocs r)))) as Hi.
    { destruct (Hframe i) as [E1 E2]; [lia|]. rewrite E1, E2, Hp1, Hm1.
      unfold set_port. split.
      - rewrite Z.eqb_refl. reflexivity.
      - intros ->. rewrite Z.eqb_refl. reflexivity. }
    split.
    + intros j Hj. destruct (Hframe j) as [E1 E2]; [lia|].
      rewrite E1, E2, Hp1, Hm1.
      assert ((j =? i) = false) as E by (apply Z.eqb_neq; lia).
      destruct (fWithMonitorPorts (drv r)); unfold set_port; rewrite E;
        split; reflexivity.
    + intros [|k] Hk.
      * rewrite Z.add_0_r, Nat.mul_0_l, Nat.add_0_r. destruct Hi as [E1 E2].
        split; [exact E1|]. intros Hw'. rewrite (E2 Hw'). f_equal. lia.
      * replace (i + Z.of_nat (S k)) with (i + 1 + Z.of_nat k) by lia.
        destruct (Hval k) as [E1 E2]; [lia|]. split.
        -- rewrite E1, Ha1. f_equal.
           destruct (fWithMonitorPorts (drv r)); lia.
        -- intros Hw'. rewrite (E2 Hw'), Ha1, Hw'. f_equal. lia.
Qed.

Lemma playback_loop_refused n : forall i r k,
  (k < n * if fWithMonitorPorts (drv r) then 2 else 1)%nat ->
  (forall j, (j < k)%nat -> answer (allocs r + j) <> NO_PORT) ->
  answer (allocs r + k) = NO_PORT ->
  exists r',
    for_loop n i playback_body r = (r', Returned (-1)) /\
    allocs r' = S (allocs r + k) /\ ends_refused (calls r').
Proof.
  induction n as [|n IH]; intros i r k Hk Hok Hno; [lia|]. cbn [for_loop].
  destruct k as [|k0].
  { rewrite Nat.add_0_r in Hno.
    destruct (playback_body_refused i r Hno) as (r' & -> & Ha & He).
    exists r'. split; [reflexivity|]. split; [lia | exact He]. }
  assert (answer (allocs r) <> NO_PORT) as H0.
  { specialize (Hok O). rewrite Nat.add_0_r in Hok. apply Hok. lia. }
  destruct (fWithMonitorPorts (drv r)) eqn:Hw.
  - destruct k0 as [|k].
    + replace (allocs r + 1)%nat with (S (allocs r)) in Hno by lia.
      destruct (monitor_refused i r Hw H0 Hno) as (r' & -> & Ha & He).
      exists r'. split; [reflexivity|]. split; [lia | exact He].
    + destruct (playback_body_registers i r H0)
        as (r1 & -> & Ha1 & Hw1 & _).
      { intros _. specialize (Hok 1%nat).
        replace (allocs r + 1)%nat with (S (allocs r)) in Hok by lia.
        apply Hok. lia. }
      rewrite Hw in Ha1, Hw1.
      destruct (IH (i + 1) r1 k) as (r' & Hloop & Ha & He).
      * rewrite Hw1. lia.
      * intros j Hj. rewrite Ha1, <- Nat.add_assoc. apply Hok. lia.
      * rewrite Ha1, <- Nat.add_assoc. exact Hno.
      * exists r'. split; [exact Hloop|]. split; [lia | exact He].
  - destruct (playback_body_registers i r H0)
      as (r1 & -> & Ha1 & Hw1 & _); [rewrite Hw; discriminate|].
    rewrite Hw in Ha1, Hw1.
    destruct (IH (i + 1) r1 k0) as (r' & Hloop & Ha & He).
    + rewrite Hw1. lia.
    + intros j Hj. rewrite Ha1, <- Nat.add_assoc. apply Hok. lia.
    + rewrite Ha1, <- Nat.add_assoc. exact Hno.
    + exists r'. split; [exact Hloop|]. split; [lia | exact He].
Qed.

Lemma release_capture_loop n : forall i r a,
  (forall k, (k < n)%nat ->
     fCapturePortList (drv r) (i + Z.of_nat k) = answer (a + k)) ->
  for_loop n i release_capture r
  = ({| drv := drv r; allocs := allocs r;
        calls := calls r
                 ++ map (fun k => ReleasePort (fRefNum (drv r)) (answer k))
                      (seq a n) |}, Goes_on).
Proof.
  induction n as [|n IH]; intros i r a Hl; cbn [for_loop].
  - cbn. rewrite app_nil_r. destruct r; reflexivity.
  - unfold release_capture at 1. unfold emit.
    rewrite (IH (i + 1) _ (S a)); cbn [drv allocs calls].
    + rewrite <- app_assoc. cbn.
      specialize (Hl O). rewrite Z.add_0_r, Nat.add_0_r in Hl.
      rewrite Hl by lia. reflexivity.
    + intros k Hk.
      replace (i + 1 + Z.of_nat k) with (i + Z.of_nat (S k)) by lia.
      rewrite Hl by lia. f_equal. lia.
Qed.

Lemma release_playback_loop n : forall i r a,
  (forall k, (k < n)%nat ->
     fPlaybackPortList (drv r) (i + Z.of_nat k)
     = answer (a + k * if fWithMonitorPorts (drv r) then 2 else 1) /\
     (fWithMonitorPorts (drv r) = true ->
      fMonitorPortList (drv r) (i + Z.of_nat k) = answer (a + k * 2 + 1))) ->
  for_loop n i release_playback r
  = ({| drv := drv r; allocs := allocs r;
        calls := calls r
                 ++ map (fun k => ReleasePort (fRefNum (drv r)) (answer k))
                      (seq a
                         (n * if fWithMonitorPorts (drv r) then 2 else 1)) |},
     Goes_on).
Proof.
  induction n as [|n IH]; intros i r a Hl; cbn [for_loop].
  - cbn. rewrite app_nil_r. destruct r; reflexivity.
  - destruct (Hl O) as [E1 E2]; [lia|].
    rewrite Z.add_0_r, Nat.mul_0_l, Nat.add_0_r in E1.
    rewrite Z.add_0_r in E2. cbn [Nat.mul Nat.add] in E2.
    unfold release_playback at 1. unfold emit. cbn [drv allocs calls].
    destruct (fWithMonitorPorts (drv r)) eqn:Hw.
    + rewrite (IH (i + 1) _ (S (S a))); cbn [drv allocs calls].
      * rewrite Hw, <- !app_assoc. cbn. rewrite E1, (E2 eq_refl).
        replace (a + 0 + 1)%nat with (S a) by lia. reflexivity.
      * rewrite Hw. intros k Hk.
        replace (i + 1 + Z.of_nat k) with (i + Z.of_nat (S k)) by lia.
        destruct (Hl (S k)) as [F1 F2]; [lia|]. split.
        -- rewrite F1. f_equal. lia.
        -- intros _. rewrite (F2 eq_refl). f_equal. lia.
    + rewrite (IH (i + 1) _ (S a)); cbn [drv allocs calls].
      * rewrite Hw, <- !app_assoc. cbn. rewrite E1. reflexivity.
      * rewrite Hw. intros k Hk.
        replace (i + 1 + Z.of_nat k) with (i + Z.of_nat (S k)) by lia.
        destruct (Hl (S k)) as [F1 _]; [lia|]. split.
        -- rewrite F1. f_equal. lia.
        -- discriminate.
Qed.

(** [Detach] releases one port per entry of the port lists in use,
    whatever the lists hold. *)
Lemma release_capture_count n : forall i r,
  exists r',
    for_loop n i release_capture r = (r', Goes_on) /\
    drv r' = drv r /\
    count is_ReleasePort (calls r')
    = (count is_ReleasePort (calls r) + n)%nat.
Proof.
  induction n as [|n IH]; intros i r; cbn [for_loop].
  - exists r. repeat split. lia.
  - unfold release_capture at 1.
    destruct (IH (i + 1) (emit (ReleasePort (fRefNum (drv r))
                                  (fCapturePortList (drv r) i)) r))
      as (r' & -> & Hd & Hc).
    exists r'. split; [reflexivity|]. split; [exact Hd|].
    rewrite Hc. unfold emit. cbn [calls]. rewrite count_app. cbn. lia.
Qed.

Lemma release_playback_count n : forall i r,
  exists r',
    for_loop n i release_playback r = (r', Goes_on) /\
    drv r' = drv r /\
    count is_ReleasePort (calls r')
    = (count is_ReleasePort (calls r)
       + n * if fWithMonitorPorts (drv r) then 2 else 1)%nat.
Proof.
  induction n as [|n IH]; intros i r; cbn [for_loop].
  - exists r. repeat split. lia.
  - unfold release_playback at 1. unfold emit. cbn [drv allocs calls].
    destruct (fWithMonitorPorts (drv r)) eqn:Hw.
    + match goal with
      | |- context [for_loop n (i + 1) release_playback ?x] =>
          destruct (IH (i + 1) x) as (r' & -> & Hd & Hc)
      end.
      cbn [drv calls] in Hd, Hc. rewrite Hw in Hc.
      exists r'. split; [reflexivity|]. split; [exact Hd|].
      rewrite Hc, !count_app. cbn. lia.
    + match goal with
      | |- context [for_loop n (i + 1) release_playback ?x] =>
          destruct (IH (i + 1) x) as (r' & -> & Hd & Hc)
      end.
      cbn [drv calls] in Hd, Hc. rewrite Hw in Hc.
      exists r'. split; [reflexivity|]. split; [exact Hd|].
      rewrite Hc, !count_app. cbn. lia.
Qed.

Lemma Detach_count d :
  count is_ReleasePort (fst (Detach d)) = ports_needed d /\
  snd (Detach d) = 0.
Proof.
  unfold Detach, ports_needed. split; [|reflexivity]. cbn [fst].
  destruct (release_capture_count (Z.to_nat (fCaptureChannels d)) 0
              {| drv := d; allocs := 0; calls := [] |})
    as (r1 & -> & Hd1 & Hc1).
  cbn [fst].
  destruct (release_playback_count (Z.to_nat (fPlaybackChannels d)) 0 r1)
    as (r2 & -> & Hd2 & Hc2).
  cbn [fst]. rewrite Hc2, Hc1, Hd1. cbn. reflexivity.
Qed.

Lemma attaching_start d :
  attaching d {| drv := d; allocs := 0; calls := [] |}.
Proof. repeat split. Qed.

(** X13. When the graph manager grants every port [Attach] asks for,
    [Attach] returns 0 after exactly [ports_needed d] calls of
    [AllocatePort] (one per capture channel, then one per playback channel,
    or two with monitor ports) and without releasing anything; and
    [Detach] on the attached driver releases precisely the ports that were
    granted, each once and in the order they were granted, and returns 0. *)
Theorem detach_releases_attached_ports d :
  (forall k, (k < ports_needed d)%nat -> answer k <> NO_PORT) ->
  exists r,
    Attach d = (r, 0) /\
    count is_AllocatePort (calls r) = ports_needed d /\
    count is_ReleasePort (calls r) = O /\
    Detach (drv r)
    = (map (fun k => ReleasePort (fRefNum d) (answer k))
         (seq 0 (ports_needed d)), 0).
Proof.
  intros Hans. unfold AudioDriver.Attach, ports_needed in *.
  set (r0 := {| drv := d; allocs := 0; calls := [] |}).
  set (c := Z.to_nat (fCaptureChannels d)) in *.
  set (p := Z.to_nat (fPlaybackChannels d)) in *.
  destruct (capture_loop_registers c 0 r0)
    as (r1 & Hloop1 & Ha1 & _ & Hval1).
  { intros k Hk. apply Hans. cbn [allocs r0].
    destruct (fWithMonitorPorts d); lia. }
  rewrite Hloop1.
  pose proof (for_loop_invariant (attaching d) _
                (capture_body_attaching d) _ _ _ _ _
                (attaching_start d) Hloop1) as Hinv1.
  assert (fWithMonitorPorts (drv r1) = fWithMonitorPorts d) as Hw1
    by apply Hinv1.
  destruct (playback_loop_registers p 0 r1)
    as (r2 & Hloop2 & Ha2 & Hw2 & Hc2 & _ & Hval2).
  { intros k Hk. rewrite Hw1 in Hk. rewrite Ha1. apply Hans.
    cbn [allocs r0]. destruct (fWithMonitorPorts d); lia. }
  rewrite Hloop2.
  pose proof (for_loop_invariant (attaching d) _
                (playback_body_attaching d) _ _ _ _ _ Hinv1 Hloop2)
    as (Hcnt & Hrel & Hcc & Hpc & Hwm & Href).
  exists r2. split; [reflexivity|].
  rewrite Hw1 in Ha2, Hval2. cbn [allocs r0] in Ha1, Hval1.
  split; [rewrite Hcnt, Ha2, Ha1; reflexivity|]. split; [exact Hrel|].
  unfold Detach. rewrite Hcc, Hpc. fold c p.
  rewrite (release_capture_loop c 0 _ 0); cbn [drv allocs calls fst].
  - rewrite (release_playback_loop p 0 _ c); cbn [drv allocs calls fst].
    + rewrite Hwm, Href, seq_app, List.map_app. reflexivity.
    + rewrite Hwm. intros k Hk. destruct (Hval2 k Hk) as [E1 E2].
      rewrite Ha1 in E1, E2. split; [exact E1 | exact E2].
  - intros k Hk. rewrite Hc2. apply Hval1. exact Hk.
Qed.

(** X14. When the graph manager refuses a port, [Attach] returns -1 at
    once: the refused [AllocatePort] is its last, the report of the
    refusal (for the name that was asked) is its last call, and it
    releases none of the ports granted before.  [Detach] on the driver so
    left still makes [ports_needed d] releases, one per entry of the port
    lists in use, more than the ports that were granted. *)
Theorem attach_stops_at_first_refusal d k :
  (k < ports_needed d)%nat ->
  (forall j, (j < k)%nat -> answer j <> NO_PORT) ->
  answer k = NO_PORT ->
  exists r,
    Attach d = (r, -1) /\
    count is_AllocatePort (calls r) = S k /\
    count is_ReleasePort (calls r) = O /\
    ends_refused (calls r) /\
    count is_ReleasePort (fst (Detach (drv r))) = ports_needed d /\
    (k < count is_ReleasePort (fst (Detach (drv r))))%nat.
Proof.
  intros Hk Hok Hno. unfold AudioDriver.Attach.
  set (r0 := {| drv := d; allocs := 0; calls := [] |}).
  assert (forall r,
            attaching d r -> allocs r = S k -> ends_refused (calls r) ->
            count is_AllocatePort (calls r) = S k /\
            count is_ReleasePort (calls r) = O /\
            ends_refused (calls r) /\
            count is_ReleasePort (fst (Detach (drv r))) = ports_needed d /\
            (k < count is_ReleasePort (fst (Detach (drv r))))%nat) as Hend.
  { intros r (Hcnt & Hrel & Hcc & Hpc & Hwm & _) Ha He.
    assert (ports_needed (drv r) = ports_needed d) as Hn
      by (unfold ports_needed; rewrite Hcc, Hpc, Hwm; reflexivity).
    rewrite (proj1 (Detach_count (drv r))), Hn.
    repeat split; try assumption; congruence. }
  unfold ports_needed in Hk.
  set (c := Z.to_nat (fCaptureChannels d)) in *.
  set (p := Z.to_nat (fPlaybackChannels d)) in *.
  destruct (Nat.lt_ge_cases k c) as [Hkc|Hkc].
  - destruct (capture_loop_refused c 0 r0 k Hkc)
      as (r1 & Hloop1 & Ha1 & He1).
    { intros j Hj. apply Hok. exact Hj. }
    { exact Hno. }
    rewrite Hloop1. exists r1. split; [reflexivity|].
    apply Hend; [|exact Ha1|exact He1].
    exact (for_loop_invariant (attaching d) _
             (capture_body_attaching d) _ _ _ _ _
             (attaching_start d) Hloop1).
  - destruct (capture_loop_registers c 0 r0) as (r1 & Hloop1 & Ha1 & _).
    { intros j Hj. apply Hok. cbn [allocs r0]. lia. }
    rewrite Hloop1. cbn [allocs r0] in Ha1.
    pose proof (for_loop_invariant (attaching d) _
                  (capture_body_attaching d) _ _ _ _ _
                  (attaching_start d) Hloop1) as Hinv1.
    assert (fWithMonitorPorts (drv r1) = fWithMonitorPorts d) as Hw1
      by apply Hinv1.
    destruct (playback_loop_refused p 0 r1 (k - c))
      as (r2 & Hloop2 & Ha2 & He2).
    { rewrite Hw1. destruct (fWithMonitorPorts d); lia. }
    { intros j Hj. rewrite Ha1. apply Hok. lia. }
    { rewrite Ha1. replace (0 + c + (k - c))%nat with k by lia. exact Hno. }
    rewrite Hloop2. exists r2. split; [reflexivity|].
    apply Hend; [|lia|exact He2].
    exact (for_loop_invariant (attaching d) _
             (playback_body_attaching d) _ _ _ _ _ Hinv1 Hloop2).
Qed.

End DriverPorts.

Section DriverPortsWitness.
Import AudioDriver.

Lemma detach_releases_attached_ports_witness :
  (forall k, (k < ports_needed stereo_in_mono_out)%nat ->
     grants_all k <> 4294967294) /\
  exists r,
    Attach 4294967294 1 2 4 16 320 grants_all stereo_in_mono_out = (r, 0) /\
    Detach (drv r)
    = ([ReleasePort 0 1; ReleasePort 0 2; ReleasePort 0 3; ReleasePort 0 4],
       0).
Proof.
  assert (forall k, (k < ports_needed stereo_in_mono_out)%nat ->
            grants_all k <> 4294967294) as H.
  { intros k Hk. unfold ports_needed in Hk. cbn in Hk.
    unfold grants_all. lia. }
  split; [exact H|].
  destruct (detach_releases_attached_ports 4294967294 1 2 4 16 320
              grants_all stereo_in_mono_out H) as (r & HA & _ & _ & HD).
  exists r. split; [exact HA | exact HD].
Defined.

Lemma attach_stops_at_first_refusal_witness :
  (2 < ports_needed stereo_in_mono_out)%nat /\
  (forall j, (j < 2)%nat -> refuses_third j <> 4294967294) /\
  refuses_third 2 = 4294967294 /\
  exists r,
    Attach 4294967294 1 2 4 16 320 refuses_third stereo_in_mono_out
    = (r, -1) /\
    count is_AllocatePort (calls r) = 3%nat /\
    count is_ReleasePort (fst (Detach (drv r))) = 4%nat.
Proof.
  assert (2 < ports_needed stereo_in_mono_out)%nat as Hk
    by (unfold ports_needed; cbn; lia).
  assert (forall j, (j < 2)%nat -> refuses_third j <> 4294967294) as Hok.
  { intros j Hj. unfold refuses_third.
    destruct (Nat.eqb_spec j 2); lia. }
  split; [exact Hk|]. split; [exact Hok|]. split; [reflexivity|].
  destruct (attach_stops_at_first_refusal 4294967294 1 2 4 16 320
              refuses_third stereo_in_mono_out 2 Hk Hok eq_refl)
    as (r & HA & Hc & _ & _ & HD & _).
  exists r. split; [exact HA|]. split; [exact Hc | exact HD].
Defined.

End DriverPortsWitness.

(** ** JackAudioDriver: the process cycle *)

Section DriverCycle.
Import AudioDriver.

(** X15. [Process] reports no error to its caller: in either mode, and
    whatever [Read], [Write], the engine, the slaves and the suspension
    answer, it returns 0.  [Read] is always its first call, and when
    [Read] fails the report of the error is the only call that follows:
    nothing is written, the engine does not run and the graph is not
    resumed. *)
Theorem process_swallows_errors d a :
  snd (Process d a) = 0 /\
  (exists rest, fst (Process d a) = CallRead :: rest) /\
  (Read_result a < 0 ->
   exists msg, fst (Process d a) = [CallRead; jack_error msg []]).
Proof.
  unfold Process, ProcessSync, ProcessAsync.
  destruct (Z.ltb_spec (Read_result a) 0) as [Hr|Hr].
  - destruct (fSyncMode d); cbn; repeat split; eauto.
  - destruct (fSyncMode d), (fIsMaster d), (EngineProcess_result a),
      (ProcessSlaves_result a <? 0), (SuspendRefNum_result a <? 0),
      (Write_result a <? 0); cbn;
      (split; [reflexivity|]; split; [eauto | intros; lia]).
Qed.

(** X16. Where [Write] stands in a cycle whose [Read] succeeded.  In
    asynchronous mode [Write] is called right after [Read], before the
    engine runs.  In synchronous mode the master calls [Write] after the
    engine, whether or not the engine, the slaves and the suspension
    succeeded, and only the report of a failed write can follow it; a
    driver that is not master only resumes the graph, and never calls
    [Write]. *)
Theorem write_position_in_cycle d a :
  0 <= Read_result a ->
  (fSyncMode d = false ->
   exists after,
     split_at_write (fst (Process d a)) = Some ([CallRead], after)) /\
  (fSyncMode d = true -> fIsMaster d = true ->
   exists before after,
     split_at_write (fst (Process d a)) = Some (before, after) /\
     List.In (EngineProcess (fLastWaitUst d)) before /\
     (0 <= Write_result a -> after = []) /\
     (Write_result a < 0 -> after = [jack_error "Process: write error" []])) /\
  (fSyncMode d = true -> fIsMaster d = false ->
   fst (Process d a) = [CallRead; ResumeRefNum]).
Proof.
  intros Hr. unfold Process, ProcessSync, ProcessAsync.
  destruct (Z.ltb_spec (Read_result a) 0) as [Hr'|_]; [lia|].
  split; [|split].
  - intros ->.
    destruct (Write_result a <? 0), (fIsMaster d); cbn; eauto.
  - intros -> ->.
    destruct (Z.ltb_spec (Write_result a) 0) as [Hw|Hw];
      destruct (EngineProcess_result a), (ProcessSlaves_result a <? 0),
        (SuspendRefNum_result a <? 0); cbn;
      eexists _, _; (split; [reflexivity|]);
      (split; [cbn; tauto|]); split; intros; (reflexivity || lia).
  - intros -> ->. reflexivity.
Qed.

End DriverCycle.

Section DriverCycleWitness.
Import AudioDriver.

Lemma process_swallows_errors_witness :
  Read_result read_failed < 0 /\
  exists msg,
    fst (Process stereo_in_mono_out read_failed)
    = [CallRead; jack_error msg []].
Proof.
  assert (Read_result read_failed < 0) as H by (cbn; lia).
  split; [exact H|].
  exact (proj2 (proj2 (process_swallows_errors stereo_in_mono_out
                         read_failed)) H).
Defined.

Lemma write_position_in_cycle_witness :
  0 <= Read_result all_well /\
  exists after,
    split_at_write (fst (Process stereo_in_mono_out all_well))
    = Some ([CallRead], after).
Proof.
  assert (0 <= Read_result all_well) as H by (cbn; lia).
  split; [exact H|].
  exact (proj1 (write_position_in_cycle stereo_in_mono_out all_well H)
           eq_refl).
Defined.

End DriverCycleWitness.
